(* ===== verification/_CoqProject ===== *)
-Q . S2P
Prelude.v
JsString.v
Binary64.v
Rounding.v
JsNumber.v
Literals.v
IntegerText.v
JsValue.v
Product.v
React.v
UseProduct.v
CartContext.v
CartStore.v
CartMap.v
ProductCard.v
ProductMeta.v
ProductImage.v
ProductInfo.v
ProductDetail.v
Storefront.v
App.v
TestingLibrary.v
Tests.v
CardLayout.v
PanelQueries.v
