(* ===== verification/Prelude.v ===== *)
(** * A verification development for the product-catalog storefront views

    ** The program

    The repository renders a product catalogue with React.  The sources
    under [src/] are three function components and the test files of five:

    - [src/src/components/ProductCard/index.tsx]: the card of one product
      (thumbnail, title, star glyphs, rating, price, stock indicator and an
      "Add to Cart" button wired to the cart context);
    - [src/src/components/ProductMeta/index.tsx]: brand, category, stock and
      rating of "the current product", read through the [useProduct] hook;
    - [src/src/components/ProductImage/index.tsx]: the main image of the
      current product, with its fallback to the thumbnail;
    - the [__tests__] files of ProductCard, ProductMeta, ProductImage,
      ProductInfo and ProductDetail, which fix the shape of what
      [useProduct] returns, mock the cart context and the panels of the
      detail page, and pin the rendered strings.

    The hook [useProduct], the context [useCartContext], the [Product] type,
    the [ui/] components, ProductInfo and ProductDetail are not under
    [src/].  The development models the two stores after sections 3 to 5
    of the specification and ProductInfo and ProductDetail after their
    tests, and says so where it does.

    ** How the code is modelled

    A component is a JavaScript function from props and hook results to a
    React element.  Evaluating it can end abruptly ([TypeError] when a
    method is called on [undefined], [RangeError] from
    [String.prototype.repeat]), so a component is a function into the
    [completion] monad of this file, and its result is the element tree of
    [React.v].  The built-ins the components call are modelled from
    ECMA-262 on IEEE binary64 values; none is left abstract.

    - [Prelude.v] (this file): abrupt completions as a sum type with the
      notation [x <- c ;; k] in [js_scope], the hint database [js], the
      tactics of the development, lemmas on strings, options and powers
      shared by the components.
    - [JsString.v]: strings as [string] (a sequence of UTF-8 bytes; the
      components never index or measure strings, so code units are not
      modelled), [String.prototype.repeat], decimal digit strings
      ([decimal_digits]) and their parser, with the round trip.
    - [Binary64.v]: a Number is a [spec_float] of the Standard Library
      (sign, mantissa, exponent; zeros, infinities, NaN); [is_double] says
      it is a binary64 value and [toR] is its exact rational value.
      Numeric literals are [number_of_decimal] and [number_of_Z], correctly
      rounded by [SpecFloat].  Lemmas: integers of at most 53 bits are
      exact; a binary64 value that is not an integer is below [2^52].
    - [Rounding.v]: [SFdiv] followed through its steps: the quotient of an
      integer of at most 53 bits by a positive integer is a number of 53
      bits within half a unit in its last place of the quotient, and the
      quotient itself when that fits in 53 bits.
    - [JsNumber.v]: [Number::lessThan] and [<], [Number::equal],
      [Math.round], [ToIntegerOrInfinity], [Number.prototype.toFixed] and
      [Number::toString], with the theorems on rounding.
    - [Literals.v]: decimal literals with a given number of decimals
      ([literal c f] is [c / 10^f]), and [toFixed] and [Math.round] on them.
    - [IntegerText.v]: the digit search of [Number::toString] on integers
      agrees with [decimal_digits], and with [integer_digits], which
      strips the trailing zeros without a search.
    - [JsValue.v]: the operators on values that may be [undefined]
      (an [option]): [ToBoolean], [||], [?.], [x[0]], [String(v)] and
      template interpolation, [===], a method call on [undefined], and
      [String.prototype.repeat] with its [RangeError].
    - [Product.v]: the product record as it exists at run time: every
      property may be absent, as the tests build partial objects.
    - [React.v]: React elements (type, props, children), the rule by which
      children become text, queries on the tree, and [substitute], which
      puts a component in the place of an element type, as a test double
      of a module does.
    - [UseProduct.v]: the record [{data, isLoading, isError, error}] that
      the tests feed to the components; after the specification, the
      [FetchState] sum, the accessor [result_of] and the product store: a
      record of the current identity, its fetch state and the requests in
      flight, with the events [Visit], [Resolve], [Retry] and [Leave],
      one function per event ([visit], [resolve], [retry], [leave]), the
      step relation [step] and the reachable stores; [state_of_result]
      reads the fetch state back from the record.
    - [CartContext.v]: what [useCartContext()] gives the card
      ([Class CartContext], from [ProductCard/index.tsx]), the click
      handler run against it, the recording double of the card's test, and
      what a cart promises ([Class LawfulCart]: a count per identity that
      every addition raises by one).
    - [CartStore.v]: the cart store of the specification, a list of
      [CartLine]s with [cart_add] as merge by identity, as an instance of
      both classes.
    - [CartMap.v]: the cart as the specification words it, a collection
      keyed by [productId]: a finite map (stdpp's [gmap]) from integer
      identities to quantities, the abstraction [cart_map] from the
      list of lines to it, and the set [cart_keys] of the identities in
      the cart.
    - [ProductCard.v], [ProductMeta.v], [ProductImage.v]: the three
      components, sub-expression by sub-expression ([isLowStock], [stars],
      [ratingCount], [priceText], [stockLabel], [brandLabel],
      [ratingText], [imageSrc]), composed as the JSX composes them, with
      the fixtures of their test files; the double of [Link] of the
      card's test is [ProductCardTest.Link].
    - [ProductInfo.v], [ProductDetail.v]: the two components whose tests
      are under [src/], modelled after those tests.
    - [Storefront.v]: the components over the stores: clicks on cards
      against a cart, the views over the product store, the detail page.
    - [App.v]: the two stores side by side under what a user does: clicks
      on the buttons and the links of cards, and the events of the product
      store.  A link carries [String(product.id)] as its [productId]
      ([link_param], from the card's source); following it mounts the
      product page with that identity ([follow], after section 6 of the
      specification).
    - [TestingLibrary.v]: the queries and matchers the test files call
      ([getByText] with strings and regular expressions, [getByRole],
      [querySelector('[class*=...]')], [toContainElement], ...), on the
      element tree, with what they are measured against: the texts a
      regular expression denotes ([denotes]), the form of a normalized
      text ([normal_text]), the node at a position ([subtree]) and the
      relation [contains] of the tree.
    - [Tests.v]: every [it] of the five test files as a boolean.
    - [CardLayout.v]: the queries of the tests of the card, run on the card
      of any product.
    - [PanelQueries.v]: the queries of the tests of ProductImage and
      ProductMeta, run on the panels of any result of the hook.  Both
      files go through the list of the own texts of a tree ([texts]) and
      the positions at which a matcher accepts one ([hits]); the hint
      database [queries] compares two such lists text by text.

    ** What is proved

    - Numbers ([JsNumber.v]): [toFixed] picks the integer closest to
      [x * 10^f], the larger on a tie, prints it with exactly [f] digits
      after the point (a parser reads the text back), keeps the sign of
      a negative number also before zeros, and throws exactly when [f] is
      outside [0..100]; [Math.round] of a binary64 value is the closest
      integer, exactly, and a binary64 value again; [<] is the order of
      the exact values; the text of an integer below [10^15] is its
      decimal digits; the texts of [toString] and [toFixed] are never
      empty and have no character but digits, sign, point, exponent
      mark and the letters of [NaN] and [Infinity].  A decimal literal of digits below [2^50] is a
      binary64 value, and [toFixed] with as many decimals as the literal
      has prints the literal back; a literal that is a multiple of [1/64]
      is exact, so [Math.round] of a literal of digits below [2^47] is
      the integer nearest to the decimal, the larger on a tie, and
      [toFixed] with fewer decimals than the literal has rounds the
      decimal half up unless the literal is a tie that binary64 does not
      hold exactly ([Rounding.v], [Literals.v]).
    - ProductCard: the stock indicator is "Only n left!" exactly when the
      stock is a number below 10, and 10 is not low; the stars are
      [Math.round(rating)] glyphs, between 0 and 5 for a rating within
      [[0, 5]], and [(r + 5) / 10] of them for a rating written [r / 10];
      price and rating have two and one decimals, and a price
      written with two decimals shows as written; the card throws exactly
      when the stars cannot be built or the rating or the price is
      missing; clicking the button adds the card's product.
    - ProductMeta, ProductImage, ProductInfo: they render for every
      result of [useProduct]; the fallbacks ("N/A", thumbnail) are taken
      exactly when the code's [||] takes them; a rating written with
      several decimals is shown rounded to one, as a decimal ([4.567] as
      "4.6"), away from the ties that binary64 misses ([4.35] shows as
      "4.3").
    - Cart: for every cart that keeps the promise of [LawfulCart] no click
      is lost; the cart store keeps it, with at most one line per
      identity, and its quantities are the calls the recording double has
      seen (a refinement of the history of calls); the list of lines
      implements the finite map keyed by identity, and after any
      additions the cart holds the identities it held and those of the
      products added, no other ([CartMap.v]).
    - Product store: the accessor's three flags are exclusive; a stale
      response changes nothing of what the views show; the race of the
      specification resolves by identity; a loading cycle can always end;
      an ended cycle only changes by a new one, which a retry after an
      error starts; the record of the accessor and the fetch state
      determine each other; the detail page renders in every state.
    - Application ([App.v]): the identity of a product survives the trip
      through the link of its card; the stores do not interfere, however
      additions and navigation interleave; the invariants of both stores
      hold whatever the user does; the race of the specification, from
      two clicks on cards, resolves to the product opened last.
    - Tests: all 28 tests of the five test files pass on the model.
    - Test queries ([TestingLibrary.v]): the matcher of regular
      expressions accepts exactly what the pattern denotes; the
      normalizer brings every text to its normal form and changes no
      text in that form; the elements of a tree have distinct positions
      and [toContainElement] on positions is containment in the tree.
    - Layout of the card ([CardLayout.v]): what the tests of the card
      check on one product holds for every product whose title is none
      of the texts the tests look for: the stock indicator and the
      button are found once each, inside the section the tests query;
      a product titled "Add to Cart" shows why the title matters.
    - Queries on the panels ([PanelQueries.v]): the checks of the image
      test pass exactly when the expected [src] is the first image or
      else the thumbnail and the expected [alt] is the title and is not
      empty (an image with an empty [alt] has no role); each label of the
      meta panel is found once, in the first cell of its row, and the
      expression built from the rating text finds the rating once, for
      every result of the hook whose brand and category do not read as
      what is looked for; a brand that reads "Stock" shows why, and the
      fallback of a missing brand is found in the cell of the brand.

    ** Bounds and fuel

    Numbers are finite [spec_float]s of any precision in the definitions;
    a theorem that needs the binary64 format states [is_double].  The
    digit search of [Number::toString] ([shortest_digits]) tries the digit
    counts 1 to 16 and then gives the closest 17-digit text: 17
    significant digits identify every binary64 value, so no number needs
    more.  On an integer below [10^15] in magnitude the search is proved
    to end within its fuel, at the decimal digits of the integer
    ([IntegerText.v]): below [10^15] every candidate of the search is an
    integer of fewer than 54 bits, which binary64 holds exactly; any fuel
    from 15 on gives the same digits.  For other numbers the search is
    evaluated, not proved to end before the 17-digit text.
    Decimal literals are treated for digits below [2^50] (about
    [1.1 * 10^15]) and at most 100 decimals: there the quotient that
    [SFdiv] rounds has 53 or 54 bits and a normal exponent, and half a
    unit in the last place is less than half a unit of the last decimal.
    Exactness is stated for digits below [2^47], which leaves the six bits
    a multiple of [1/64] may need.
    The finite map of [CartMap.v] has integer keys: a line whose identity
    is no integer has no key and does not show in the map.
    [decimal_digits] runs on fuel [digits_fuel n], one more than the
    binary logarithm of [n], which exceeds the number of decimal digits.
    [toFixed] is stated for arguments below [10^21], where ECMA-262 stops
    using the fixed notation.  Strings have no length limit (engines throw
    a [RangeError] past about [2^29] code units; no input within the
    specification reaches it).

    ** Not modelled

    CSS modules (a class name is its key in the stylesheet object), the
    DOM that React builds (a component of the UI kit stands for the one
    element it renders), the router ([Link] is an element with its [to]
    and [params]; of the route of the product page only that it takes
    [productId] as the identity is modelled), the network transport behind
    [useProduct], the ProductNavigation and ProductActions components
    (neither their code nor tests of them are under [src/]), and white
    space other than ASCII in the text normaliser of the test queries. *)

From Stdlib Require Import ZArith String Ascii List Bool Lia.
Import ListNotations.

Declare Scope js_scope.
Delimit Scope js_scope with js.

(** ** Abrupt completions *)

(** The two native errors the components can raise. *)
Inductive native_error : Type :=
| TypeError
| RangeError.

(** The result of evaluating an expression: a value, or a thrown error. *)
Inductive completion (A : Type) : Type :=
| Normal (a : A)
| Throw (e : native_error).

Arguments Normal {A} a.
Arguments Throw {A} e.

Definition bind {A B : Type} (c : completion A) (k : A -> completion B) : completion B :=
  match c with
  | Normal a => k a
  | Throw e => Throw e
  end.

Definition is_normal {A : Type} (c : completion A) : bool :=
  match c with
  | Normal _ => true
  | Throw _ => false
  end.

Notation "x <- c ;; k" := (bind c (fun x => k))
  (at level 20, c at level 100, k at level 200) : js_scope.

Local Open Scope js_scope.

(** ** Tactics of the development *)

(** Case analysis on the scrutinee of the first [match] or [if] of the goal. *)
Ltac case_head :=
  match goal with
  | |- context [match ?x with _ => _ end] =>
      let E := fresh "E" in destruct x eqn:E
  end.

(** The same in a hypothesis. *)
Ltac case_head_in H :=
  match type of H with
  | context [match ?x with _ => _ end] =>
      let E := fresh "E" in destruct x eqn:E
  end.

(** Closes a goal about booleans obtained from comparisons on [Z]. *)
Ltac zbool :=
  repeat match goal with
  | H : (_ <? _)%Z = true |- _ => apply Z.ltb_lt in H
  | H : (_ <? _)%Z = false |- _ => apply Z.ltb_ge in H
  | H : (_ <=? _)%Z = true |- _ => apply Z.leb_le in H
  | H : (_ <=? _)%Z = false |- _ => apply Z.leb_gt in H
  | H : (_ =? _)%Z = true |- _ => apply Z.eqb_eq in H
  | H : (_ =? _)%Z = false |- _ => apply Z.eqb_neq in H
  | H : (_ && _)%bool = true |- _ => apply andb_true_iff in H; destruct H
  | H : (_ || _)%bool = false |- _ => apply orb_false_iff in H; destruct H
  | |- (_ <? _)%Z = true => apply Z.ltb_lt
  | |- (_ <? _)%Z = false => apply Z.ltb_ge
  | |- (_ <=? _)%Z = true => apply Z.leb_le
  | |- (_ <=? _)%Z = false => apply Z.leb_gt
  | |- (_ =? _)%Z = true => apply Z.eqb_eq
  | |- (_ =? _)%Z = false => apply Z.eqb_neq
  end; try lia.

Create HintDb js discriminated.
Create Rewrite HintDb js.

(** ** Laws of the completion monad *)

Section Completion.
Context {A B C : Type}.

Lemma Normal_inj (a a' : A) : Normal a = Normal a' -> a = a'.
Proof. congruence. Qed.

Lemma bind_Normal (a : A) (k : A -> completion B) : bind (Normal a) k = k a.
Proof. reflexivity. Qed.

Lemma bind_Throw (e : native_error) (k : A -> completion B) : bind (Throw e) k = Throw e.
Proof. reflexivity. Qed.

Lemma bind_ret (c : completion A) : bind c Normal = c.
Proof. destruct c; reflexivity. Qed.

Lemma bind_assoc (c : completion A) (k : A -> completion B) (h : B -> completion C) :
  bind (bind c k) h = bind c (fun a => bind (k a) h).
Proof. destruct c; reflexivity. Qed.

(** A sequence completes normally exactly when both of its parts do. *)
Lemma bind_Normal_inv (c : completion A) (k : A -> completion B) (b : B) :
  bind c k = Normal b <-> exists a, c = Normal a /\ k a = Normal b.
Proof.
  destruct c as [a|e]; simpl; split.
  - eauto.
  - intros (a' & Ha & Hk). now inversion Ha; subst.
  - discriminate.
  - intros (a' & Ha & _). discriminate.
Qed.

(** A sequence throws when its first part throws, or when the first part
    yields a value on which the rest throws. *)
Lemma bind_Throw_inv (c : completion A) (k : A -> completion B) (e : native_error) :
  bind c k = Throw e <-> c = Throw e \/ exists a, c = Normal a /\ k a = Throw e.
Proof.
  destruct c as [a|e']; simpl; split.
  - eauto.
  - intros [H | (a' & Ha & Hk)]; [discriminate | now inversion Ha; subst].
  - intros H; left; congruence.
  - intros [H | (a' & Ha & _)]; [congruence | discriminate].
Qed.

Lemma is_normal_bind (c : completion A) (k : A -> completion B) :
  is_normal (bind c k) = true <->
  exists a, c = Normal a /\ is_normal (k a) = true.
Proof.
  destruct c as [a|e]; simpl; split.
  - eauto.
  - intros (a' & Ha & Hk). now inversion Ha; subst.
  - discriminate.
  - intros (a' & Ha & _). discriminate.
Qed.

End Completion.

#[export] Hint Rewrite @bind_Normal @bind_Throw @bind_ret : js.

(** ** Strings *)

Local Open Scope string_scope.

Lemma append_nil_r (s : string) : s ++ EmptyString = s.
Proof. induction s as [|c s IH]; simpl; [reflexivity | now rewrite IH]. Qed.

Lemma append_assoc (s t u : string) : (s ++ t) ++ u = s ++ (t ++ u).
Proof. induction s as [|c s IH]; simpl; [reflexivity | now rewrite IH]. Qed.

Lemma length_append (s t : string) :
  String.length (s ++ t) = (String.length s + String.length t)%nat.
Proof. induction s as [|c s IH]; simpl; [reflexivity | now rewrite IH]. Qed.

Lemma append_inv_head (s t u : string) : s ++ t = s ++ u -> t = u.
Proof. induction s as [|c s IH]; simpl; intros H; [assumption | inversion H; auto]. Qed.

Lemma append_eq_nil (s t : string) : s ++ t = EmptyString -> s = EmptyString /\ t = EmptyString.
Proof. destruct s; simpl; [auto | discriminate]. Qed.

Lemma length_zero_iff_nil (s : string) : String.length s = 0%nat <-> s = EmptyString.
Proof. destruct s; simpl; split; congruence. Qed.

#[export] Hint Rewrite append_nil_r append_assoc length_append : js.
#[export] Hint Resolve append_nil_r append_assoc length_append : js.

(** ** Options *)

Lemma option_map_Some_inv {A B : Type} (f : A -> B) (o : option A) (b : B) :
  option_map f o = Some b <-> exists a, o = Some a /\ f a = b.
Proof.
  destruct o as [a|]; simpl; split.
  - intros H; inversion H; exists a; auto.
  - intros (a' & Ha & Hf). now inversion Ha; subst.
  - discriminate.
  - intros (a' & Ha & _). discriminate.
Qed.

Lemma option_map_None_inv {A B : Type} (f : A -> B) (o : option A) :
  option_map f o = None <-> o = None.
Proof. destruct o; simpl; split; congruence. Qed.

(** ** Integers *)

Local Open Scope Z_scope.

Lemma Zpow10_pos (n : Z) : 0 <= n -> 0 < 10 ^ n.
Proof. intros H. apply Z.pow_pos_nonneg; lia. Qed.

Lemma Zpow10_ge1 (n : Z) : 0 <= n -> 1 <= 10 ^ n.
Proof. intros H. pose proof (Zpow10_pos n H). lia. Qed.

Lemma Zpow2_pos (n : Z) : 0 <= n -> 0 < 2 ^ n.
Proof. intros H. apply Z.pow_pos_nonneg; lia. Qed.

Lemma Zpow10_succ (n : Z) : 0 <= n -> 10 ^ (n + 1) = 10 * 10 ^ n.
Proof. intros H. rewrite Z.pow_add_r by lia. lia. Qed.

#[export] Hint Resolve Zpow10_pos Zpow10_ge1 Zpow2_pos : js.
