(* ===== verification/JsString.v ===== *)
(** * Strings of the components

    Strings are [string]s holding UTF-8 bytes.  This file has the string
    built-ins the components call with integer arguments
    ([String.prototype.repeat]), the decimal digit strings ECMA-262 uses
    wherever a Number becomes text (with the parser that reads them back),
    zero padding as in [Number.prototype.toFixed], and predicates on the
    characters of a text ([all_chars], [lacks]). *)

From Stdlib Require Import ZArith String Ascii List Bool Lia.
From S2P Require Import Prelude.
Import ListNotations.

Local Open Scope string_scope.
Local Open Scope Z_scope.

(** ** Repetition *)

(** [n] copies of [s], as the last step of [String.prototype.repeat]. *)
Fixpoint repeat_string (s : string) (n : nat) : string :=
  match n with
  | O => EmptyString
  | S k => s ++ repeat_string s k
  end.

(** ** Decimal digits *)

(** The code unit of the digit [d], for [0 <= d <= 9]. *)
Definition digit_char (d : Z) : ascii := ascii_of_nat (48 + Z.to_nat d).

(** The digit a code unit stands for, if it is one of 0..9. *)
Definition digit_val (c : ascii) : option Z :=
  let n := Z.of_nat (nat_of_ascii c) in
  if (48 <=? n) && (n <=? 57) then Some (n - 48) else None.

(** The digits of [n], most significant first, in front of [acc]; [fuel]
    bounds the number of digits. *)
Fixpoint digits_aux (fuel : nat) (n : Z) (acc : string) : string :=
  match fuel with
  | O => acc
  | S fuel' =>
      if n <? 10 then String (digit_char n) acc
      else digits_aux fuel' (n / 10) (String (digit_char (n mod 10)) acc)
  end.

(** Fuel that covers the decimal digits of [n]: one more than its binary
    logarithm. *)
Definition digits_fuel (n : Z) : nat := S (Z.to_nat (Z.log2 n)).

(** "The decimal representation of [n], in order, with no leading zeroes",
    for [n >= 0]; zero is "0". *)
Definition decimal_digits (n : Z) : string := digits_aux (digits_fuel n) n EmptyString.

(** The value of a digit string read from the left onto [acc]; [None] when
    a character is no digit. *)
Fixpoint parse_aux (s : string) (acc : Z) : option Z :=
  match s with
  | EmptyString => Some acc
  | String c s' =>
      match digit_val c with
      | Some d => parse_aux s' (10 * acc + d)
      | None => None
      end
  end.

(** The integer a non-empty digit string denotes. *)
Definition parse_decimal (s : string) : option Z :=
  match s with
  | EmptyString => None
  | _ => parse_aux s 0
  end.

(** Every character of the string is a decimal digit. *)
Fixpoint all_digits (s : string) : bool :=
  match s with
  | EmptyString => true
  | String c s' =>
      match digit_val c with
      | Some _ => all_digits s'
      | None => false
      end
  end.

(** Every character of [s] passes [f]. *)
Fixpoint all_chars (f : ascii -> bool) (s : string) : bool :=
  match s with
  | EmptyString => true
  | String c s' => f c && all_chars f s'
  end.

(** A decimal digit. *)
Definition is_digit (c : ascii) : bool :=
  match digit_val c with
  | Some _ => true
  | None => false
  end.

(** A text without the character [c]. *)
Definition lacks (c : ascii) (t : string) : bool :=
  all_chars (fun x => negb (Ascii.eqb x c)) t.

Arguments digit_char : simpl never.
Arguments digit_val : simpl never.

(** ** Splitting *)

(** The first [n] characters and the rest. *)
Fixpoint split_at (n : nat) (s : string) : string * string :=
  match n, s with
  | O, _ => (EmptyString, s)
  | S _, EmptyString => (EmptyString, EmptyString)
  | S k, String c s' => let (a, b) := split_at k s' in (String c a, b)
  end.

(** The text before and after the first occurrence of [c]. *)
Fixpoint split_on (c : ascii) (s : string) : option (string * string) :=
  match s with
  | EmptyString => None
  | String x s' =>
      if Ascii.eqb x c then Some (EmptyString, s')
      else
        match split_on c s' with
        | Some (a, b) => Some (String x a, b)
        | None => None
        end
  end.

(** * Lemmas *)

(** ** Repetition *)

Lemma repeat_string_length (s : string) (n : nat) :
  String.length (repeat_string s n) = (n * String.length s)%nat.
Proof. induction n as [|n IH]; simpl; [reflexivity | rewrite length_append, IH; lia]. Qed.

Lemma repeat_string_add (s : string) (n m : nat) :
  repeat_string s (n + m) = repeat_string s n ++ repeat_string s m.
Proof. induction n as [|n IH]; simpl; [reflexivity | now rewrite IH, append_assoc]. Qed.

Lemma repeat_string_nil_iff (s : string) (n : nat) :
  s <> EmptyString -> (repeat_string s n = EmptyString <-> n = O).
Proof.
  intros Hs. destruct n as [|n]; simpl; split; try congruence.
  intros H. apply append_eq_nil in H. tauto.
Qed.

(** Two runs of a non-empty string are equal only when the counts are. *)
Lemma repeat_string_inj (s : string) (n m : nat) :
  s <> EmptyString -> repeat_string s n = repeat_string s m -> n = m.
Proof.
  intros Hs H. apply (f_equal String.length) in H.
  rewrite !repeat_string_length in H.
  assert (String.length s <> 0)%nat by (rewrite length_zero_iff_nil; exact Hs).
  nia.
Qed.

(** ** Splitting *)

Lemma split_at_append (n : nat) (s : string) :
  fst (split_at n s) ++ snd (split_at n s) = s.
Proof.
  revert s. induction n as [|n IH]; intros [|c s]; simpl; try reflexivity.
  specialize (IH s). destruct (split_at n s) as [a b]. simpl in *. now rewrite IH.
Qed.

Lemma split_at_length (n : nat) (s : string) :
  (n <= String.length s)%nat -> String.length (fst (split_at n s)) = n.
Proof.
  revert s. induction n as [|n IH]; intros [|c s]; simpl; intros H; try lia.
  specialize (IH s). destruct (split_at n s) as [a b]. simpl in *. rewrite IH; lia.
Qed.

Lemma split_at_exact (a b : string) : split_at (String.length a) (a ++ b) = (a, b).
Proof.
  induction a as [|c a IH]; simpl; [now destruct b | now rewrite IH].
Qed.

(** ** Digits *)

Lemma digit_val_char (d : Z) : 0 <= d <= 9 -> digit_val (digit_char d) = Some d.
Proof.
  intros H. unfold digit_val, digit_char.
  rewrite nat_ascii_embedding by lia.
  replace (Z.of_nat (48 + Z.to_nat d)) with (48 + d) by lia.
  replace ((48 <=? 48 + d) && (48 + d <=? 57)) with true.
  - f_equal; lia.
  - symmetry; apply andb_true_iff; split; zbool.
Qed.

Lemma digit_val_char_mod (n : Z) : digit_val (digit_char (n mod 10)) = Some (n mod 10).
Proof. apply digit_val_char. pose proof (Z.mod_pos_bound n 10). lia. Qed.

Lemma digit_val_range (c : ascii) (d : Z) : digit_val c = Some d -> 0 <= d <= 9.
Proof.
  unfold digit_val. intros H. case_head_in H; [|discriminate].
  inversion H; subst. zbool.
Qed.

(** A digit character is determined by its value. *)
Lemma digit_val_inj (c : ascii) (d : Z) : digit_val c = Some d -> c = digit_char d.
Proof.
  intros H. pose proof (digit_val_range _ _ H) as R. unfold digit_val in H.
  case_head_in H; [|discriminate]. inversion H; subst; clear H.
  unfold digit_char. rewrite <- (ascii_nat_embedding c) at 1. f_equal. lia.
Qed.

Lemma digits_aux_app (fuel : nat) (n : Z) (acc : string) :
  digits_aux fuel n acc = digits_aux fuel n EmptyString ++ acc.
Proof.
  revert n acc. induction fuel as [|fuel IH]; intros n acc; simpl; [reflexivity|].
  destruct (n <? 10); [reflexivity|].
  rewrite IH, (IH _ (String _ EmptyString)), append_assoc. reflexivity.
Qed.

(** Any two sufficient amounts of fuel give the same digits. *)
Lemma digits_aux_fuel (f1 f2 : nat) (n : Z) (acc : string) :
  0 <= n < 2 ^ Z.of_nat (S f1) -> n < 2 ^ Z.of_nat (S f2) ->
  digits_aux (S f1) n acc = digits_aux (S f2) n acc.
Proof.
  revert f2 n acc. induction f1 as [|f1 IH]; intros f2 n acc H1 H2.
  - simpl in *. replace (n <? 10) with true by (symmetry; zbool). reflexivity.
  - cbn [digits_aux]. destruct (n <? 10) eqn:E; [reflexivity|]. zbool.
    destruct f2 as [|f2]; [simpl in H2; lia|].
    rewrite !Nat2Z.inj_succ, !Z.pow_succ_r in H1, H2 by lia.
    apply IH; rewrite ?Nat2Z.inj_succ, ?Z.pow_succ_r by lia;
      (split || idtac); try (apply Z.div_pos; lia);
      apply Z.div_lt_upper_bound; lia.
Qed.

Lemma digits_fuel_enough (n : Z) : 0 <= n -> n < 2 ^ Z.of_nat (digits_fuel n).
Proof.
  intros H. unfold digits_fuel. rewrite Nat2Z.inj_succ, Z2Nat.id by apply Z.log2_nonneg.
  destruct (Z.eq_dec n 0) as [->|Hn]; [reflexivity|].
  apply Z.log2_spec; lia.
Qed.

Lemma decimal_digits_small (n : Z) :
  0 <= n < 10 -> decimal_digits n = String (digit_char n) EmptyString.
Proof.
  intros H. unfold decimal_digits, digits_fuel. simpl.
  replace (n <? 10) with true by (symmetry; zbool). reflexivity.
Qed.

(** The digits of [n >= 10] are those of [n / 10] followed by the last. *)
Lemma decimal_digits_step (n : Z) :
  10 <= n ->
  decimal_digits n = decimal_digits (n / 10) ++ String (digit_char (n mod 10)) EmptyString.
Proof.
  intros H. unfold decimal_digits at 1. unfold digits_fuel at 1. cbn [digits_aux].
  replace (n <? 10) with false by (symmetry; zbool).
  rewrite digits_aux_app. f_equal.
  pose proof (digits_fuel_enough n ltac:(lia)) as Hn.
  pose proof (digits_fuel_enough (n / 10) ltac:(apply Z.div_pos; lia)) as Hd.
  unfold digits_fuel in Hn. rewrite Nat2Z.inj_succ, Z.pow_succ_r in Hn by lia.
  destruct (Z.to_nat (Z.log2 n)) as [|k] eqn:Ek; [simpl in Hn; lia|].
  unfold decimal_digits, digits_fuel in *. apply digits_aux_fuel; [|exact Hd].
  split; [apply Z.div_pos; lia|].
  apply Z.div_lt_upper_bound; lia.
Qed.

(** Induction along the decimal digits of a natural number. *)
Lemma decimal_ind (P : Z -> Prop) :
  (forall n, 0 <= n < 10 -> P n) ->
  (forall n, 10 <= n -> P (n / 10) -> P n) ->
  forall n, 0 <= n -> P n.
Proof.
  intros Hs Hstep. apply Zlt_0_ind. intros n IH Hn.
  destruct (Z_lt_le_dec n 10) as [Hlt|Hge]; [apply Hs; lia|].
  apply Hstep; [exact Hge|]. apply IH. split; [apply Z.div_pos; lia|].
  apply Z.div_lt_upper_bound; lia.
Qed.

Lemma decimal_digits_nonempty (n : Z) : decimal_digits n <> EmptyString.
Proof.
  unfold decimal_digits, digits_fuel. cbn [digits_aux].
  destruct (n <? 10); [discriminate|].
  rewrite digits_aux_app. intros H. apply append_eq_nil in H. destruct H; discriminate.
Qed.

(** ** Parsing *)

Lemma parse_aux_app (s t : string) (acc : Z) :
  parse_aux (s ++ t) acc =
  match parse_aux s acc with
  | Some v => parse_aux t v
  | None => None
  end.
Proof.
  revert acc. induction s as [|c s IH]; intros acc; simpl; [reflexivity|].
  destruct (digit_val c); [apply IH | reflexivity].
Qed.

(** Reading the digits of [n] onto [acc] shifts [acc] by their number and
    adds [n]. *)
Lemma parse_aux_decimal_digits (n : Z) :
  0 <= n ->
  forall acc,
    parse_aux (decimal_digits n) acc =
    Some (acc * 10 ^ Z.of_nat (String.length (decimal_digits n)) + n).
Proof.
  intros Hn. pattern n. apply decimal_ind; [| |exact Hn]; clear n Hn.
  - intros n Hn acc. rewrite decimal_digits_small by lia.
    cbn [parse_aux String.length]. rewrite digit_val_char by lia.
    f_equal. change (Z.of_nat 1) with 1. lia.
  - intros n Hn IH acc. rewrite decimal_digits_step by lia.
    rewrite parse_aux_app, IH, length_append. cbn [parse_aux String.length].
    rewrite digit_val_char_mod.
    f_equal. rewrite Nat2Z.inj_add, Z.pow_add_r by lia.
    pose proof (Z.div_mod n 10 ltac:(lia)). change (Z.of_nat 1) with 1. lia.
Qed.

(** Round trip: the digits of a natural number denote it. *)
Lemma parse_decimal_digits (n : Z) : 0 <= n -> parse_decimal (decimal_digits n) = Some n.
Proof.
  intros Hn. unfold parse_decimal.
  destruct (decimal_digits n) eqn:E; [now apply decimal_digits_nonempty in E|].
  rewrite <- E, parse_aux_decimal_digits by exact Hn. f_equal; lia.
Qed.

Lemma decimal_digits_inj (n m : Z) :
  0 <= n -> 0 <= m -> decimal_digits n = decimal_digits m -> n = m.
Proof.
  intros Hn Hm H. apply (f_equal parse_decimal) in H.
  rewrite !parse_decimal_digits in H by assumption. congruence.
Qed.

Lemma parse_aux_zeros (k : nat) (acc : Z) :
  parse_aux (repeat_string "0" k) acc = Some (acc * 10 ^ Z.of_nat k).
Proof.
  revert acc. induction k as [|k IH]; intros acc.
  - cbn [repeat_string parse_aux]. f_equal; change (Z.of_nat 0) with 0; lia.
  - change (repeat_string "0" (S k)) with (String "0" (repeat_string "0" k)).
    cbn [parse_aux]. change (digit_val "0") with (Some 0). cbv beta iota.
    rewrite IH. f_equal. rewrite Nat2Z.inj_succ, Z.pow_succ_r by lia. lia.
Qed.

Lemma all_digits_app (s t : string) :
  all_digits (s ++ t) = all_digits s && all_digits t.
Proof.
  induction s as [|c s IH]; simpl; [reflexivity|].
  destruct (digit_val c); [exact IH | reflexivity].
Qed.

Lemma all_digits_repeat_zero (k : nat) : all_digits (repeat_string "0" k) = true.
Proof. induction k as [|k IH]; [reflexivity | exact IH]. Qed.

Lemma all_digits_decimal_digits (n : Z) : 0 <= n -> all_digits (decimal_digits n) = true.
Proof.
  intros Hn. pattern n. apply decimal_ind; [| |exact Hn]; clear n Hn.
  - intros n Hn. rewrite decimal_digits_small by lia. cbn [all_digits].
    now rewrite digit_val_char by lia.
  - intros n Hn IH. rewrite decimal_digits_step, all_digits_app, IH by lia.
    cbn [all_digits andb]. now rewrite digit_val_char_mod.
Qed.

(** ** Characters *)

Lemma all_chars_app (f : ascii -> bool) (s t : string) :
  all_chars f (s ++ t) = all_chars f s && all_chars f t.
Proof. induction s as [|c s IH]; cbn [append all_chars]; [reflexivity|]. now rewrite IH, andb_assoc. Qed.

Lemma lacks_app (c : ascii) (s t : string) : lacks c (s ++ t) = lacks c s && lacks c t.
Proof. apply all_chars_app. Qed.

Lemma all_chars_repeat (f : ascii -> bool) (s : string) (n : nat) :
  all_chars f s = true -> all_chars f (repeat_string s n) = true.
Proof.
  intros H. induction n as [|n IH]; [reflexivity|].
  cbn [repeat_string]. now rewrite all_chars_app, H, IH.
Qed.

Lemma all_chars_split_at (f : ascii -> bool) (n : nat) (s : string) :
  all_chars f s = true ->
  all_chars f (fst (split_at n s)) = true /\ all_chars f (snd (split_at n s)) = true.
Proof.
  revert s. induction n as [|n IH]; intros s H; [now split|].
  destruct s as [|c s]; [now split|]. cbn [split_at].
  cbn [all_chars] in H. apply andb_prop in H as [Hc Hs].
  destruct (IH s Hs) as [Ha Hb]. destruct (split_at n s) as [a b].
  cbn [fst snd all_chars] in *. now rewrite Hc, Ha, Hb.
Qed.

Lemma all_chars_impl (f g : ascii -> bool) (s : string) :
  (forall c, f c = true -> g c = true) -> all_chars f s = true -> all_chars g s = true.
Proof.
  intros H. induction s as [|c s IH]; [reflexivity|]. cbn [all_chars].
  intros [Hc Hs]%andb_prop. now rewrite (H c Hc), IH.
Qed.

Lemma all_digits_chars (s : string) : all_digits s = all_chars is_digit s.
Proof.
  induction s as [|c s IH]; [reflexivity|]. cbn [all_digits all_chars]. unfold is_digit.
  destruct (digit_val c); [exact IH | reflexivity].
Qed.

(** There are no digits below zero: the text is that of zero. *)
Lemma decimal_digits_negative (p : positive) : decimal_digits (Zneg p) = "0".
Proof. reflexivity. Qed.

Lemma decimal_digits_chars (n : Z) : all_chars is_digit (decimal_digits n) = true.
Proof.
  rewrite <- all_digits_chars. destruct n as [|p|p]; [reflexivity| |reflexivity].
  apply all_digits_decimal_digits. lia.
Qed.

(** ** Parsing digits *)

(** A string of digits always parses. *)
Lemma all_digits_parse (s : string) (acc : Z) :
  all_digits s = true -> exists v, parse_aux s acc = Some v.
Proof.
  revert acc. induction s as [|c s IH]; intros acc H; simpl in *; [eauto|].
  destruct (digit_val c); [apply IH; exact H | discriminate].
Qed.

(** ** Number of digits *)

(** A positive [n] with [k] digits lies in [[10^(k-1), 10^k)]. *)
Lemma decimal_digits_length (n : Z) :
  0 < n ->
  10 ^ (Z.of_nat (String.length (decimal_digits n)) - 1) <= n
  < 10 ^ Z.of_nat (String.length (decimal_digits n)).
Proof.
  intros Hn. assert (H0 : 0 <= n) by lia. revert Hn. pattern n.
  apply decimal_ind; [| |exact H0]; clear n H0.
  - intros n Hn Hp. rewrite decimal_digits_small by lia. cbn [String.length].
    change (Z.of_nat 1 - 1) with 0. change (Z.of_nat 1) with 1. lia.
  - intros n Hn IH _. rewrite decimal_digits_step, length_append by lia.
    cbn [String.length].
    assert (Hq : 0 < n / 10) by (apply Z.div_str_pos; lia).
    specialize (IH Hq). set (k := String.length (decimal_digits (n / 10))) in *.
    assert (Hk : (1 <= k)%nat).
    { destruct (decimal_digits (n / 10)) eqn:E;
        [now apply decimal_digits_nonempty in E | subst k; simpl; lia]. }
    replace (Z.of_nat (k + 1) - 1) with (Z.succ (Z.of_nat k - 1)) by lia.
    replace (Z.of_nat (k + 1)) with (Z.succ (Z.of_nat k)) by lia.
    rewrite !Z.pow_succ_r by lia.
    pose proof (Z.div_mod n 10 ltac:(lia)).
    pose proof (Z.mod_pos_bound n 10 ltac:(lia)). lia.
Qed.

Lemma decimal_digits_zero : decimal_digits 0 = "0".
Proof. reflexivity. Qed.

(** ** Text around a point *)

Lemma digit_val_not_point (c : ascii) (d : Z) : digit_val c = Some d -> Ascii.eqb c "." = false.
Proof.
  intros H. destruct (Ascii.eqb_spec c "."%char) as [->|]; [discriminate | reflexivity].
Qed.

Lemma split_on_point (a b : string) :
  all_digits a = true -> split_on "." (a ++ String "." b) = Some (a, b).
Proof.
  induction a as [|c a IH]; intros H; cbn [append split_on all_digits] in *.
  - reflexivity.
  - destruct (digit_val c) as [d|] eqn:E; [|discriminate].
    rewrite (digit_val_not_point _ _ E), (IH H). reflexivity.
Qed.

Lemma split_on_point_none (s : string) : all_digits s = true -> split_on "." s = None.
Proof.
  induction s as [|c s IH]; intros H; cbn [split_on all_digits] in *; [reflexivity|].
  destruct (digit_val c) as [d|] eqn:E; [|discriminate].
  rewrite (digit_val_not_point _ _ E), (IH H). reflexivity.
Qed.

(** Leading zeros do not change what a digit string denotes. *)
Lemma parse_aux_padded (k : nat) (n : Z) :
  0 <= n -> parse_aux (repeat_string "0" k ++ decimal_digits n) 0 = Some n.
Proof.
  intros H. rewrite parse_aux_app, parse_aux_zeros, parse_aux_decimal_digits by exact H.
  reflexivity.
Qed.

Lemma parse_decimal_nonempty (s : string) :
  s <> EmptyString -> parse_decimal s = parse_aux s 0.
Proof. destruct s; [congruence | reflexivity]. Qed.

#[export] Hint Rewrite repeat_string_length split_at_exact : js.
#[export] Hint Resolve decimal_digits_nonempty all_digits_decimal_digits
  all_digits_repeat_zero : js.
