(* ===== verification/Binary64.v ===== *)
(** * The binary64 format

    A Number is a [spec_float] of the Standard Library: a signed zero, a
    signed infinity, NaN, or [(-1)^s * m * 2^e].  [is_double] holds of the
    binary64 values, [toR] is the exact rational value of a finite number,
    and the numeric literals of the sources are the correctly rounded
    values of their decimals ([number_of_decimal], [number_of_Z]).  The
    lemmas are on the representation: the integers of at most 53 bits are
    numbers, exactly, and a binary64 value that is not an integer is below
    [2^52].  The rounding functions are the Standard Library's
    [SpecFloat]. *)

From Stdlib Require Import ZArith QArith Qround Qabs String List Bool Lia Lqa SpecFloat.
From S2P Require Import Prelude JsString.
Import ListNotations.

Local Open Scope Z_scope.

(** ** Values *)

Definition number : Type := spec_float.

(** The binary64 values among the numbers. *)
Definition is_double (x : number) : bool := valid_binary 53 1024 x.

Definition is_finite (x : number) : bool :=
  match x with
  | S754_zero _ | S754_finite _ _ _ => true
  | S754_infinity _ | S754_nan => false
  end.

Definition is_nan (x : number) : bool :=
  match x with
  | S754_nan => true
  | _ => false
  end.

(** [m * 2^e] as a rational. *)
Definition dyadic (m e : Z) : Q :=
  match e with
  | Zneg p => Qmake m (2 ^ p)
  | _ => inject_Z (m * 2 ^ e)
  end.

(** The mathematical value of a finite number; 0 for the others, which
    every caller treats before it asks. *)
Definition toR (x : number) : Q :=
  match x with
  | S754_finite s m e => dyadic (if s then Zneg m else Zpos m) e
  | _ => 0%Q
  end.

(** [10^z] as a rational, for any integer [z]. *)
Definition pow10 (z : Z) : Q :=
  match z with
  | Zneg p => Qmake 1 (10 ^ p)
  | _ => inject_Z (10 ^ z)
  end.

(** The number nearest to a rational, ties to even: the rounding of the
    quotient of two exact integers. *)
Definition number_of_Q (q : Q) : number :=
  match Qnum q with
  | Z0 => S754_zero false
  | Zpos a => SFdiv 53 1024 (S754_finite false a 0) (S754_finite false (Qden q) 0)
  | Zneg a => SFdiv 53 1024 (S754_finite true a 0) (S754_finite false (Qden q) 0)
  end.

(** The value of the decimal literal [m e z], that is [m * 10^z]. *)
Definition number_of_decimal (m z : Z) : number :=
  number_of_Q (inject_Z m * pow10 z).

(** The number nearest to an integer. *)
Definition number_of_Z (z : Z) : number := binary_normalize 53 1024 z 0 false.

(** The rational is an integer. *)
Definition is_integral (q : Q) : bool := Qeq_bool (inject_Z (Qfloor q)) q.

(** * Lemmas *)

(** ** Mantissas *)

Lemma iter_xO_spec (m k : positive) : Zpos (Pos.iter xO m k) = Zpos m * 2 ^ Zpos k.
Proof.
  induction k as [|k IH] using Pos.peano_ind.
  - simpl. lia.
  - rewrite Pos.iter_succ, Pos2Z.inj_succ, Z.pow_succ_r by lia.
    rewrite Pos2Z.inj_xO, IH. lia.
Qed.

Lemma digits2_iter_xO (m k : positive) :
  digits2_pos (Pos.iter xO m k) = (digits2_pos m + k)%positive.
Proof.
  induction k as [|k IH] using Pos.peano_ind.
  - simpl. now rewrite Pos.add_1_r.
  - rewrite Pos.iter_succ. cbn [digits2_pos]. rewrite IH. now rewrite Pos.add_succ_r.
Qed.

(** A mantissa of [d] binary digits lies in [[2^(d-1), 2^d)]. *)
Lemma digits2_pos_bounds (m : positive) :
  2 ^ (Zpos (digits2_pos m) - 1) <= Zpos m < 2 ^ Zpos (digits2_pos m).
Proof.
  induction m as [m IH|m IH|]; cbn [digits2_pos]; [| |simpl; lia];
    rewrite Pos2Z.inj_succ;
    replace (Z.succ (Zpos (digits2_pos m)) - 1) with (Z.succ (Zpos (digits2_pos m) - 1)) by lia;
    rewrite !Z.pow_succ_r by lia; lia.
Qed.

Lemma digits2_pos_le (m : positive) (d : Z) : Zpos m < 2 ^ d -> Zpos (digits2_pos m) <= d.
Proof.
  intros H. destruct (Z_lt_le_dec d (Zpos (digits2_pos m))) as [Hlt|]; [exfalso | assumption].
  destruct (Z_lt_le_dec d 0) as [Hn|Hp].
  - rewrite Z.pow_neg_r in H by exact Hn. lia.
  - pose proof (digits2_pos_bounds m) as [Hl _].
    assert (2 ^ d <= 2 ^ (Zpos (digits2_pos m) - 1)) by (apply Z.pow_le_mono_r; lia). lia.
Qed.

(** ** Rounding a canonical mantissa changes nothing *)

Lemma binary_round_aux_canonical (s : bool) (m : positive) (e : Z) :
  Zpos (digits2_pos m) = 53 -> -1074 <= e <= 971 ->
  binary_round_aux 53 1024 s (Zpos m) e loc_Exact = S754_finite s m e.
Proof.
  intros Hd He. unfold binary_round_aux, shr_fexp, fexp, emin.
  cbn [Zdigits2 shr_record_of_loc].
  rewrite Hd. replace (Z.max (53 + e - 53) (3 - 1024 - 53) - e) with 0 by lia.
  cbn [shr shr_m loc_of_shr_record round_nearest_even Zdigits2 shr_record_of_loc].
  rewrite Hd. replace (Z.max (53 + e - 53) (3 - 1024 - 53) - e) with 0 by lia.
  cbn [shr shr_m]. replace (e <=? 1024 - 53) with true by (symmetry; apply Z.leb_le; lia).
  reflexivity.
Qed.

(** An integer mantissa of at most 53 bits is shifted to 53 bits, exactly. *)
Lemma binary_round_small (s : bool) (m : positive) :
  Zpos (digits2_pos m) <= 53 ->
  exists m' e',
    binary_round 53 1024 s m 0 = S754_finite s m' e'
    /\ -52 <= e' <= 0 /\ Zpos m' = Zpos m * 2 ^ (- e') /\ Zpos (digits2_pos m') = 53.
Proof.
  intros Hd. unfold binary_round, shl_align, fexp, emin.
  remember (digits2_pos m) as d eqn:Dm.
  replace (Z.max (Zpos d + 0 - 53) (3 - 1024 - 53)) with (Zpos d - 53) by lia.
  replace (Zpos d - 53 - 0) with (Zpos d - 53) by lia.
  destruct (Z.eq_dec (Zpos d) 53) as [E|E].
  - replace (Zpos d - 53) with 0 by lia. cbv beta iota zeta.
    rewrite binary_round_aux_canonical by (rewrite <- ?Dm; lia).
    exists m, 0. rewrite <- Dm. repeat split; lia.
  - destruct (Zpos d - 53) as [|k|k] eqn:Ek; [lia|lia|].
    assert (Hk : Zpos k = 53 - Zpos d) by lia. cbv beta iota zeta.
    rewrite binary_round_aux_canonical.
    + exists (Pos.iter xO m k), (Zneg k). repeat split; try lia.
      * rewrite iter_xO_spec. reflexivity.
      * rewrite digits2_iter_xO, <- Dm. lia.
    + rewrite digits2_iter_xO, <- Dm. lia.
    + lia.
Qed.

(** ** Rationals *)

Local Open Scope Q_scope.

(** Pushes [inject_Z] goals down to the integers. *)
Ltac qz := unfold Qeq, Qle, Qlt, Qminus, Qplus, Qopp, Qmult, inject_Z; simpl; lia.

Lemma inject_Z_le (a b : Z) : (a <= b)%Z -> inject_Z a <= inject_Z b.
Proof. intros H. rewrite <- Zle_Qle. exact H. Qed.

Lemma inject_Z_succ (a : Z) : inject_Z (a + 1) == inject_Z a + 1.
Proof. qz. Qed.

Lemma inject_Z_pred (a : Z) : inject_Z (a - 1) == inject_Z a - 1.
Proof. qz. Qed.

Lemma pow10_nonneg_eq (z : Z) : (0 <= z)%Z -> pow10 z = inject_Z (10 ^ z).
Proof. destruct z; [reflexivity | reflexivity | lia]. Qed.

Lemma pow10_pos (z : Z) : 0 < pow10 z.
Proof.
  destruct z as [|p|p]; unfold pow10, Qlt; simpl; lia.
Qed.

Lemma dyadic_nonneg (m e : Z) : (0 <= m)%Z -> 0 <= dyadic m e.
Proof.
  intros H. destruct e as [|p|p]; unfold dyadic, Qle; simpl; nia.
Qed.

Lemma Qabs_div_pos (p a c : Q) : 0 < c -> Qabs (p / c - a) == Qabs (p - a * c) / c.
Proof.
  intros Hc. assert (Hn : ~ c == 0) by lra.
  setoid_replace (p / c - a) with ((p - a * c) * / c) by (field; exact Hn).
  rewrite Qabs_Qmult. unfold Qdiv.
  assert (H : Qabs (/ c) == / c) by (apply Qabs_pos, Qlt_le_weak, Qinv_lt_0_compat, Hc).
  rewrite H. reflexivity.
Qed.

(** ** Values *)

(** The value of a mantissa shifted left by [-e] at exponent [e <= 0]. *)
Lemma dyadic_shifted (z : Z) (e : Z) : (e <= 0)%Z -> dyadic (z * 2 ^ (- e)) e == inject_Z z.
Proof.
  intros He. destruct e as [|p|p]; [| lia |].
  - unfold dyadic. simpl. unfold Qeq; simpl. lia.
  - unfold dyadic, Qeq. cbn [Z.opp Qnum Qden inject_Z]. rewrite Pos2Z.inj_pow. lia.
Qed.

Lemma toR_opp (x : number) : toR (SFopp x) == - toR x.
Proof.
  destruct x as [s|s| |s m e]; try reflexivity.
  unfold toR, SFopp, dyadic.
  destruct s, e; unfold Qeq; cbn [Qnum Qden Qopp inject_Z negb]; lia.
Qed.

Lemma toR_sign (s : bool) (m : positive) (e : Z) :
  if s then toR (S754_finite s m e) < 0 else 0 < toR (S754_finite s m e).
Proof.
  unfold toR, dyadic.
  destruct s, e as [|p|p]; unfold Qlt; cbn [Qnum Qden inject_Z]; try lia;
    pose proof (Zpow2_pos (Zpos p) ltac:(lia)); nia.
Qed.

Lemma toR_abs (x : number) : toR (SFabs x) == Qabs (toR x).
Proof.
  destruct x as [s|s| |s m e]; try reflexivity.
  pose proof (toR_sign s m e) as Hs. destruct s.
  - rewrite Qabs_neg by lra. rewrite <- toR_opp. reflexivity.
  - rewrite Qabs_pos by lra. reflexivity.
Qed.

(** Every integer of fewer than 54 bits is a number, exactly. *)
Lemma number_of_Z_exact (z : Z) :
  (Z.abs z < 2 ^ 53)%Z ->
  is_finite (number_of_Z z) = true /\ toR (number_of_Z z) == inject_Z z.
Proof.
  intros Hz. destruct z as [|m|m]; [split; reflexivity | |].
  - unfold number_of_Z, binary_normalize.
    destruct (binary_round_small false m) as (m1 & e1 & E1 & He1 & Hm1 & _);
      [apply digits2_pos_le; simpl in Hz; lia|].
    rewrite E1. split; [reflexivity|]. unfold toR. rewrite Hm1. apply dyadic_shifted; lia.
  - unfold number_of_Z, binary_normalize.
    destruct (binary_round_small true m) as (m1 & e1 & E1 & He1 & Hm1 & _);
      [apply digits2_pos_le; simpl in Hz; lia|].
    rewrite E1. split; [reflexivity|]. unfold toR.
    replace (Zneg m1) with (Zneg m * 2 ^ (- e1))%Z by lia. apply dyadic_shifted; lia.
Qed.

(** ** The format *)

(** The mantissa of a binary64 value has at most 53 bits and its exponent
    is within the format's range. *)
Lemma is_double_finite (s : bool) (m : positive) (e : Z) :
  is_double (S754_finite s m e) = true ->
  (Zpos (digits2_pos m) <= 53 /\ -1074 <= e <= 971)%Z.
Proof.
  unfold is_double, valid_binary, bounded, canonical_mantissa, fexp, emin.
  intros H. apply andb_true_iff in H as [H1 H2]. zbool.
Qed.

(** A mantissa of 53 bits with an exponent in range is a binary64 value. *)
Lemma is_double_canonical (s : bool) (m : positive) (e : Z) :
  Zpos (digits2_pos m) = 53%Z -> (-1074 <= e <= 971)%Z -> is_double (S754_finite s m e) = true.
Proof.
  intros Hm He. unfold is_double, valid_binary, bounded, canonical_mantissa, fexp, emin.
  rewrite Hm. apply andb_true_iff. split; zbool.
Qed.

(** Every integer of fewer than 54 bits is a binary64 value. *)
Lemma number_of_Z_double (z : Z) : (Z.abs z < 2 ^ 53)%Z -> is_double (number_of_Z z) = true.
Proof.
  intros Hz. destruct z as [|m|m]; [reflexivity | |]; unfold number_of_Z, binary_normalize.
  - destruct (binary_round_small false m) as (m1 & e1 & -> & He1 & _ & Hd);
      [apply digits2_pos_le; simpl in Hz; lia|]. apply is_double_canonical; lia.
  - destruct (binary_round_small true m) as (m1 & e1 & -> & He1 & _ & Hd);
      [apply digits2_pos_le; simpl in Hz; lia|]. apply is_double_canonical; lia.
Qed.

Lemma is_integral_inject_Z (z : Z) : is_integral (inject_Z z) = true.
Proof. unfold is_integral. rewrite Qfloor_Z. apply Qeq_bool_iff. reflexivity. Qed.

Lemma is_integral_iff (q : Q) : is_integral q = true <-> exists z, q == inject_Z z.
Proof.
  unfold is_integral. rewrite Qeq_bool_iff. split.
  - intros H. exists (Qfloor q). symmetry. exact H.
  - intros [z Hz]. rewrite (Qfloor_comp _ _ Hz), Qfloor_Z. symmetry. exact Hz.
Qed.

(** A finite number with a non-negative exponent is an integer. *)
Lemma toR_integral_of_exponent (s : bool) (m : positive) (e : Z) :
  (0 <= e)%Z -> is_integral (toR (S754_finite s m e)) = true.
Proof.
  intros He. unfold toR, dyadic. destruct e as [|p|p]; [| |lia]; apply is_integral_inject_Z.
Qed.

(** A binary64 value that is not an integer is below [2^52] in magnitude. *)
Lemma double_fraction_small (x : number) :
  is_double x = true -> is_integral (toR x) = false -> Qabs (toR x) < inject_Z (2 ^ 52).
Proof.
  intros Hd Hi. destruct x as [s|s| |s m e]; try discriminate.
  apply is_double_finite in Hd as [Hm _].
  destruct (Z_lt_le_dec e 0) as [He|He];
    [|rewrite toR_integral_of_exponent in Hi by exact He; discriminate].
  rewrite <- toR_abs. cbn [SFabs toR]. destruct e as [|p|p]; try lia.
  pose proof (digits2_pos_bounds m) as [_ Hu].
  assert (Zpos m < 2 ^ 53)%Z.
  { eapply Z.lt_le_trans; [exact Hu|]. apply Z.pow_le_mono_r; lia. }
  assert (2 <= 2 ^ Zpos p)%Z.
  { change 2%Z with (2 ^ 1)%Z at 1. apply Z.pow_le_mono_r; lia. }
  unfold dyadic, Qlt. cbn [Qnum Qden inject_Z]. rewrite Pos2Z.inj_pow.
  change (2 ^ 53)%Z with (2 * 2 ^ 52)%Z in *. nia.
Qed.

(** ** The quotient of an integer by one *)

Lemma shiftl_pos (a k : positive) : Z.shiftl (Zpos a) (Zpos k) = Zpos (Pos.iter xO a k).
Proof. rewrite Z.shiftl_mul_pow2 by lia. now rewrite iter_xO_spec. Qed.

Lemma div_eucl_1 (m : Z) : Z.div_eucl m 1 = (m, 0%Z).
Proof.
  pose proof (Z.div_1_r m) as Hd. pose proof (Z.mod_1_r m) as Hm.
  unfold Z.div, Z.modulo in *. destruct (Z.div_eucl m 1) as [q r]. cbn in *. congruence.
Qed.

Lemma iter_xO_head (a k : positive) :
  exists p, Pos.iter xO a k = xO p /\ (Zpos p = Zpos a * 2 ^ (Zpos k - 1))%Z
            /\ (Zpos (digits2_pos p) = Zpos (digits2_pos a) + Zpos k - 1)%Z.
Proof.
  destruct k as [|k] using Pos.peano_ind.
  - exists a. change (2 ^ (1 - 1))%Z with 1%Z. repeat split; lia.
  - exists (Pos.iter xO a k). rewrite Pos.iter_succ, iter_xO_spec, digits2_iter_xO.
    replace (Zpos (Pos.succ k) - 1)%Z with (Zpos k) by lia. repeat split; lia.
Qed.

(** Dividing an integer of at most 53 bits by one shifts it to 53 bits,
    exactly. *)
Lemma SFdiv_integer (s : bool) (a : positive) :
  (Zpos (digits2_pos a) <= 53)%Z ->
  exists m' e',
    SFdiv 53 1024 (S754_finite s a 0) (S754_finite false 1 0) = S754_finite s m' e'
    /\ (-52 <= e' <= 0)%Z /\ (Zpos m' = Zpos a * 2 ^ (- e'))%Z.
Proof.
  intros Hd. unfold SFdiv, SFdiv_core_binary, fexp, emin.
  cbn [Zdigits2 digits2_pos]. remember (digits2_pos a) as d eqn:Dm.
  replace (Z.min (Z.max (Zpos d + 0 - (1 + 0) - 53) (3 - 1024 - 53)) (0 - 0))%Z
    with (Zpos d - 54)%Z by lia.
  destruct (0 - 0 - (Zpos d - 54))%Z as [|k|k] eqn:Ek; [lia| |lia].
  rewrite shiftl_pos, div_eucl_1. cbv beta iota zeta.
  change (new_location 1 0) with loc_Exact.
  unfold binary_round_aux, shr_fexp, fexp, emin. cbn [Zdigits2 shr_record_of_loc].
  rewrite digits2_iter_xO, <- Dm.
  replace (Z.max (Zpos (d + k) + (Zpos d - 54) - 53) (3 - 1024 - 53) - (Zpos d - 54))%Z
    with 1%Z by lia.
  cbn [shr iter_pos].
  destruct (iter_xO_head a k) as (p & Hp & Hv & Hg). rewrite Hp.
  cbn [shr_1 orb shr_m loc_of_shr_record round_nearest_even Zdigits2 shr_record_of_loc].
  rewrite Hg, <- Dm.
  replace (Z.max (Zpos d + Zpos k - 1 + (Zpos d - 54 + 1) - 53) (3 - 1024 - 53)
           - (Zpos d - 54 + 1))%Z with 0%Z by lia.
  cbn [shr shr_m].
  replace (Zpos d - 54 + 1 <=? 1024 - 53)%Z with true by (symmetry; apply Z.leb_le; lia).
  exists p, (Zpos d - 54 + 1)%Z. rewrite xorb_false_r. repeat split; try lia.
  rewrite Hv. f_equal. f_equal. lia.
Qed.

(** The number of a rational that is an integer of fewer than 54 bits is
    that integer, exactly. *)
Lemma number_of_Q_integer (q : Q) :
  Qden q = 1%positive -> (Z.abs (Qnum q) < 2 ^ 53)%Z ->
  is_finite (number_of_Q q) = true /\ toR (number_of_Q q) == inject_Z (Qnum q).
Proof.
  destruct q as [v d]. cbn [Qnum Qden]. intros -> Hv. unfold number_of_Q. cbn [Qnum Qden].
  destruct v as [|a|a]; [split; reflexivity | |].
  - destruct (SFdiv_integer false a) as (m1 & e1 & E1 & He1 & Hm1);
      [apply digits2_pos_le; simpl in Hv; lia|].
    rewrite E1. split; [reflexivity|]. unfold toR. rewrite Hm1. apply dyadic_shifted; lia.
  - destruct (SFdiv_integer true a) as (m1 & e1 & E1 & He1 & Hm1);
      [apply digits2_pos_le; simpl in Hv; lia|].
    rewrite E1. split; [reflexivity|]. unfold toR.
    replace (Zneg m1) with (Zneg a * 2 ^ (- e1))%Z by lia. apply dyadic_shifted; lia.
Qed.
