(* ===== verification/Rounding.v ===== *)
(** * Rounding a quotient to binary64

    A decimal literal such as [99.99] denotes the binary64 value nearest to
    the quotient of two integers, which [number_of_Q] of [Binary64.v]
    computes with [SFdiv] of the Standard Library.  This file follows
    [SFdiv] through its steps (the shifted integer quotient, its remainder
    as a location, the shift to 53 bits and the rounding to nearest) and
    shows what the result is: a number of 53 bits within half a unit in its
    last place of the quotient, and the quotient itself when the division
    leaves no remainder. *)

From Stdlib Require Import ZArith QArith Qround Qabs Bool Lia Lqa SpecFloat.
From S2P Require Import Prelude Binary64.

Local Open Scope Z_scope.

(** ** What a location means *)

(** [num / den] lies in [[q, q + 1)] and [l] tells where: at [q], below,
    at or above the middle. *)
Definition loc_fits (l : location) (q num den : Z) : Prop :=
  0 < den /\ 0 <= num - q * den < den
  /\ l = if num - q * den =? 0 then loc_Exact else loc_Inexact (2 * (num - q * den) ?= den).

(** [m] is within one half of [num / den]. *)
Definition within_half (m num den : Z) : Prop := Z.abs (2 * (m * den - num)) <= den.

(** The last step of [binary_round_aux]: the number of a mantissa and an
    exponent. *)
Definition finish (s : bool) (me : shr_record * Z) : spec_float :=
  match shr_m (fst me) with
  | Z0 => S754_zero s
  | Zpos m => if snd me <=? 1024 - 53 then S754_finite s m (snd me) else S754_infinity s
  | Zneg _ => S754_nan
  end.

(** * Lemmas *)

(** ** Locations *)

Lemma div_eucl_eq (a b : Z) : Z.div_eucl a b = (a / b, a mod b).
Proof. unfold Z.div, Z.modulo. now destruct (Z.div_eucl a b). Qed.

(** The location of a remainder tells on which side of one half the
    fraction [r / d] lies. *)
Lemma new_location_spec (d r : Z) :
  0 <= r < d -> new_location d r = if r =? 0 then loc_Exact else loc_Inexact (2 * r ?= d).
Proof.
  intros H. unfold new_location, new_location_even, new_location_odd.
  destruct (Z.even d) eqn:E; [reflexivity|].
  destruct (r =? 0); [reflexivity|]. f_equal.
  assert (O : Z.odd d = true) by (rewrite <- Z.negb_even, E; reflexivity).
  apply Z.odd_spec in O as [k ->].
  change (Z.pos 2) with 2; change (Z.pos 1) with 1.
  destruct (Z.compare_spec (2 * r + 1) (2 * k + 1)), (Z.compare_spec (2 * r) (2 * k + 1));
    try reflexivity; lia.
Qed.

Lemma digits2_pos_unique (m : positive) (k : Z) :
  2 ^ (k - 1) <= Zpos m < 2 ^ k -> Zpos (digits2_pos m) = k.
Proof.
  intros [L U]. pose proof (digits2_pos_bounds m) as [L' U'].
  pose proof (digits2_pos_le m k U).
  destruct (Z_lt_le_dec (Zpos (digits2_pos m)) k) as [C|C]; [exfalso | lia].
  assert (2 ^ Zpos (digits2_pos m) <= 2 ^ (k - 1)) by (apply Z.pow_le_mono_r; lia). lia.
Qed.


Lemma record_of_loc (m : Z) (l : location) :
  shr_m (shr_record_of_loc m l) = m /\ loc_of_shr_record (shr_record_of_loc m l) = l.
Proof. destruct l as [|[]]; split; reflexivity. Qed.

(** Rounding to nearest picks an integer within one half. *)
Lemma round_nearest_even_fits (l : location) (q num den : Z) :
  loc_fits l q num den ->
  q <= round_nearest_even q l <= q + 1 /\ within_half (round_nearest_even q l) num den.
Proof.
  intros (D & R & ->). unfold within_half. set (r := num - q * den) in *.
  destruct (Z.eqb_spec r 0) as [E|E]; cbn [round_nearest_even]; [split; lia|].
  destruct (Z.compare_spec (2 * r) den); [destruct (Z.even q)| |];
    change (Z.pos 1) with 1; split; lia.
Qed.

(** One shift to the right keeps the location right, at twice the
    denominator. *)
Lemma shr_1_fits (l : location) (q : positive) (num den : Z) :
  loc_fits l (Zpos q) num den -> q <> 1%positive ->
  let mrs := shr_1 (shr_record_of_loc (Zpos q) l) in
  shr_m mrs = Zpos q / 2 /\ loc_fits (loc_of_shr_record mrs) (shr_m mrs) num (2 * den).
Proof.
  intros (D & R & ->) Q. set (r := num - Zpos q * den) in *.
  assert (H2 : forall p b, 0 <= b < 2 -> (2 * Zpos p + b) / 2 = Zpos p).
  { intros p b Hb. symmetry. apply (Z.div_unique _ 2 _ b); lia. }
  unfold loc_fits.
  destruct q as [p|p|]; [| |congruence];
    destruct (Z.eqb_spec r 0) as [E|E];
    [ | destruct (Z.compare_spec (2 * r) den) | | destruct (Z.compare_spec (2 * r) den) ];
    cbn [shr_record_of_loc shr_1 shr_m orb loc_of_shr_record];
    (split; [first [exact (eq_sym (H2 p 1 ltac:(lia))) | exact (eq_sym (H2 p 0 ltac:(lia)))]|]);
    (split; [lia|]); (split; [lia|]);
    repeat match goal with
    | |- context [?x =? 0] => destruct (Z.eqb_spec x 0); try lia
    | |- context [?x ?= ?y] => destruct (Z.compare_spec x y); try lia
    end; reflexivity.
Qed.

(** ** The two shifts of [binary_round_aux] *)


Lemma binary_round_aux_eq (s : bool) (m e : Z) (l : location) :
  binary_round_aux 53 1024 s m e l
  = let me := shr_fexp 53 1024 m e l in
    finish s (shr_fexp 53 1024
                (round_nearest_even (shr_m (fst me)) (loc_of_shr_record (fst me)))
                (snd me) loc_Exact).
Proof.
  unfold binary_round_aux, finish. destruct (shr_fexp 53 1024 m e l) as [mrs e1].
  cbv zeta. cbn [fst snd]. now destruct (shr_fexp 53 1024 _ e1 loc_Exact) as [mrs2 e2].
Qed.

Lemma shr_fexp_53 (m : positive) (e : Z) (l : location) :
  Zpos (digits2_pos m) = 53 -> -1074 <= e ->
  shr_fexp 53 1024 (Zpos m) e l = (shr_record_of_loc (Zpos m) l, e).
Proof.
  intros D E. unfold shr_fexp, fexp, emin. cbn [Zdigits2]. rewrite D.
  replace (Z.max (53 + e - 53) (3 - 1024 - 53) - e) with 0 by lia. reflexivity.
Qed.

Lemma shr_fexp_54 (m : positive) (e : Z) (l : location) :
  Zpos (digits2_pos m) = 54 -> -1075 <= e ->
  shr_fexp 53 1024 (Zpos m) e l = (shr_1 (shr_record_of_loc (Zpos m) l), e + 1).
Proof.
  intros D E. unfold shr_fexp, fexp, emin. cbn [Zdigits2]. rewrite D.
  replace (Z.max (54 + e - 53) (3 - 1024 - 53) - e) with 1 by lia. reflexivity.
Qed.

(** A rounded mantissa in [[2^52, 2^53]] at an exponent in range is a
    number of 53 bits with the same value. *)
Lemma finish_normal (s : bool) (M e : Z) :
  2 ^ 52 <= M <= 2 ^ 53 -> -1074 <= e <= 970 ->
  exists m' e',
    finish s (shr_fexp 53 1024 M e loc_Exact) = S754_finite s m' e'
    /\ Zpos (digits2_pos m') = 53 /\ e <= e' <= e + 1 /\ Zpos m' * 2 ^ (e' - e) = M.
Proof.
  intros HM He. destruct M as [|p|p]; try lia.
  destruct (Z.eq_dec (Zpos p) (2 ^ 53)) as [C|C].
  - assert (p = 9007199254740992%positive) by lia. subst p.
    rewrite shr_fexp_54 by (try reflexivity; lia).
    exists 4503599627370496%positive, (e + 1). unfold finish. cbn [fst snd shr_record_of_loc shr_1 shr_m].
    replace (e + 1 <=? 1024 - 53) with true by (symmetry; apply Z.leb_le; lia).
    replace (e + 1 - e) with 1 by lia. repeat split; lia.
  - assert (D : Zpos (digits2_pos p) = 53) by (apply digits2_pos_unique; lia).
    rewrite shr_fexp_53 by (try exact D; lia).
    exists p, e. unfold finish. cbn [fst snd shr_record_of_loc shr_m].
    replace (e <=? 1024 - 53) with true by (symmetry; apply Z.leb_le; lia).
    rewrite Z.sub_diag. repeat split; lia.
Qed.

(** [binary_round_aux] on a mantissa of 53 or 54 bits: a number of 53 bits
    within half a unit in its last place of the value the mantissa and the
    location stand for. *)
Lemma binary_round_aux_fits (s : bool) (q : positive) (e : Z) (l : location) (num den : Z) :
  loc_fits l (Zpos q) num den -> 2 ^ 52 <= Zpos q < 2 ^ 54 -> -1074 <= e <= 969 ->
  exists m' e',
    binary_round_aux 53 1024 s (Zpos q) e l = S754_finite s m' e'
    /\ Zpos (digits2_pos m') = 53 /\ e <= e' <= e + 2
    /\ Z.abs (2 * (Zpos m' * 2 ^ (e' - e) * den - num)) <= den * 2 ^ (e' - e).
Proof.
  intros F Hq He. rewrite binary_round_aux_eq. cbv zeta.
  assert (D : 0 < den) by apply F.
  assert (T : 1 < 2 ^ 52 /\ 2 ^ 53 = 2 * 2 ^ 52 /\ 2 ^ 54 = 2 * 2 ^ 53) by (repeat split).
  destruct (Z_lt_le_dec (Zpos q) (2 ^ 53)) as [C|C].
  - rewrite shr_fexp_53 by (try (apply digits2_pos_unique); lia). cbn [fst snd].
    destruct (record_of_loc (Zpos q) l) as [-> ->].
    destruct (round_nearest_even_fits l _ num den F) as [B W].
    destruct (finish_normal s (round_nearest_even (Zpos q) l) e ltac:(lia) ltac:(lia))
      as (m' & e' & -> & Dm & He' & V).
    exists m', e'. repeat split; try lia. rewrite V. unfold within_half in W.
    assert (1 <= 2 ^ (e' - e)) by (apply Z.lt_pred_le, Z.pow_pos_nonneg; lia). nia.
  - rewrite shr_fexp_54 by (try (apply digits2_pos_unique); lia). cbn [fst snd].
    assert (Q1 : q <> 1%positive) by (intros ->; lia).
    destruct (shr_1_fits l q num den F Q1) as [P F'].
    set (mrs := shr_1 (shr_record_of_loc (Zpos q) l)) in *.
    destruct (round_nearest_even_fits _ _ num (2 * den) F') as [B W].
    assert (Hp : 2 ^ 52 <= Zpos q / 2 < 2 ^ 53).
    { split; [apply Z.div_le_lower_bound | apply Z.div_lt_upper_bound]; lia. }
    rewrite <- P in Hp.
    destruct (finish_normal s (round_nearest_even (shr_m mrs) (loc_of_shr_record mrs)) (e + 1)
                ltac:(lia) ltac:(lia)) as (m' & e' & -> & Dm & He' & V).
    exists m', e'. repeat split; try lia. unfold within_half in W.
    replace (e' - e) with (e' - (e + 1) + 1) by lia.
    rewrite Z.pow_add_r, Z.pow_1_r by lia.
    assert (1 <= 2 ^ (e' - (e + 1))) by (apply Z.lt_pred_le, Z.pow_pos_nonneg; lia).
    set (P2 := 2 ^ (e' - (e + 1))) in *. rewrite <- V in W. nia.
Qed.

(** ** The quotient of two integers *)

(** The quotient of an integer of at most 53 bits by a positive integer,
    as [SFdiv] computes it: a number of 53 bits within half a unit in its
    last place of the quotient.  [S] is the shift that gives the quotient
    its 53 or 54 bits. *)
Lemma SFdiv_fits (s : bool) (a d : positive) :
  Zpos (digits2_pos a) <= 53 -> Zpos (digits2_pos d) <= 1000 ->
  let S := 53 + Zpos (digits2_pos d) - Zpos (digits2_pos a) in
  exists m' e',
    SFdiv 53 1024 (S754_finite s a 0) (S754_finite false d 0) = S754_finite s m' e'
    /\ Zpos (digits2_pos m') = 53 /\ - S <= e' <= - S + 2
    /\ Z.abs (2 * (Zpos m' * 2 ^ (e' + S) * Zpos d - Zpos a * 2 ^ S)) <= Zpos d * 2 ^ (e' + S).
Proof.
  intros Ha Hd S. unfold SFdiv, SFdiv_core_binary, fexp, emin. cbn [Zdigits2].
  pose proof (digits2_pos_bounds a) as [La Ua]. pose proof (digits2_pos_bounds d) as [Ld Ud].
  set (d1 := Zpos (digits2_pos a)) in *. set (d2 := Zpos (digits2_pos d)) in *.
  assert (P1 : 1 <= d1) by (unfold d1; lia). assert (P2 : 1 <= d2) by (unfold d2; lia).
  replace (Z.min (Z.max (d1 + 0 - (d2 + 0) - 53) (3 - 1024 - 53)) (0 - 0)) with (- S)
    by (unfold S; lia).
  replace (0 - 0 - - S) with S by lia.
  destruct S as [|k|k] eqn:ES; [unfold S in *; lia | | unfold S in *; lia]. rewrite <- ES.
  rewrite Z.shiftl_mul_pow2, div_eucl_eq by lia. cbv beta iota zeta.
  assert (T1 : 2 ^ S * 2 ^ (d1 - 1) = 2 ^ 52 * 2 ^ d2).
  { rewrite <- !Z.pow_add_r by lia. f_equal. lia. }
  assert (T2 : 2 ^ S * 2 ^ d1 = 2 ^ 54 * 2 ^ (d2 - 1)).
  { rewrite <- !Z.pow_add_r by lia. f_equal. lia. }
  assert (PS : 0 < 2 ^ S) by (apply Z.pow_pos_nonneg; lia).
  assert (Hq : 2 ^ 52 <= Zpos a * 2 ^ S / Zpos d < 2 ^ 54).
  { split; [apply Z.div_le_lower_bound | apply Z.div_lt_upper_bound]; nia. }
  pose proof (Z.div_mod (Zpos a * 2 ^ S) (Zpos d) ltac:(lia)) as DM.
  pose proof (Z.mod_pos_bound (Zpos a * 2 ^ S) (Zpos d) ltac:(lia)) as MB.
  destruct (Zpos a * 2 ^ S / Zpos d) as [|q|q] eqn:Q; try lia.
  rewrite xorb_false_r.
  destruct (binary_round_aux_fits s q (- S) (new_location (Zpos d) ((Zpos a * 2 ^ S) mod Zpos d))
              (Zpos a * 2 ^ S) (Zpos d)) as (m' & e' & E & Dm & He & W); [|lia|lia|].
  - rewrite new_location_spec by exact MB. unfold loc_fits.
    replace (Zpos a * 2 ^ S - Zpos q * Zpos d) with ((Zpos a * 2 ^ S) mod Zpos d) by lia.
    repeat split; (lia || reflexivity).
  - exists m', e'. replace (e' - - S) with (e' + S) in W by lia. repeat split; try lia. exact E.
Qed.

(** ** Exact quotients *)

(** A mantissa that is exact and, when it has 54 bits, even, is kept as it
    is. *)
Lemma binary_round_aux_exact (s : bool) (q : positive) (e : Z) :
  2 ^ 52 <= Zpos q < 2 ^ 54 -> (2 ^ 53 <= Zpos q -> Z.even (Zpos q) = true) ->
  -1074 <= e <= 969 ->
  exists m' e',
    binary_round_aux 53 1024 s (Zpos q) e loc_Exact = S754_finite s m' e'
    /\ Zpos (digits2_pos m') = 53 /\ e <= e' <= e + 2 /\ Zpos m' * 2 ^ (e' - e) = Zpos q.
Proof.
  intros Hq Ev He. rewrite binary_round_aux_eq. cbv zeta.
  assert (T : 1 < 2 ^ 52 /\ 2 ^ 53 = 2 * 2 ^ 52 /\ 2 ^ 54 = 2 * 2 ^ 53) by (repeat split).
  destruct (Z_lt_le_dec (Zpos q) (2 ^ 53)) as [C|C].
  - rewrite shr_fexp_53 by (try (apply digits2_pos_unique); lia).
    cbn [fst snd shr_record_of_loc shr_m loc_of_shr_record round_nearest_even].
    destruct (finish_normal s (Zpos q) e ltac:(lia) ltac:(lia)) as (m' & e' & -> & Dm & He' & V).
    exists m', e'. repeat split; (lia || assumption).
  - rewrite shr_fexp_54 by (try (apply digits2_pos_unique); lia).
    specialize (Ev C). destruct q as [p|p|]; try discriminate.
    cbn [fst snd shr_record_of_loc shr_1 orb shr_m loc_of_shr_record round_nearest_even].
    destruct (finish_normal s (Zpos p) (e + 1) ltac:(lia) ltac:(lia))
      as (m' & e' & -> & Dm & He' & V).
    exists m', e'. repeat split; try (lia || assumption).
    replace (e' - e) with (e' - (e + 1) + 1) by lia.
    rewrite Z.pow_add_r, Z.pow_1_r by lia. lia.
Qed.

(** When the divisor divides the dividend shifted by one bit less than
    [SFdiv] shifts it, the quotient is exact. *)
Lemma SFdiv_exact (s : bool) (a d : positive) :
  Zpos (digits2_pos a) <= 53 -> Zpos (digits2_pos d) <= 1000 ->
  let S := 53 + Zpos (digits2_pos d) - Zpos (digits2_pos a) in
  (Zpos a * 2 ^ (S - 1)) mod Zpos d = 0 ->
  exists m' e',
    SFdiv 53 1024 (S754_finite s a 0) (S754_finite false d 0) = S754_finite s m' e'
    /\ Zpos (digits2_pos m') = 53 /\ - S <= e' <= - S + 2
    /\ Zpos m' * 2 ^ (e' + S) * Zpos d = Zpos a * 2 ^ S.
Proof.
  intros Ha Hd S Hm. unfold SFdiv, SFdiv_core_binary, fexp, emin. cbn [Zdigits2].
  pose proof (digits2_pos_bounds a) as [La Ua]. pose proof (digits2_pos_bounds d) as [Ld Ud].
  set (d1 := Zpos (digits2_pos a)) in *. set (d2 := Zpos (digits2_pos d)) in *.
  assert (P1 : 1 <= d1) by (unfold d1; lia). assert (P2 : 1 <= d2) by (unfold d2; lia).
  replace (Z.min (Z.max (d1 + 0 - (d2 + 0) - 53) (3 - 1024 - 53)) (0 - 0)) with (- S)
    by (unfold S; lia).
  replace (0 - 0 - - S) with S by lia.
  destruct S as [|k|k] eqn:ES; [unfold S in *; lia | | unfold S in *; lia]. rewrite <- ES in *.
  rewrite Z.shiftl_mul_pow2, div_eucl_eq by lia. cbv beta iota zeta.
  assert (T1 : 2 ^ S * 2 ^ (d1 - 1) = 2 ^ 52 * 2 ^ d2).
  { rewrite <- !Z.pow_add_r by lia. f_equal. lia. }
  assert (T2 : 2 ^ S * 2 ^ d1 = 2 ^ 54 * 2 ^ (d2 - 1)).
  { rewrite <- !Z.pow_add_r by lia. f_equal. lia. }
  assert (PS : 0 < 2 ^ S) by (apply Z.pow_pos_nonneg; lia).
  assert (Hq : 2 ^ 52 <= Zpos a * 2 ^ S / Zpos d < 2 ^ 54).
  { split; [apply Z.div_le_lower_bound | apply Z.div_lt_upper_bound]; nia. }
  assert (S2 : 2 ^ S = 2 * 2 ^ (S - 1)).
  { rewrite <- Z.pow_succ_r by lia. f_equal. lia. }
  apply Z.div_exact in Hm; [|lia]. set (h := Zpos a * 2 ^ (S - 1) / Zpos d) in *.
  assert (Q : Zpos a * 2 ^ S / Zpos d = 2 * h).
  { replace (Zpos a * 2 ^ S) with (2 * h * Zpos d) by nia. apply Z.div_mul. lia. }
  assert (R : (Zpos a * 2 ^ S) mod Zpos d = 0).
  { replace (Zpos a * 2 ^ S) with (2 * h * Zpos d) by nia. apply Z.mod_mul. lia. }
  rewrite Q, R in *. rewrite (new_location_spec (Zpos d) 0) by lia. cbn [Z.eqb].
  destruct h as [|p|p]; try lia. change (2 * Zpos p) with (Zpos (xO p)) in *.
  rewrite xorb_false_r.
  destruct (binary_round_aux_exact s (xO p) (- S) Hq (fun _ => eq_refl) ltac:(lia))
    as (m' & e' & E & Dm & He & V).
  exists m', e'. replace (e' - - S) with (e' + S) in V by lia.
  split; [exact E|]. repeat split; lia.
Qed.
