(* ===== verification/JsNumber.v ===== *)
(** * Operations on numbers

    The operations of ECMA-262 that the components apply to Numbers, on
    the values of [Binary64.v].  Each is defined from the exact rational
    value [toR] of its argument, as ECMA-262 defines it from the
    mathematical value, so it is correct on any finite [spec_float], and on
    the binary64 values in particular.

    Modelled here, each from its clause of ECMA-262: [Number::lessThan]
    and the [<] operator, [Number::equal], [Math.round],
    [ToIntegerOrInfinity], [Number::toString] and
    [Number.prototype.toFixed]. *)

From Stdlib Require Import ZArith QArith Qround Qabs String Ascii List Bool Lia Lqa SpecFloat.
From S2P Require Import Prelude JsString Binary64.
Import ListNotations.

Local Open Scope string_scope.
Local Open Scope Z_scope.

(** ** Comparison *)

(** [Number::lessThan(x, y)]: [None] is the specification's [undefined],
    the answer when an operand is NaN. *)
Definition Number_lessThan (x y : number) : option bool :=
  match x, y with
  | S754_nan, _ | _, S754_nan => None
  | S754_infinity sx, S754_infinity sy => Some (sx && negb sy)
  | S754_infinity sx, _ => Some sx
  | _, S754_infinity sy => Some (negb sy)
  | _, _ => Some (if Qlt_le_dec (toR x) (toR y) then true else false)
  end.

(** The operator [x < y] on two numbers: [undefined] counts as false. *)
Definition js_lt (x y : number) : bool :=
  match Number_lessThan x y with
  | Some b => b
  | None => false
  end.

(** [Number::equal(x, y)]: NaN equals nothing, the two zeros are equal. *)
Definition Number_equal (x y : number) : bool :=
  match x, y with
  | S754_nan, _ | _, S754_nan => false
  | S754_infinity sx, S754_infinity sy => Bool.eqb sx sy
  | S754_infinity _, _ | _, S754_infinity _ => false
  | _, _ => Qeq_bool (toR x) (toR y)
  end.

(** ** Rounding to integers *)

(** The integer closest to [q], the larger one on a tie. *)
Definition round_half_up (q : Q) : Z := Qfloor (q + (1 # 2)).

(** [Math.round(x)]. *)
Definition Math_round (x : number) : number :=
  match x with
  | S754_finite s m e =>
      let q := toR x in
      if is_integral q then x
      else if Qlt_le_dec q (1 # 2) then
        if Qlt_le_dec 0 q then S754_zero false
        else if Qle_bool (- (1 # 2)) q then S754_zero true
        else number_of_Z (round_half_up q)
      else number_of_Z (round_half_up q)
  | _ => x
  end.

(** An integer or an infinity, the range of [ToIntegerOrInfinity]. *)
Inductive int_or_inf : Type :=
| Int (z : Z)
| PosInf
| NegInf.

(** [truncate(q)]: the integer part, towards zero. *)
Definition truncate (q : Q) : Z := Z.quot (Qnum q) (Zpos (Qden q)).

(** [ToIntegerOrInfinity(x)] on a number. *)
Definition ToIntegerOrInfinity (x : number) : int_or_inf :=
  match x with
  | S754_nan | S754_zero _ => Int 0
  | S754_infinity false => PosInf
  | S754_infinity true => NegInf
  | S754_finite _ _ _ => Int (truncate (toR x))
  end.

(** ** Number::toString *)

(** The [n] with [10^(n-1) <= q < 10^n], for [q > 0]. *)
Definition decimal_magnitude (q : Q) : Z :=
  if Qle_bool 1 q then Z.of_nat (String.length (decimal_digits (Qfloor q)))
  else
    let d := Z.of_nat (String.length (decimal_digits (Qfloor (/ q)))) in
    if Qeq_bool (q * pow10 (d - 1)) 1 then 2 - d else 1 - d.

(** [s * 10^(n-k)]: what the digits [s] denote at magnitude [n]. *)
Definition digits_value (s n k : Z) : Q := inject_Z s * pow10 (n - k).

(** [s] has [k] digits and [s * 10^(n-k)] rounds to the number of value [x]. *)
Definition round_trips (x : Q) (k : Z) (c : Z * Z) : bool :=
  let (s, n) := c in
  (10 ^ (k - 1) <=? s) && (s <? 10 ^ k) &&
  let y := number_of_Q (digits_value s n k) in
  is_finite y && Qeq_bool (toR y) x.

(** The two [k]-digit neighbours of [x] at magnitude [n0]; the upper one
    may carry into the next magnitude. *)
Definition neighbours (x : Q) (n0 k : Z) : list (Z * Z) :=
  let lo := Qfloor (x * pow10 (k - n0)) in
  let hi := lo + 1 in
  [(lo, n0); if hi =? 10 ^ k then (10 ^ (k - 1), n0 + 1) else (hi, n0)].

(** Of the candidates, the one closest to [x]; the even one on a tie. *)
Definition closest (x : Q) (k : Z) (cs : list (Z * Z)) : option (Z * Z) :=
  match cs with
  | [] => None
  | [c] => Some c
  | c1 :: c2 :: _ =>
      let d1 := Qabs (digits_value (fst c1) (snd c1) k - x) in
      let d2 := Qabs (digits_value (fst c2) (snd c2) k - x) in
      if Qlt_le_dec d1 d2 then Some c1
      else if Qlt_le_dec d2 d1 then Some c2
      else if Z.even (fst c1) then Some c1 else Some c2
  end.

(** The least [k] (from [k] on) for which some [k]-digit [s] rounds to [x],
    with that [s] and its magnitude [n]; when the fuel runs out, the closest
    [k]-digit neighbour. *)
Fixpoint shortest_digits (fuel : nat) (x : Q) (n0 k : Z) : Z * Z * Z :=
  match fuel with
  | O =>
      match closest x k (neighbours x n0 k) with
      | Some (s, n) => (s, n, k)
      | None => (0, n0, k)
      end
  | S fuel' =>
      match closest x k (filter (round_trips x k) (neighbours x n0 k)) with
      | Some (s, n) => (s, n, k)
      | None => shortest_digits fuel' x n0 (k + 1)
      end
  end.

(** The digits [s], their number [k] and the magnitude [n] of step 5 of
    [Number::toString], for a number of value [x > 0]: 16 checked digit
    counts, then the 17-digit rendering. *)
Definition number_digits (x : Q) : Z * Z * Z :=
  shortest_digits 16 x (decimal_magnitude x) 1.

(** Steps 6 to 10 of [Number::toString]: the text of [s * 10^(n-k)]. *)
Definition format_digits (s n k : Z) : string :=
  let ds := decimal_digits s in
  if (k <=? n) && (n <=? 21) then ds ++ repeat_string "0" (Z.to_nat (n - k))
  else if (0 <? n) && (n <=? 21) then
    let (a, b) := split_at (Z.to_nat n) ds in a ++ "." ++ b
  else if (-6 <? n) && (n <=? 0) then
    "0." ++ repeat_string "0" (Z.to_nat (- n)) ++ ds
  else
    let e := n - 1 in
    let es := (if e <? 0 then "-" else "+") ++ decimal_digits (Z.abs e) in
    if k =? 1 then ds ++ "e" ++ es
    else let (a, b) := split_at 1 ds in a ++ "." ++ b ++ "e" ++ es.

(** [Number::toString(x, 10)]. *)
Definition Number_toString (x : number) : string :=
  match x with
  | S754_nan => "NaN"
  | S754_zero _ => "0"
  | S754_infinity false => "Infinity"
  | S754_infinity true => "-Infinity"
  | S754_finite s m e =>
      let '(d, n, k) := number_digits (Qabs (toR x)) in
      (if s then "-" else "") ++ format_digits d n k
  end.

(** The characters of the text of a number: digits, sign, point, exponent
    mark, and the letters of [NaN] and [Infinity]. *)
Definition number_char (c : ascii) : bool :=
  is_digit c || existsb (Ascii.eqb c) (list_ascii_of_string "+-.eNaInfity").

(** ** Number.prototype.toFixed *)

(** The digits of [n], zero-padded on the left to at least [f + 1] of them
    (step 11.c of [toFixed]). *)
Definition padded_digits (n : Z) (f : nat) : string :=
  let m := decimal_digits n in
  if (String.length m <=? f)%nat then repeat_string "0" (f + 1 - String.length m) ++ m else m.

(** Step 11 of [toFixed]: the digits of [n] with a point before the last
    [f] of them. *)
Definition fixed_digits (n : Z) (f : nat) : string :=
  match f with
  | O => decimal_digits n
  | S _ =>
      let m := padded_digits n f in
      let (a, b) := split_at (String.length m - f) m in
      a ++ "." ++ b
  end.

(** What a fixed-point text denotes: [(n, f)] for the integer [n] its
    digits spell and the number [f] of digits after the point, that is
    [n / 10^f]. *)
Definition parse_fixed (s : string) : option (Z * nat) :=
  match split_on "." s with
  | Some (EmptyString, _) => None
  | Some (a, b) => option_map (fun n => (n, String.length b)) (parse_decimal (a ++ b))
  | None => option_map (fun n => (n, O)) (parse_decimal s)
  end.

(** [x.toFixed(fractionDigits)] for an integer argument. *)
Definition Number_toFixed (x : number) (fractionDigits : Z) : completion string :=
  if (fractionDigits <? 0) || (100 <? fractionDigits) then Throw RangeError
  else
    match x with
    | S754_nan | S754_infinity _ => Normal (Number_toString x)
    | _ =>
        let q := toR x in
        let s := if Qlt_le_dec q 0 then "-" else EmptyString in
        let a := Qabs q in
        if Qle_bool (pow10 21) a then Normal (s ++ Number_toString (SFabs x))
        else
          let n := round_half_up (a * pow10 fractionDigits) in
          Normal (s ++ fixed_digits n (Z.to_nat fractionDigits))
    end.

(** * Lemmas *)

Local Open Scope Q_scope.

(** ** Rounding to the nearest integer *)

(** [round_half_up q] is within one half of [q], and strictly so above. *)
Lemma round_half_up_bounds (q : Q) :
  inject_Z (round_half_up q) - (1 # 2) <= q < inject_Z (round_half_up q) + (1 # 2).
Proof.
  unfold round_half_up.
  pose proof (Qfloor_le (q + (1 # 2))) as Hl. pose proof (Qlt_floor (q + (1 # 2))) as Hu.
  rewrite inject_Z_succ in Hu. split; lra.
Qed.

(** The integer within one half of [q], strictly above, is unique. *)
Lemma round_half_up_unique (q : Q) (n : Z) :
  inject_Z n - (1 # 2) <= q < inject_Z n + (1 # 2) -> round_half_up q = n.
Proof.
  intros [Hl Hu]. destruct (round_half_up_bounds q) as [Hl' Hu'].
  set (r := round_half_up q) in *.
  destruct (Z_lt_le_dec r n) as [H|H].
  - assert (inject_Z r + 1 <= inject_Z n).
    { rewrite <- inject_Z_succ. apply inject_Z_le. lia. }
    lra.
  - destruct (Z.eq_dec r n) as [E|E]; [exact E|].
    assert (inject_Z n + 1 <= inject_Z r).
    { rewrite <- inject_Z_succ. apply inject_Z_le. lia. }
    lra.
Qed.

(** No integer is closer to [q] than [round_half_up q]. *)
Lemma round_half_up_closest (q : Q) (n' : Z) :
  Qabs (inject_Z (round_half_up q) - q) <= Qabs (inject_Z n' - q).
Proof.
  destruct (round_half_up_bounds q) as [H1 H2]. set (n := round_half_up q) in *.
  destruct (Z_lt_le_dec n' n) as [Hlt|Hge].
  - assert (inject_Z n' <= inject_Z n - 1).
    { rewrite <- inject_Z_pred. apply inject_Z_le. lia. }
    apply Qabs_case; apply Qabs_case; intros; lra.
  - destruct (Z.eq_dec n' n) as [->|Hne]; [apply Qle_refl|].
    assert (inject_Z n + 1 <= inject_Z n').
    { rewrite <- inject_Z_succ. apply inject_Z_le. lia. }
    apply Qabs_case; apply Qabs_case; intros; lra.
Qed.

(** Of two integers equally close to [q], [round_half_up q] is the larger. *)
Lemma round_half_up_tie (q : Q) (n' : Z) :
  Qabs (inject_Z n' - q) == Qabs (inject_Z (round_half_up q) - q) ->
  (n' <= round_half_up q)%Z.
Proof.
  destruct (round_half_up_bounds q) as [H1 H2]. set (n := round_half_up q) in *.
  intros E. destruct (Z_lt_le_dec n n') as [Hlt|Hge]; [exfalso | exact Hge].
  assert (inject_Z n + 1 <= inject_Z n').
  { rewrite <- inject_Z_succ. apply inject_Z_le. lia. }
  revert E. apply Qabs_case; apply Qabs_case; intros; lra.
Qed.

Lemma round_half_up_nonneg (q : Q) : 0 <= q -> (0 <= round_half_up q)%Z.
Proof.
  intros H. unfold round_half_up. rewrite <- (Qfloor_Z 0).
  apply Qfloor_resp_le. change (inject_Z 0) with 0. lra.
Qed.

(** Monotone: a larger value never rounds to a smaller integer. *)
Lemma round_half_up_mono (p q : Q) : p <= q -> (round_half_up p <= round_half_up q)%Z.
Proof. intros H. apply Qfloor_resp_le. lra. Qed.

Lemma round_half_up_Z (z : Z) : round_half_up (inject_Z z) = z.
Proof.
  apply round_half_up_unique. split; lra.
Qed.

Local Close Scope Q_scope.

(** ** Comparison *)

(** On finite numbers [<] is the order of the exact values. *)
Lemma js_lt_finite (x y : number) :
  is_finite x = true -> is_finite y = true -> (js_lt x y = true <-> (toR x < toR y)%Q).
Proof.
  intros Hx Hy. unfold js_lt, Number_lessThan.
  destruct x, y; try discriminate;
    destruct (Qlt_le_dec _ _) as [H|H]; split; intros H'; try reflexivity; try assumption;
    try discriminate; exfalso; apply (Qlt_not_le _ _ H' H).
Qed.

(** On finite numbers [Number::equal] compares the values. *)
Lemma Number_equal_finite (x y : number) :
  is_finite x = true -> is_finite y = true -> Number_equal x y = Qeq_bool (toR x) (toR y).
Proof. destruct x, y; try discriminate; reflexivity. Qed.

(** Only a finite number equals a finite one. *)
Lemma Number_equal_is_finite (x y : number) :
  is_finite x = true -> Number_equal x y = true -> is_finite y = true.
Proof. destruct x, y; try discriminate; reflexivity. Qed.

Lemma Number_equal_sym (x y : number) : Number_equal x y = Number_equal y x.
Proof.
  destruct x as [| [|] | |], y as [| [|] | |]; cbn [Number_equal Bool.eqb]; try reflexivity;
    apply eq_true_iff_eq; rewrite !Qeq_bool_iff; split; intros H; now symmetry.
Qed.

Lemma Number_equal_trans (x y z : number) :
  Number_equal x y = true -> Number_equal y z = true -> Number_equal x z = true.
Proof.
  destruct x as [| [|] | |], y as [| [|] | |], z as [| [|] | |];
    cbn [Number_equal Bool.eqb]; try discriminate; try reflexivity;
    rewrite !Qeq_bool_iff; intros H1 H2; now rewrite H1.
Qed.

(** Every number but NaN equals itself. *)
Lemma Number_equal_refl (x : number) : Number_equal x x = negb (is_nan x).
Proof.
  destruct x as [| [|] | |]; cbn [Number_equal Bool.eqb is_nan negb]; try reflexivity;
    apply Qeq_bool_iff; reflexivity.
Qed.

(** A comparison with NaN is false. *)
Lemma js_lt_nan_l (y : number) : js_lt S754_nan y = false.
Proof. reflexivity. Qed.

Lemma js_lt_nan_r (x : number) : js_lt x S754_nan = false.
Proof. destruct x; reflexivity. Qed.

(** ** The text of toFixed *)

Lemma padded_digits_length (n : Z) (f : nat) : (f < String.length (padded_digits n f))%nat.
Proof.
  unfold padded_digits. destruct (Nat.leb_spec (String.length (decimal_digits n)) f).
  - rewrite length_append, repeat_string_length. simpl. lia.
  - lia.
Qed.

Lemma padded_digits_all_digits (n : Z) (f : nat) :
  0 <= n -> all_digits (padded_digits n f) = true.
Proof.
  intros H. unfold padded_digits. case_head.
  - now rewrite all_digits_app, all_digits_repeat_zero, all_digits_decimal_digits.
  - now apply all_digits_decimal_digits.
Qed.

Lemma padded_digits_parse (n : Z) (f : nat) :
  0 <= n -> parse_aux (padded_digits n f) 0 = Some n.
Proof.
  intros H. unfold padded_digits. case_head.
  - now apply parse_aux_padded.
  - rewrite parse_aux_decimal_digits by exact H. f_equal; lia.
Qed.

(** The shape of the text: an integer part of at least one digit, a point,
    and exactly [f] digits, which together spell [n]. *)
Lemma fixed_digits_shape (n : Z) (f : nat) :
  0 <= n ->
  exists a b,
    fixed_digits n (S f) = a ++ "." ++ b
    /\ a <> EmptyString /\ String.length b = S f
    /\ a ++ b = padded_digits n (S f).
Proof.
  intros H. unfold fixed_digits.
  pose proof (padded_digits_length n (S f)) as Hlen.
  set (m := padded_digits n (S f)) in *.
  pose proof (split_at_append (String.length m - S f) m) as Happ.
  pose proof (split_at_length (String.length m - S f) m ltac:(lia)) as Hla.
  destruct (split_at (String.length m - S f) m) as [a b]. cbn [fst snd] in *.
  exists a, b. repeat split; try assumption.
  - intros ->. simpl in Hla. lia.
  - apply (f_equal String.length) in Happ. rewrite length_append in Happ. lia.
Qed.

(** Round trip: the text [toFixed] prints for [n] and [f] digits denotes
    [n / 10^f]. *)
Lemma parse_fixed_fixed_digits (n : Z) (f : nat) :
  0 <= n -> parse_fixed (fixed_digits n f) = Some (n, f).
Proof.
  intros H. destruct f as [|f].
  - unfold parse_fixed, fixed_digits.
    rewrite split_on_point_none by now apply all_digits_decimal_digits.
    now rewrite parse_decimal_digits.
  - destruct (fixed_digits_shape n f H) as (a & b & -> & Ha & Hb & Hab).
    pose proof (padded_digits_all_digits n (S f) H) as Hd.
    rewrite <- Hab, all_digits_app in Hd. apply andb_true_iff in Hd as [Hda Hdb].
    unfold parse_fixed. cbn [append]. rewrite split_on_point by exact Hda.
    destruct a as [|c a]; [congruence|].
    rewrite Hab, Hb, parse_decimal_nonempty, padded_digits_parse by (try exact H; rewrite <- Hab; discriminate).
    reflexivity.
Qed.

(** ** toFixed on finite numbers *)

(** Below [10^21] the text is the sign and the fixed-point digits of the
    rounded magnitude. *)
Lemma Number_toFixed_finite (x : number) (f : Z) :
  is_finite x = true -> 0 <= f <= 100 -> (Qabs (toR x) < pow10 21)%Q ->
  Number_toFixed x f =
  Normal ((if Qlt_le_dec (toR x) 0 then "-" else EmptyString)
          ++ fixed_digits (round_half_up (Qabs (toR x) * pow10 f)) (Z.to_nat f)).
Proof.
  intros Hf Hr Hb. unfold Number_toFixed.
  replace ((f <? 0) || (100 <? f)) with false by (symmetry; apply orb_false_iff; split; zbool).
  assert (E : Qle_bool (pow10 21) (Qabs (toR x)) = false).
  { destruct (Qle_bool (pow10 21) (Qabs (toR x))) eqn:E; [|reflexivity].
    apply Qle_bool_iff in E. exfalso. apply (Qlt_not_le _ _ Hb E). }
  destruct x; try discriminate; cbv zeta; rewrite E; reflexivity.
Qed.

(** The integer [toFixed] prints is, of all integers [n'], one for which
    [n' / 10^f] is closest to the magnitude. *)
Lemma toFixed_closest (a : Q) (f n' : Z) :
  (Qabs (inject_Z (round_half_up (a * pow10 f)) / pow10 f - a)
   <= Qabs (inject_Z n' / pow10 f - a))%Q.
Proof.
  pose proof (pow10_pos f) as Hc.
  rewrite !Qabs_div_pos by exact Hc.
  unfold Qdiv. apply Qmult_le_compat_r; [apply round_half_up_closest|].
  apply Qlt_le_weak, Qinv_lt_0_compat, Hc.
Qed.

(** On a tie it is the larger one. *)
Lemma toFixed_tie (a : Q) (f n' : Z) :
  (Qabs (inject_Z n' / pow10 f - a)
   == Qabs (inject_Z (round_half_up (a * pow10 f)) / pow10 f - a))%Q ->
  n' <= round_half_up (a * pow10 f).
Proof.
  pose proof (pow10_pos f) as Hc. intros H.
  rewrite !Qabs_div_pos in H by exact Hc.
  apply round_half_up_tie. unfold Qdiv in H.
  apply Qmult_inj_r in H; [exact H|].
  pose proof (Qinv_lt_0_compat _ Hc). lra.
Qed.

(** ** toFixed: when it throws *)

(** [toFixed] completes normally exactly when the number of digits asked
    for is within [0..100], whatever the number. *)
Lemma Number_toFixed_normal_iff (x : number) (f : Z) :
  is_normal (Number_toFixed x f) = true <-> 0 <= f <= 100.
Proof.
  unfold Number_toFixed.
  destruct ((f <? 0) || (100 <? f)) eqn:E.
  - simpl. split; [discriminate|]. intros H.
    apply orb_true_iff in E. destruct E; zbool.
  - zbool. split; [lia|]. intros _.
    destruct x; try reflexivity; cbv zeta; case_head; reflexivity.
Qed.

(** Within the range [toFixed] gives a text, whatever the number. *)
Lemma Number_toFixed_total (x : number) (f : Z) :
  0 <= f <= 100 -> exists s, Number_toFixed x f = Normal s.
Proof.
  intros H. apply (Number_toFixed_normal_iff x) in H.
  destruct (Number_toFixed x f) as [s|]; [eauto | discriminate].
Qed.

Lemma Number_toFixed_range_error (x : number) (f : Z) :
  Number_toFixed x f = Throw RangeError <-> f < 0 \/ 100 < f.
Proof.
  unfold Number_toFixed.
  destruct ((f <? 0) || (100 <? f)) eqn:E.
  - split; [|reflexivity]. intros _. apply orb_true_iff in E. destruct E; zbool.
  - zbool. split; [|lia].
    destruct x; try discriminate; cbv zeta; case_head; discriminate.
Qed.

Local Open Scope Q_scope.

(** ** Math.round and ToIntegerOrInfinity on binary64 values *)

Lemma round_half_up_comp (p q : Q) : p == q -> round_half_up p = round_half_up q.
Proof. intros H. unfold round_half_up. apply Qfloor_comp. rewrite H. reflexivity. Qed.

Lemma round_half_up_integral (q : Q) :
  is_integral q = true -> q == inject_Z (round_half_up q).
Proof.
  intros H. apply is_integral_iff in H as [z Hz].
  rewrite (round_half_up_comp _ _ Hz), round_half_up_Z. exact Hz.
Qed.

Lemma round_half_up_small (q : Q) (b : Z) :
  Qabs q < inject_Z b -> (Z.abs (round_half_up q) <= b)%Z.
Proof.
  intros H. assert (Hb : - inject_Z b < q < inject_Z b).
  { revert H. apply Qabs_case; intros; lra. }
  pose proof (round_half_up_mono _ _ (Qlt_le_weak _ _ (proj2 Hb))) as Hu.
  pose proof (round_half_up_mono (- inject_Z b) q ltac:(lra)) as Hl.
  rewrite round_half_up_Z in Hu.
  rewrite <- inject_Z_opp, round_half_up_Z in Hl. lia.
Qed.

(** [Math.round] of a finite binary64 value is finite and its value is the
    integer closest to the argument, the larger on a tie. *)
Lemma Math_round_exact (x : number) :
  is_double x = true -> is_finite x = true ->
  is_finite (Math_round x) = true /\ toR (Math_round x) == inject_Z (round_half_up (toR x)).
Proof.
  intros Hd Hf. destruct x as [s|s| |s m e]; try discriminate; [split; reflexivity|].
  unfold Math_round. set (q := toR (S754_finite s m e)) in *.
  destruct (is_integral q) eqn:Hi; [split; [reflexivity | now apply round_half_up_integral]|].
  assert (Hz : (Z.abs (round_half_up q) < 2 ^ 53)%Z).
  { pose proof (round_half_up_small q (2 ^ 52) (double_fraction_small _ Hd Hi)).
    assert (2 ^ 52 < 2 ^ 53)%Z by reflexivity. lia. }
  pose proof (number_of_Z_exact _ Hz) as Hex.
  destruct (Qlt_le_dec q (1 # 2)) as [H1|H1]; [|exact Hex].
  destruct (Qlt_le_dec 0 q) as [H2|H2].
  - split; [reflexivity|]. rewrite (round_half_up_unique q 0); [reflexivity | change (inject_Z 0) with 0; split; lra].
  - destruct (Qle_bool (- (1 # 2)) q) eqn:H3; [|exact Hex].
    apply Qle_bool_iff in H3.
    split; [reflexivity|]. rewrite (round_half_up_unique q 0); [reflexivity | change (inject_Z 0) with 0; split; lra].
Qed.

(** The binary64 values are closed under [Math.round]. *)
Lemma Math_round_double (x : number) : is_double x = true -> is_double (Math_round x) = true.
Proof.
  intros Hd. destruct x as [s|s| |s m e]; try exact Hd.
  unfold Math_round. set (q := toR (S754_finite s m e)) in *.
  destruct (is_integral q) eqn:Hi; [exact Hd|].
  assert (Hz : is_double (number_of_Z (round_half_up q)) = true).
  { apply number_of_Z_double.
    pose proof (round_half_up_small q (2 ^ 52) (double_fraction_small _ Hd Hi)).
    assert (2 ^ 52 < 2 ^ 53)%Z by reflexivity. lia. }
  repeat (case_head; try reflexivity; try exact Hz).
Qed.

Lemma truncate_inject_Z (q : Q) (z : Z) : q == inject_Z z -> truncate q = z.
Proof.
  unfold Qeq, truncate. cbn [Qnum Qden inject_Z]. intros H.
  rewrite Z.mul_1_r in H. rewrite H. apply Z.quot_mul. lia.
Qed.

(** The integer of a finite number whose value is an integer. *)
Lemma ToIntegerOrInfinity_integer (y : number) (z : Z) :
  is_finite y = true -> toR y == inject_Z z -> ToIntegerOrInfinity y = Int z.
Proof.
  intros Hf Hv. destruct y as [s|s| |s m e]; try discriminate.
  - cbn [ToIntegerOrInfinity]. f_equal. unfold toR, Qeq in Hv. cbn [Qnum Qden inject_Z] in Hv. lia.
  - cbn [ToIntegerOrInfinity]. f_equal. now apply truncate_inject_Z.
Qed.

(** [ToIntegerOrInfinity(Math.round(x))] for a finite binary64 value. *)
Lemma ToIntegerOrInfinity_Math_round (x : number) :
  is_double x = true -> is_finite x = true ->
  ToIntegerOrInfinity (Math_round x) = Int (round_half_up (toR x)).
Proof.
  intros Hd Hf. destruct (Math_round_exact x Hd Hf) as [H1 H2].
  now apply ToIntegerOrInfinity_integer.
Qed.

(** ** Comparison with an integer *)

(** [x < z] for a finite [x] and an integer [z] of at most 53 bits is the
    comparison of the values. *)
Lemma js_lt_integer (x : number) (z : Z) :
  is_finite x = true -> (Z.abs z < 2 ^ 53)%Z ->
  (js_lt x (number_of_Z z) = true <-> toR x < inject_Z z).
Proof.
  intros Hf Hz. destruct (number_of_Z_exact z Hz) as [Hfz Hv].
  rewrite js_lt_finite by assumption. rewrite Hv. reflexivity.
Qed.

(** ** toFixed on non-negative numbers *)

(** The text [toFixed] gives for a non-negative number below [10^21]: its
    digits denote the closest multiple of [10^-f]. *)
Lemma toFixed_nonneg (x : number) (f : Z) :
  is_finite x = true -> (0 <= f <= 100)%Z -> (0 <= toR x < pow10 21)%Q ->
  exists s n,
    Number_toFixed x f = Normal s
    /\ parse_fixed s = Some (n, Z.to_nat f)
    /\ n = round_half_up (toR x * pow10 f)
    /\ forall n', (Qabs (inject_Z n / pow10 f - toR x)
                   <= Qabs (inject_Z n' / pow10 f - toR x))%Q.
Proof.
  intros Hf Hr [Hlo Hhi].
  assert (Ha : (Qabs (toR x) == toR x)%Q) by now apply Qabs_pos.
  rewrite Number_toFixed_finite by (try assumption; rewrite Ha; exact Hhi).
  destruct (Qlt_le_dec (toR x) 0) as [Hn|_]; [exfalso; apply (Qlt_not_le _ _ Hn Hlo)|].
  assert (Hn : round_half_up (Qabs (toR x) * pow10 f) = round_half_up (toR x * pow10 f)).
  { apply round_half_up_comp. rewrite Ha. reflexivity. }
  rewrite Hn. eexists _, _. split; [reflexivity|]. cbn [append].
  repeat split.
  - apply parse_fixed_fixed_digits. apply round_half_up_nonneg.
    apply Qmult_le_0_compat; [exact Hlo | apply Qlt_le_weak, pow10_pos].
  - intros n'. apply toFixed_closest.
Qed.

(** ** The characters of the text of a number *)

Lemma digit_number_char (c : ascii) : is_digit c = true -> number_char c = true.
Proof. unfold number_char. now intros ->. Qed.

Lemma number_digits_chars (s : string) : all_chars is_digit s = true -> all_chars number_char s = true.
Proof. apply all_chars_impl, digit_number_char. Qed.

(** A text of number characters lacks every other character. *)
Lemma number_text_lacks (c : ascii) (t : string) :
  number_char c = false -> all_chars number_char t = true -> lacks c t = true.
Proof.
  intros Hc. apply all_chars_impl. intros x Hx. apply negb_true_iff, Ascii.eqb_neq.
  intros ->. congruence.
Qed.

Lemma format_digits_chars (s n k : Z) : all_chars number_char (format_digits s n k) = true.
Proof.
  pose proof (number_digits_chars _ (decimal_digits_chars s)) as D.
  pose proof (fun m => proj1 (all_chars_split_at number_char m _ D)) as Da.
  pose proof (fun m => proj2 (all_chars_split_at number_char m _ D)) as Db.
  unfold format_digits. cbv zeta.
  repeat match goal with
         | |- context [if ?b then _ else _] => destruct b
         | |- context [let (_, _) := split_at ?m ?t in _] =>
             specialize (Da m); specialize (Db m); destruct (split_at m t)
         end;
    cbn [fst snd] in *;
    rewrite ?all_chars_app, ?D, ?Da, ?Db, ?all_chars_repeat,
      ?(number_digits_chars _ (decimal_digits_chars _)); reflexivity.
Qed.

(** The text of a number has no other characters. *)
Lemma Number_toString_chars (x : number) : all_chars number_char (Number_toString x) = true.
Proof.
  destruct x as [s|[]| |s m e]; try reflexivity. unfold Number_toString.
  destruct (number_digits _) as [[d n] k]. rewrite all_chars_app, format_digits_chars.
  now destruct s.
Qed.

Lemma format_digits_nonempty (s n k : Z) : format_digits s n k <> "".
Proof.
  pose proof (decimal_digits_nonempty s) as D. unfold format_digits. cbv zeta.
  repeat match goal with
         | |- context [if ?b then _ else _] => destruct b
         | |- context [let (_, _) := split_at ?m ?t in _] => destruct (split_at m t)
         end;
    intros [E1 E2]%append_eq_nil; try discriminate; contradiction.
Qed.

(** The text of a number is not empty. *)
Lemma Number_toString_nonempty (x : number) : Number_toString x <> "".
Proof.
  destruct x as [s|[]| |s m e]; try discriminate. unfold Number_toString.
  destruct (number_digits _) as [[d n] k].
  intros [_ E]%append_eq_nil. now apply format_digits_nonempty in E.
Qed.

(** The text of [toFixed] has no other characters either. *)
Lemma fixed_digits_chars (n : Z) (f : nat) : all_chars number_char (fixed_digits n f) = true.
Proof.
  pose proof (number_digits_chars _ (decimal_digits_chars n)) as D.
  destruct f as [|f]; [exact D|]. unfold fixed_digits. cbv zeta.
  assert (P : all_chars number_char (padded_digits n (S f)) = true).
  { unfold padded_digits. cbv zeta. destruct (_ <=? _)%nat; [|exact D].
    now rewrite all_chars_app, all_chars_repeat, D. }
  destruct (all_chars_split_at number_char
              (String.length (padded_digits n (S f)) - S f) _ P) as [Ha Hb].
  destruct (split_at _ _) as [a b]. cbn [fst snd] in *.
  now rewrite !all_chars_app, Ha, Hb.
Qed.

Lemma Number_toFixed_chars (x : number) (f : Z) (s : string) :
  Number_toFixed x f = Normal s -> all_chars number_char s = true.
Proof.
  unfold Number_toFixed. destruct (_ || _); [discriminate|].
  destruct x as [z|i| |z m e]; cbv beta iota zeta; repeat case_head;
    intros <-%Normal_inj;
    rewrite ?all_chars_app, ?Number_toString_chars, ?fixed_digits_chars; reflexivity.
Qed.

(** Nor is the text of [toFixed] empty. *)
Lemma fixed_digits_nonempty (n : Z) (f : nat) : fixed_digits n f <> "".
Proof.
  destruct f as [|f]; [apply decimal_digits_nonempty|]. unfold fixed_digits. cbv zeta.
  destruct (split_at _ _) as [a b]. now intros [_ E]%append_eq_nil.
Qed.

Lemma Number_toFixed_nonempty (x : number) (f : Z) (s : string) :
  Number_toFixed x f = Normal s -> s <> "".
Proof.
  unfold Number_toFixed. destruct (_ || _); [discriminate|].
  destruct x as [z|i| |z m e]; cbv beta iota zeta; repeat case_head;
    intros <-%Normal_inj; try discriminate; try apply Number_toString_nonempty;
    intros [_ N]%append_eq_nil; revert N;
    first [apply Number_toString_nonempty | apply fixed_digits_nonempty].
Qed.

(** ** toFixed at the edges *)

(** [toFixed] rounds the binary value, not the decimal literal: 1.005 is
    below its literal, and prints as "1.00". *)
Example toFixed_rounds_the_binary_value :
  Number_toFixed (number_of_decimal 1005 (-3)) 2 = Normal "1.00"%string
  /\ toR (number_of_decimal 1005 (-3)) < 1005 # 1000.
Proof. split; [vm_compute; reflexivity | unfold Qlt, Z.lt; vm_compute; reflexivity]. Qed.

(** From [10^21] on, [toFixed] gives the text of [Number::toString], in
    exponent notation; of NaN it gives "NaN". *)
Example toFixed_large_and_NaN :
  Number_toFixed (number_of_decimal 1 21) 2 = Normal "1e+21"%string
  /\ Number_toFixed S754_nan 2 = Normal "NaN"%string.
Proof. split; vm_compute; reflexivity. Qed.

(** * Properties *)

(** [Math.round] of a finite binary64 value is a finite number whose
    value is an integer, no integer is closer to the argument, and of two
    integers equally close it is the larger. *)
Theorem Math_round_closest (x : number) :
  is_double x = true -> is_finite x = true ->
  exists n,
    is_finite (Math_round x) = true /\ toR (Math_round x) == inject_Z n
    /\ (forall n', Qabs (inject_Z n - toR x) <= Qabs (inject_Z n' - toR x))
    /\ (forall n', Qabs (inject_Z n' - toR x) == Qabs (inject_Z n - toR x) -> (n' <= n)%Z).
Proof.
  intros Hd Hf. destruct (Math_round_exact x Hd Hf) as [F V].
  exists (round_half_up (toR x)). repeat split; try assumption.
  - intros n'. apply round_half_up_closest.
  - intros n'. apply round_half_up_tie.
Qed.

(** [toFixed] of a negative number above [-10^21] is a minus sign and
    the digits of the absolute value rounded to [f] decimals, also when
    these digits are all zero. *)
Theorem toFixed_negative (x : number) (f : Z) :
  is_finite x = true -> (0 <= f <= 100)%Z -> - pow10 21 < toR x < 0 ->
  exists s,
    Number_toFixed x f = Normal ("-" ++ s)%string
    /\ parse_fixed s = Some (round_half_up (- toR x * pow10 f), Z.to_nat f).
Proof.
  intros Hf Hr [Hlo Hhi].
  assert (Ha : Qabs (toR x) == - toR x) by (apply Qabs_neg; lra).
  rewrite Number_toFixed_finite by (try assumption; rewrite Ha; lra).
  destruct (Qlt_le_dec (toR x) 0) as [_|Hn]; [|exfalso; lra].
  eexists. split; [reflexivity|].
  rewrite (round_half_up_comp _ (- toR x * pow10 f)) by (rewrite Ha; reflexivity).
  apply parse_fixed_fixed_digits, round_half_up_nonneg.
  apply Qmult_le_0_compat; [lra | apply Qlt_le_weak, pow10_pos].
Qed.


(** * Witnesses *)

Lemma Math_round_closest_witness :
  exists n,
    is_finite (Math_round (number_of_decimal 45 (-1))) = true
    /\ toR (Math_round (number_of_decimal 45 (-1))) == inject_Z n
    /\ (forall n', Qabs (inject_Z n - toR (number_of_decimal 45 (-1)))
                   <= Qabs (inject_Z n' - toR (number_of_decimal 45 (-1))))
    /\ (forall n', Qabs (inject_Z n' - toR (number_of_decimal 45 (-1)))
                   == Qabs (inject_Z n - toR (number_of_decimal 45 (-1))) -> (n' <= n)%Z).
Proof. apply (Math_round_closest (number_of_decimal 45 (-1))); reflexivity. Defined.

Lemma toFixed_negative_witness :
  exists s,
    Number_toFixed (number_of_decimal (-1) (-3)) 2 = Normal ("-" ++ s)%string
    /\ parse_fixed s = Some (round_half_up (- toR (number_of_decimal (-1) (-3)) * pow10 2), 2%nat).
Proof.
  apply (toFixed_negative (number_of_decimal (-1) (-3)) 2); [reflexivity | lia |].
  split; unfold Qlt, Z.lt; vm_compute; reflexivity.
Defined.

