(* ===== verification/Literals.v ===== *)
(** * Decimal literals

    The prices and ratings of the fixtures are decimal literals: [99.99] is
    the binary64 value nearest to [9999 / 10^2].  This file shows that such
    a literal, of up to 100 digits after the point and digits below [2^50],
    is a binary64 value so close to the decimal that [toFixed] with as many
    digits prints the decimal back: the rounding to binary and the rounding
    of [toFixed] cancel.  A literal that is a multiple of [1/64] is exact,
    and [Math.round] of a literal is the integer nearest to the decimal. *)

From Stdlib Require Import ZArith QArith Qround Qabs String Bool Lia Lqa SpecFloat.
From S2P Require Import Prelude JsString Binary64 Rounding JsNumber.

Local Open Scope Z_scope.

(** The decimal literal of [f] digits after the point whose digits spell
    [c]: [c / 10^f], as a number. *)
Definition literal (c : Z) (f : nat) : number := number_of_decimal c (- Z.of_nat f).

(** * Lemmas *)

Lemma pow10_bits (f : nat) : (f <= 100)%nat -> 10 ^ Z.of_nat f < 2 ^ 401.
Proof.
  intros H. apply Z.le_lt_trans with (2 ^ (4 * Z.of_nat f)).
  - rewrite Z.pow_mul_r by lia. change (2 ^ 4) with 16. apply Z.pow_le_mono_l. lia.
  - apply Z.pow_lt_mono_r; lia.
Qed.

(** The literal as [SFdiv] computes it. *)
Lemma literal_SFdiv (a : positive) (f : nat) :
  exists d : positive,
    Zpos d = 10 ^ Z.of_nat f
    /\ literal (Zpos a) f = SFdiv 53 1024 (S754_finite false a 0) (S754_finite false d 0).
Proof.
  unfold literal, number_of_decimal, number_of_Q. destruct f as [|f].
  - exists 1%positive. split; [reflexivity|].
    cbn [Z.of_nat Z.opp pow10 Qmult Qnum Qden inject_Z]. change (10 ^ 0) with 1.
    cbn [Z.mul Pos.mul]. now rewrite Pos.mul_1_r.
  - exists (10 ^ Pos.of_succ_nat f)%positive. split.
    + now rewrite Pos2Z.inj_pow.
    + cbn [Z.of_nat Z.opp pow10 Qmult Qnum Qden inject_Z Z.mul Pos.mul].
      now rewrite Pos.mul_1_r.
Qed.

(** The literal of digits [c] below [2^50] is a binary64 value whose
    [10^f]-fold is within one half of [c], strictly. *)
Lemma literal_close (a : positive) (f : nat) :
  Zpos a < 2 ^ 50 -> (f <= 100)%nat ->
  exists m e,
    literal (Zpos a) f = S754_finite false m e /\ is_double (S754_finite false m e) = true
    /\ (inject_Z (Zpos a) - (1 # 2) < toR (S754_finite false m e) * pow10 (Z.of_nat f)
        < inject_Z (Zpos a) + (1 # 2))%Q.
Proof.
  intros Ha Hf. destruct (literal_SFdiv a f) as (d & Hd & ->).
  pose proof (pow10_bits f Hf) as Bd. rewrite <- Hd in Bd.
  pose proof (digits2_pos_le a 50 Ha) as D1. pose proof (digits2_pos_le d 401 Bd) as D2.
  pose proof (digits2_pos_bounds d) as [Ld Ud].
  destruct (SFdiv_fits false a d ltac:(lia) ltac:(lia)) as (m & e & -> & Dm & He & W).
  set (S := 53 + Zpos (digits2_pos d) - Zpos (digits2_pos a)) in *.
  exists m, e. split; [reflexivity|]. split; [apply is_double_canonical; lia|].
  destruct e as [|p|p]; try lia.
  rewrite pow10_nonneg_eq, <- Hd by lia. cbn [toR dyadic].
  assert (PT : 0 < 2 ^ (Zneg p + S)) by (apply Z.pow_pos_nonneg; lia).
  assert (TE : 2 ^ (Zneg p + S) * 2 ^ Zpos p = 2 ^ S).
  { rewrite <- Z.pow_add_r by lia. f_equal. lia. }
  assert (T4 : 2 ^ (Zneg p + S) <= 4).
  { change 4 with (2 ^ 2). apply Z.pow_le_mono_r; lia. }
  assert (S8 : 8 * 2 ^ Zpos (digits2_pos d) <= 2 ^ S).
  { change 8 with (2 ^ 3). rewrite <- Z.pow_add_r by lia. apply Z.pow_le_mono_r; lia. }
  set (T := 2 ^ (Zneg p + S)) in *. set (E := 2 ^ Zpos p) in *.
  assert (DE : 2 * Zpos d < E) by nia.
  assert (W' : Z.abs (2 * (Zpos m * Zpos d - Zpos a * E)) <= Zpos d) by nia.
  unfold Qlt, Qminus, Qplus, Qopp, Qmult, inject_Z. cbn [Qnum Qden].
  rewrite !Pos2Z.inj_mul, Pos2Z.inj_pow. fold E. split; nia.
Qed.

(** A literal of digits below [2^50] is not negative and below [10^21]. *)
Lemma literal_range (c : Z) (f : nat) :
  0 <= c < 2 ^ 50 -> (f <= 100)%nat -> (0 <= toR (literal c f) < pow10 21)%Q.
Proof.
  intros Hc Hf. destruct c as [|a|a]; [| |lia].
  - change (toR (literal 0 f)) with 0%Q. split; [lra | reflexivity].
  - destruct (literal_close a f ltac:(lia) Hf) as (m & e & -> & _ & L & U).
    pose proof (toR_sign false m e) as P. cbn iota in P.
    assert (P1 : (1 <= pow10 (Z.of_nat f))%Q).
    { rewrite pow10_nonneg_eq by lia. change 1%Q with (inject_Z 1). rewrite <- Zle_Qle.
      apply Zpow10_ge1. lia. }
    split; [lra|]. apply Qlt_le_trans with (inject_Z (Zpos a) + 1)%Q; [nra|].
    change (inject_Z (Zpos a) + 1)%Q with (inject_Z (Zpos a) + inject_Z 1)%Q.
    rewrite <- inject_Z_plus. unfold pow10. rewrite <- Zle_Qle.
    assert (2 ^ 50 < 10 ^ 21) by reflexivity. lia.
Qed.

(** [toFixed] with [f] digits prints a literal of [f] digits after the
    point as it was written. *)
Lemma toFixed_literal (c : Z) (f : nat) :
  0 <= c < 2 ^ 50 -> (f <= 100)%nat ->
  is_double (literal c f) = true
  /\ Number_toFixed (literal c f) (Z.of_nat f) = Normal (fixed_digits c f).
Proof.
  intros Hc Hf. destruct (literal_range c f Hc Hf) as [L0 U0].
  assert (A : (Qabs (toR (literal c f)) == toR (literal c f))%Q) by (apply Qabs_pos; exact L0).
  assert (R : round_half_up (Qabs (toR (literal c f)) * pow10 (Z.of_nat f)) = c
              /\ is_double (literal c f) = true /\ is_finite (literal c f) = true).
  { destruct c as [|a|a]; [| |lia].
    - split; [|split; reflexivity]. change (toR (literal 0 f)) with 0%Q.
      now rewrite (round_half_up_comp _ 0) by (change (Qabs 0) with 0%Q; lra).
    - destruct (literal_close a f ltac:(lia) Hf) as (m & e & E & D & L & U).
      rewrite E in *. split; [|split; [exact D | reflexivity]].
      apply round_half_up_unique. rewrite A. split; lra. }
  destruct R as (R & D & F). split; [exact D|].
  rewrite Number_toFixed_finite; [|exact F|lia|rewrite A; exact U0].
  destruct (Qlt_le_dec (toR (literal c f)) 0) as [N|_]; [lra|]. cbn [append].
  now rewrite Nat2Z.id, R.
Qed.

(** A literal whose value is a multiple of [1/64], with digits below
    [2^47], is a binary64 value with exactly that value: halves, quarters
    and whole numbers written with decimals are exact. *)
Lemma literal_exact (a : positive) (f : nat) :
  Zpos a < 2 ^ 47 -> (f <= 100)%nat -> (Zpos a * 64) mod 10 ^ Z.of_nat f = 0 ->
  exists m e,
    literal (Zpos a) f = S754_finite false m e /\ is_double (S754_finite false m e) = true
    /\ (toR (S754_finite false m e) * pow10 (Z.of_nat f) == inject_Z (Zpos a))%Q.
Proof.
  intros Ha Hf Hm. destruct (literal_SFdiv a f) as (d & Hd & ->).
  pose proof (pow10_bits f Hf) as Bd. rewrite <- Hd in Bd, Hm.
  pose proof (digits2_pos_le a 47 Ha) as D1. pose proof (digits2_pos_le d 401 Bd) as D2.
  assert (P2 : 1 <= Zpos (digits2_pos d)) by lia.
  destruct (SFdiv_exact false a d ltac:(lia) ltac:(lia)) as (m & e & -> & Dm & He & V).
  { set (S := 53 + Zpos (digits2_pos d) - Zpos (digits2_pos a)).
    replace (S - 1) with (6 + (S - 7)) by lia. rewrite Z.pow_add_r by (unfold S; lia).
    change (2 ^ 6) with 64. apply Z.div_exact in Hm; [|lia].
    rewrite Z.mul_assoc, Hm, <- Z.mul_assoc, Z.mul_comm. apply Z.mod_mul. lia. }
  set (S := 53 + Zpos (digits2_pos d) - Zpos (digits2_pos a)) in *.
  exists m, e. split; [reflexivity|]. split; [apply is_double_canonical; lia|].
  destruct e as [|p|p]; try lia.
  rewrite pow10_nonneg_eq, <- Hd by lia. cbn [toR dyadic].
  assert (PT : 0 < 2 ^ (Zneg p + S)) by (apply Z.pow_pos_nonneg; lia).
  assert (TE : 2 ^ (Zneg p + S) * 2 ^ Zpos p = 2 ^ S).
  { rewrite <- Z.pow_add_r by lia. f_equal. lia. }
  unfold Qeq, Qmult, inject_Z. cbn [Qnum Qden].
  rewrite !Pos2Z.inj_mul, Pos2Z.inj_pow. nia.
Qed.

(** ** [Math.round] of a literal *)

(** A value at the lower end of the window of [n] rounds to [n]. *)
Lemma tie_window (x d n : Q) :
  (0 < d -> x * d == d * n - d * (1 # 2) -> n - (1 # 2) <= x < n + (1 # 2))%Q.
Proof. intros Hd E. split; nra. Qed.

(** A value strictly inside the window of [n] rounds to [n]. *)
Lemma open_window (x d n k : Q) :
  (0 < d -> 1 <= k <= d - 1 ->
   d * n - d * (1 # 2) + k - (1 # 2) < x * d < d * n - d * (1 # 2) + k + (1 # 2) ->
   n - (1 # 2) <= x < n + (1 # 2))%Q.
Proof. intros Hd Hk [L U]. split; nra. Qed.

(** The digits [a], written around the multiple [n] of [D] nearest to
    them, as rationals. *)
Lemma inject_Z_half_sum (a D h n k : Z) :
  D = 2 * h -> a + h = D * n + k ->
  (inject_Z a == inject_Z D * inject_Z n - inject_Z D * (1 # 2) + inject_Z k)%Q.
Proof.
  intros -> E. replace a with (2 * h * n + k - h) by lia.
  unfold Qeq, Qminus, Qplus, Qmult, Qopp, inject_Z. cbn [Qnum Qden]. lia.
Qed.

(** A positive power of ten is even. *)
Lemma pow10_half (n : Z) : 1 <= n -> 10 ^ n = 2 * (10 ^ n / 2).
Proof.
  intros H. replace n with (1 + (n - 1)) by lia.
  rewrite Z.pow_add_r, Z.pow_1_r by lia.
  replace (10 * 10 ^ (n - 1)) with (5 * 10 ^ (n - 1) * 2) by lia.
  rewrite Z.div_mul by lia. lia.
Qed.

(** Moving the point: [10^f] is [10^g] times [10^(f - g)]. *)
Lemma pow10_scale (f g : nat) :
  (g <= f)%nat ->
  (pow10 (Z.of_nat f) == pow10 (Z.of_nat g) * inject_Z (10 ^ Z.of_nat (f - g)))%Q.
Proof.
  intros H. rewrite !pow10_nonneg_eq by lia. rewrite <- inject_Z_mult, <- Z.pow_add_r by lia.
  replace (Z.of_nat g + Z.of_nat (f - g)) with (Z.of_nat f) by lia. reflexivity.
Qed.

(** Rounding a literal of [f] digits after the point to [g] of them sees
    the decimal: the digits [c], below [2^47], round to the multiple of
    [10^(f - g)] nearest to them, upwards on a tie, provided that a tie is
    a multiple of [1/64], which binary64 represents exactly. *)
Lemma round_scaled_literal (c : Z) (f g : nat) :
  0 <= c < 2 ^ 47 -> (g < f <= 100)%nat ->
  let D := 10 ^ Z.of_nat (f - g) in
  ((c + D / 2) mod D = 0 -> (c * 64) mod 10 ^ Z.of_nat f = 0) ->
  is_double (literal c f) = true /\ is_finite (literal c f) = true
  /\ round_half_up (toR (literal c f) * pow10 (Z.of_nat g)) = (c + D / 2) / D.
Proof.
  intros Hc Hf D Ht. set (h := D / 2) in *.
  assert (PD : 0 < D) by (apply Z.pow_pos_nonneg; lia).
  assert (DH : D = 2 * h) by (apply pow10_half; lia).
  pose proof (pow10_scale f g ltac:(lia)) as PW. fold D in PW.
  destruct c as [|a|a]; try lia.
  - split; [apply toFixed_literal; lia|]. split; [reflexivity|].
    change (toR (literal 0 f)) with 0%Q. rewrite Z.div_small by lia.
    now rewrite (round_half_up_comp _ 0) by lra.
  - pose proof (Z.div_mod (Zpos a + h) D ltac:(lia)) as E.
    pose proof (Z.mod_pos_bound (Zpos a + h) D PD) as B.
    set (n := (Zpos a + h) / D) in *. set (k := (Zpos a + h) mod D) in *.
    pose proof (inject_Z_half_sum _ _ _ _ _ DH E) as EQ.
    assert (QD : (0 < inject_Z D)%Q) by (change 0%Q with (inject_Z 0); rewrite <- Zlt_Qlt; lia).
    destruct (Z.eq_dec k 0) as [K|K].
    + destruct (literal_exact a f ltac:(lia) ltac:(lia) (Ht K)) as (m & e & -> & Hd & V).
      split; [exact Hd|]. split; [reflexivity|]. apply round_half_up_unique.
      apply (tie_window _ (inject_Z D)); [exact QD|].
      rewrite <- Qmult_assoc, <- PW, V, EQ, K. change (inject_Z 0) with 0%Q. lra.
    + destruct (literal_close a f ltac:(lia) ltac:(lia)) as (m & e & -> & Hd & V).
      split; [exact Hd|]. split; [reflexivity|]. apply round_half_up_unique.
      apply (open_window _ (inject_Z D) _ (inject_Z k)); [exact QD| |].
      * unfold Qminus. change 1%Q with (inject_Z 1).
        rewrite <- inject_Z_opp, <- inject_Z_plus, <- !Zle_Qle. lia.
      * rewrite <- Qmult_assoc, <- PW. rewrite EQ in V. split; lra.
Qed.

(** [Math.round] sees the decimal: a literal of digits [c] below [2^47]
    with [f] digits after the point rounds to the integer nearest to
    [c / 10^f], upwards on a tie, because a tie is a multiple of [1/2] and
    is represented exactly. *)
Lemma round_literal (c : Z) (f : nat) :
  0 <= c < 2 ^ 47 -> (1 <= f <= 100)%nat ->
  is_double (literal c f) = true /\ is_finite (literal c f) = true
  /\ round_half_up (toR (literal c f)) = (c + 10 ^ Z.of_nat f / 2) / 10 ^ Z.of_nat f.
Proof.
  intros Hc Hf. destruct (round_scaled_literal c f 0 Hc ltac:(lia)) as (Hd & Hn & R).
  - rewrite Nat.sub_0_r. set (D := 10 ^ Z.of_nat f). intros T.
    assert (PD : 0 < D) by (apply Z.pow_pos_nonneg; lia).
    pose proof (pow10_half (Z.of_nat f) ltac:(lia)) as DH. fold D in DH.
    apply Z.div_exact in T; [|lia].
    replace (c * 64) with ((64 * ((c + D / 2) / D) - 32) * D) by lia. apply Z.mod_mul. lia.
  - rewrite Nat.sub_0_r in R. split; [exact Hd|]. split; [exact Hn|]. rewrite <- R.
    apply round_half_up_comp. change (pow10 (Z.of_nat 0)) with 1%Q. lra.
Qed.

(** ** [toFixed] with fewer digits than the literal has *)

(** [toFixed] with [g] digits on a literal of [f > g] digits prints the
    decimal rounded to [g] digits, upwards on a tie, provided that a tie
    is a multiple of [1/64]: [4.567] prints as [4.6] and [1.25] as [1.3].
    A tie that binary64 does not hold exactly, such as [1.005], is outside
    this lemma: it prints as the binary value falls. *)
Lemma toFixed_literal_rounds (c : Z) (f g : nat) :
  0 <= c < 2 ^ 47 -> (g < f <= 100)%nat ->
  let D := 10 ^ Z.of_nat (f - g) in
  ((c + D / 2) mod D = 0 -> (c * 64) mod 10 ^ Z.of_nat f = 0) ->
  Number_toFixed (literal c f) (Z.of_nat g) = Normal (fixed_digits ((c + D / 2) / D) g).
Proof.
  intros Hc Hf D Ht. destruct (round_scaled_literal c f g Hc Hf Ht) as (_ & Hn & R).
  destruct (literal_range c f ltac:(lia) ltac:(lia)) as [L U].
  assert (A : (Qabs (toR (literal c f)) == toR (literal c f))%Q) by (apply Qabs_pos; exact L).
  rewrite Number_toFixed_finite; [|exact Hn|lia|rewrite A; exact U].
  destruct (Qlt_le_dec (toR (literal c f)) 0) as [N|_]; [lra|]. cbn [append].
  rewrite Nat2Z.id. fold D in R. rewrite <- R. do 2 f_equal.
  apply round_half_up_comp. rewrite A. reflexivity.
Qed.
