(* ===== verification/IntegerText.v ===== *)
(** * The text of integers

    [Number::toString] finds the shortest digits that round to the number
    by search.  On an integer below [10^15] the search ends at the digits
    of the integer without its trailing zeros, and the text is the decimal
    digits of the integer: the routine of [JsNumber.v] agrees with
    [decimal_digits] of [JsString.v], and with [integer_digits] of this
    file, which finds the same digits without a search. *)

From Stdlib Require Import ZArith QArith Qround Qabs String Ascii List Bool Lia Lqa SpecFloat.
From S2P Require Import Prelude JsString Binary64 JsNumber.
Import ListNotations.

Local Open Scope Z_scope.

(** ** The digits of an integer, directly *)

(** [s] of [k] digits without its trailing zeros, down to one digit, and
    the number of digits left. *)
Fixpoint strip_zeros (fuel : nat) (s k : Z) : Z * Z :=
  match fuel with
  | O => (s, k)
  | S fuel' =>
      if (s mod 10 =? 0) && (1 <? k) then strip_zeros fuel' (s / 10) (k - 1) else (s, k)
  end.

(** Step 5 of [Number::toString] at a positive integer [z], without a
    search: the [n], [k] and [s] with [s * 10^(n-k) = z], [s] of [k]
    digits and [k] as small as possible. *)
Definition integer_digits (z : Z) : Z * Z * Z :=
  let n := Z.of_nat (String.length (decimal_digits z)) in
  let (s, k) := strip_zeros (Z.to_nat n) z n in
  (s, n, k).

(** * Lemmas *)

(** ** Powers of ten *)

Lemma pow10_neg (p : positive) : pow10 (Zneg p) = Qmake 1 (10 ^ p).
Proof. reflexivity. Qed.

Lemma Zpow10_split (n k : Z) : 0 <= k <= n -> 10 ^ n = 10 ^ (n - k) * 10 ^ k.
Proof. intros H. rewrite <- Z.pow_add_r by lia. f_equal. lia. Qed.

Lemma Zpow10_15 (n : Z) : 0 <= n <= 15 -> 10 ^ n < 2 ^ 53.
Proof.
  intros H. assert (10 ^ n <= 10 ^ 15) by (apply Z.pow_le_mono_r; lia).
  assert (10 ^ 15 < 2 ^ 53) by reflexivity. lia.
Qed.

(** The digits of [s * 10^t] are those of [s] and [t] zeros. *)
Lemma decimal_digits_pow10 (s : Z) (t : nat) :
  0 < s ->
  decimal_digits (s * 10 ^ Z.of_nat t) = (decimal_digits s ++ repeat_string "0" t)%string.
Proof.
  intros Hs. induction t as [|t IH].
  - cbn [repeat_string]. rewrite Z.mul_1_r, append_nil_r. reflexivity.
  - rewrite Nat2Z.inj_succ, Z.pow_succ_r by lia.
    assert (P : 0 < 10 ^ Z.of_nat t) by (apply Zpow10_pos; lia).
    rewrite decimal_digits_step by nia.
    replace (s * (10 * 10 ^ Z.of_nat t)) with (s * 10 ^ Z.of_nat t * 10) by lia.
    rewrite Z.div_mul, Z.mod_mul, IH by lia.
    replace (S t) with (t + 1)%nat by lia.
    rewrite repeat_string_add, append_assoc. reflexivity.
Qed.

(** ** Trailing zeros *)

(** What [strip_zeros] returns: the digits denote [s], and either one
    digit is left or the last one is not a zero. *)
Lemma strip_zeros_spec (fuel : nat) (s k : Z) :
  0 < s -> 1 <= k -> k - 1 <= Z.of_nat fuel ->
  let (s', k') := strip_zeros fuel s k in
  1 <= k' <= k /\ s = s' * 10 ^ (k - k') /\ (k' = 1 \/ s' mod 10 <> 0).
Proof.
  revert s k. induction fuel as [|fuel IH]; intros s k Hs Hk Hf; cbn [strip_zeros].
  - replace (k - k) with 0 by lia. repeat split; lia.
  - destruct (Z.eqb_spec (s mod 10) 0) as [E|E], (Z.ltb_spec 1 k) as [L|L]; cbn [andb];
      try (replace (k - k) with 0 by lia; repeat split; lia).
    pose proof (Z.div_mod s 10 ltac:(lia)) as D. rewrite E, Z.add_0_r in D.
    specialize (IH (s / 10) (k - 1) ltac:(lia) ltac:(lia) ltac:(lia)).
    destruct (strip_zeros fuel (s / 10) (k - 1)) as [s' k'].
    destruct IH as (Hk' & Hv & Hz). repeat split; try lia.
    replace (k - k') with (k - 1 - k' + 1) by lia.
    rewrite Zpow10_succ by lia. lia.
Qed.

(** The least number of digits that leaves only zeros is the one at which
    the last digit is not a zero. *)
Lemma least_digits_unique (z n k1 k2 s2 : Z) :
  1 <= k1 <= n -> 1 <= k2 <= n ->
  z mod 10 ^ (n - k1) = 0 -> (forall j, 1 <= j < k1 -> z mod 10 ^ (n - j) <> 0) ->
  z = s2 * 10 ^ (n - k2) -> k2 = 1 \/ s2 mod 10 <> 0 ->
  k1 = k2.
Proof.
  intros H1 H2 M L V N.
  assert (P2 : 0 < 10 ^ (n - k2)) by (apply Zpow10_pos; lia).
  destruct (Z.lt_trichotomy k1 k2) as [C|[C|C]]; [exfalso | exact C | exfalso].
  - destruct N as [N|N]; [lia|]. apply N.
    apply Z.div_exact in M; [|apply Z.neq_sym, Z.lt_neq, Zpow10_pos; lia].
    rewrite (Zpow10_split (n - k1) (n - k2)) in M by lia.
    replace (n - k1 - (n - k2)) with (k2 - k1 - 1 + 1) in M by lia.
    rewrite Zpow10_succ in M by lia.
    set (q := z / _) in M. set (R := 10 ^ (k2 - k1 - 1)) in M.
    assert (E : s2 = R * q * 10) by nia. rewrite E. apply Z.mod_mul. lia.
  - apply (L k2 ltac:(lia)). rewrite V. apply Z.mod_mul. lia.
Qed.

(** ** The search on an integer *)

Section Search.

(** The value [x] of the number is the integer [z] of [n] digits. *)
Variables (x : Q) (z n : Z).
Hypothesis Hx : (x == inject_Z z)%Q.
Hypothesis Hn : 1 <= n <= 15.
Hypothesis Hlo : 10 ^ (n - 1) <= z.
Hypothesis Hhi : z < 10 ^ n.

Lemma floor_scaled (k : Z) : 1 <= k <= n -> Qfloor (x * pow10 (k - n)) = z / 10 ^ (n - k).
Proof.
  intros Hk. rewrite (Qfloor_comp _ (inject_Z z * pow10 (k - n))) by (rewrite Hx; reflexivity).
  destruct (k - n) as [|p|p] eqn:E; [|lia|].
  - replace (n - k) with 0 by lia. change (pow10 0) with (inject_Z 1).
    rewrite <- inject_Z_mult, Qfloor_Z, Z.mul_1_r, Z.div_1_r. reflexivity.
  - rewrite pow10_neg. unfold Qfloor, Qmult, inject_Z. cbn [Qnum Qden].
    rewrite Z.mul_1_r, Pos.mul_1_l, Pos2Z.inj_pow. f_equal. f_equal. lia.
Qed.

(** A candidate that denotes an integer below [2^53] rounds to [x]
    exactly when it denotes [z]. *)
Lemma round_trips_integer (k s m : Z) :
  0 <= m - k -> 0 < s -> s * 10 ^ (m - k) < 2 ^ 53 ->
  round_trips x k (s, m)
  = (10 ^ (k - 1) <=? s) && (s <? 10 ^ k) && (s * 10 ^ (m - k) =? z).
Proof.
  intros Hm Hs Hv. unfold round_trips, digits_value. rewrite pow10_nonneg_eq by exact Hm.
  assert (P : 0 < 10 ^ (m - k)) by now apply Zpow10_pos.
  destruct (number_of_Q_integer (inject_Z s * inject_Z (10 ^ (m - k)))) as [F V];
    [reflexivity | cbn [Qnum Qmult inject_Z]; nia |].
  rewrite F. cbn [andb]. f_equal. cbn [Qnum Qmult inject_Z] in V.
  apply eq_true_iff_eq. rewrite Qeq_bool_iff, Z.eqb_eq, V, Hx. unfold Qeq. cbn [Qnum Qden inject_Z].
  lia.
Qed.

(** The first [k] digits of [z]: the quotient by [10^(n-k)]. *)
Lemma quotient_bounds (k : Z) :
  1 <= k <= n ->
  let P := 10 ^ (n - k) in
  let lo := z / P in
  10 ^ (k - 1) <= lo < 10 ^ k
  /\ lo * P <= z < (lo + 1) * P /\ (lo + 1) * P <= 10 ^ n
  /\ (lo * P = z <-> z mod P = 0).
Proof.
  intros Hk P lo.
  assert (HP : 0 < P) by (apply Zpow10_pos; lia).
  assert (HK : 0 < 10 ^ (k - 1)) by (apply Zpow10_pos; lia).
  assert (E1 : 10 ^ n = P * 10 ^ k) by (apply Zpow10_split; lia).
  assert (E3 : 10 ^ (n - 1) = P * 10 ^ (k - 1)).
  { unfold P. rewrite <- Z.pow_add_r by lia. f_equal. lia. }
  pose proof (Z.div_mod z P ltac:(lia)) as D. pose proof (Z.mod_pos_bound z P HP) as M.
  fold lo in D.
  assert (L1 : 10 ^ (k - 1) <= lo) by (apply Z.div_le_lower_bound; lia).
  assert (L2 : lo < 10 ^ k) by (apply Z.div_lt_upper_bound; lia).
  repeat split; try lia.
  rewrite E1, (Z.mul_comm P). apply Z.mul_le_mono_nonneg_r; lia.
Qed.

(** With [k] digits the search finds the integer when it has no more of
    them before its trailing zeros, and nothing otherwise. *)
Lemma candidates_integer (k : Z) :
  1 <= k <= n ->
  filter (round_trips x k) (neighbours x n k)
  = if z mod 10 ^ (n - k) =? 0 then [(z / 10 ^ (n - k), n)] else [].
Proof.
  intros Hk. unfold neighbours. rewrite floor_scaled by exact Hk.
  destruct (quotient_bounds k Hk) as ([L1 L2] & [V1 V2] & V3 & V4).
  set (P := 10 ^ (n - k)) in *. set (lo := z / P) in *.
  assert (HK : 0 < 10 ^ (k - 1)) by (apply Zpow10_pos; lia).
  assert (B : 10 ^ n < 2 ^ 53) by (apply Zpow10_15; lia).
  assert (T : 10 ^ (k - 1) * 10 ^ (n + 1 - k) = 10 ^ n).
  { rewrite <- Z.pow_add_r by lia. f_equal. lia. }
  cbn [filter].
  rewrite (round_trips_integer k lo n) by (fold P; lia). fold P.
  replace (10 ^ (k - 1) <=? lo) with true by (symmetry; zbool).
  replace (lo <? 10 ^ k) with true by (symmetry; zbool). cbn [andb].
  assert (R : (if lo + 1 =? 10 ^ k
               then round_trips x k (10 ^ (k - 1), n + 1)
               else round_trips x k (lo + 1, n)) = false).
  { destruct (Z.eqb_spec (lo + 1) (10 ^ k)) as [C|C].
    - rewrite round_trips_integer by (rewrite ?T; lia). rewrite T.
      replace (10 ^ n =? z) with false by (symmetry; zbool). apply andb_false_r.
    - rewrite round_trips_integer by (fold P; lia). fold P.
      replace ((lo + 1) * P =? z) with false by (symmetry; zbool). apply andb_false_r. }
  destruct (Z.eqb_spec (z mod P) 0) as [C|C].
  - replace (lo * P =? z) with true by (symmetry; zbool).
    destruct (lo + 1 =? 10 ^ k); rewrite R; reflexivity.
  - replace (lo * P =? z) with false by (symmetry; zbool).
    destruct (lo + 1 =? 10 ^ k); rewrite R; reflexivity.
Qed.

(** The search ends, at the digits of [z] without its trailing zeros: at
    the least number of digits from [k] on that leaves only zeros. *)
Lemma shortest_digits_integer (fuel : nat) (k : Z) :
  1 <= k <= n -> n - k < Z.of_nat fuel ->
  exists k', k <= k' <= n /\ z mod 10 ^ (n - k') = 0
             /\ (forall j, k <= j < k' -> z mod 10 ^ (n - j) <> 0)
             /\ shortest_digits fuel x n k = (z / 10 ^ (n - k'), n, k').
Proof.
  revert k. induction fuel as [|fuel IH]; intros k Hk Hf; [lia|].
  cbn [shortest_digits]. rewrite candidates_integer by exact Hk.
  destruct (Z.eqb_spec (z mod 10 ^ (n - k)) 0) as [E|E].
  - exists k. cbn [closest]. repeat split; (lia || assumption).
  - assert (k < n).
    { destruct (Z.eq_dec k n) as [->|]; [|lia].
      rewrite Z.sub_diag, Z.mod_1_r in E. congruence. }
    destruct (IH (k + 1)) as (k' & Hk' & Hm & Hl & Hs); [lia | lia |].
    exists k'. cbn [closest]. repeat split; try (lia || assumption).
    intros j Hj. destruct (Z.eq_dec j k) as [->|]; [exact E | apply Hl; lia].
Qed.

End Search.

(** ** The text *)

Lemma decimal_magnitude_integer (x : Q) (z : Z) :
  (x == inject_Z z)%Q -> 0 < z ->
  decimal_magnitude x = Z.of_nat (String.length (decimal_digits z)).
Proof.
  intros Hx Hz. unfold decimal_magnitude.
  replace (Qle_bool 1 x) with true.
  - now rewrite (Qfloor_comp _ _ Hx), Qfloor_Z.
  - symmetry. apply Qle_bool_iff. rewrite Hx. change 1%Q with (inject_Z 1).
    rewrite <- Zle_Qle. lia.
Qed.

Lemma format_digits_integer (s n k : Z) :
  1 <= k <= n -> n <= 21 ->
  format_digits s n k = (decimal_digits s ++ repeat_string "0" (Z.to_nat (n - k)))%string.
Proof.
  intros Hk Hn. unfold format_digits.
  replace (k <=? n) with true by (symmetry; zbool).
  replace (n <=? 21) with true by (symmetry; zbool). reflexivity.
Qed.

(** The number of decimal digits of a positive integer below [10^15]. *)
Lemma decimal_digits_count (z : Z) :
  0 < z < 10 ^ 15 ->
  let n := Z.of_nat (String.length (decimal_digits z)) in
  1 <= n <= 15 /\ 10 ^ (n - 1) <= z < 10 ^ n.
Proof.
  intros Hz n. pose proof (decimal_digits_length z ltac:(lia)) as L. fold n in L.
  split; [|exact L]. split.
  - assert (String.length (decimal_digits z) <> 0%nat); [|lia].
    rewrite length_zero_iff_nil. apply decimal_digits_nonempty.
  - destruct (Z_lt_le_dec 15 n) as [C|C]; [|exact C].
    assert (10 ^ 15 <= 10 ^ (n - 1)) by (apply Z.pow_le_mono_r; lia). lia.
Qed.

(** The digits [Number::toString] finds for a number whose value is a
    positive integer below [10^15], and their text. *)
Lemma number_digits_integer (x : Q) (z : Z) :
  (x == inject_Z z)%Q -> 0 < z < 10 ^ 15 ->
  let '(d, n, k) := number_digits x in format_digits d n k = decimal_digits z.
Proof.
  intros Hx Hz. unfold number_digits. rewrite (decimal_magnitude_integer x z Hx) by lia.
  destruct (decimal_digits_count z Hz) as [Hn [Hlo Hhi]].
  set (n := Z.of_nat (String.length (decimal_digits z))) in *.
  destruct (shortest_digits_integer x z n Hx Hn Hlo Hhi 16 1) as (k & Hk & Hm & _ & ->);
    [lia | lia |].
  rewrite format_digits_integer by lia.
  assert (P : 0 < 10 ^ (n - k)) by (apply Zpow10_pos; lia).
  pose proof (Z.div_mod z (10 ^ (n - k)) ltac:(lia)) as D. rewrite Hm, Z.add_0_r in D.
  rewrite <- decimal_digits_pow10 by nia.
  rewrite Z2Nat.id by lia. f_equal. lia.
Qed.

(** The text of a number whose value is an integer below [10^15] in
    magnitude is the digits of the integer, after a minus sign when it is
    negative. *)
Lemma Number_toString_finite_integer (s : bool) (m : positive) (e z : Z) :
  (toR (S754_finite s m e) == inject_Z z)%Q -> Z.abs z < 10 ^ 15 ->
  Number_toString (S754_finite s m e)
  = ((if s then "-" else "") ++ decimal_digits (Z.abs z))%string.
Proof.
  intros Hv Hz. unfold Number_toString.
  assert (Ha : (Qabs (toR (S754_finite s m e)) == inject_Z (Z.abs z))%Q).
  { rewrite Hv. unfold Qabs, inject_Z. reflexivity. }
  assert (Hp : 0 < Z.abs z).
  { pose proof (toR_sign s m e) as S.
    destruct s; rewrite Hv in S; unfold Qlt in S; cbn [Qnum Qden inject_Z] in S; lia. }
  pose proof (number_digits_integer _ _ Ha ltac:(lia)) as D.
  destruct (number_digits _) as [[d n] k]. now rewrite D.
Qed.

(** The text of an integer below [10^15] in magnitude. *)
Lemma Number_toString_integer (z : Z) :
  Z.abs z < 10 ^ 15 ->
  Number_toString (number_of_Z z)
  = ((if (z <? 0)%Z then "-" else "") ++ decimal_digits (Z.abs z))%string.
Proof.
  intros Hz. assert (B : 10 ^ 15 < 2 ^ 53) by reflexivity.
  destruct (number_of_Z_exact z ltac:(lia)) as [_ V].
  destruct z as [|a|a]; [reflexivity | |]; unfold number_of_Z, binary_normalize in *.
  - destruct (binary_round_small false a) as (m & e & E & _);
      [apply digits2_pos_le; simpl in Hz; lia|].
    rewrite E in *. now apply Number_toString_finite_integer.
  - destruct (binary_round_small true a) as (m & e & E & _);
      [apply digits2_pos_le; simpl in Hz; lia|].
    rewrite E in *. now apply Number_toString_finite_integer.
Qed.

(** The text of a non-negative integer below [10^15] is its digits. *)
Lemma Number_toString_natural (z : Z) :
  0 <= z < 10 ^ 15 -> Number_toString (number_of_Z z) = decimal_digits z.
Proof.
  intros Hz. rewrite Number_toString_integer by lia.
  replace (z <? 0) with false by (symmetry; zbool). now rewrite Z.abs_eq by lia.
Qed.

(** * Properties *)


(** * Witnesses *)

