(* ===== verification/JsValue.v ===== *)
(** * Operators on values that may be undefined

    A property of an object that may be absent is an [option]: [None] is
    [undefined].  This file has the operators and built-ins the components
    apply to such values: [ToBoolean], [||], [?.], [x[0]], [ToNumber],
    [String(x)] and template interpolation, [===] on numbers, a method
    call on a receiver that may be [undefined], and
    [String.prototype.repeat]. *)

From Stdlib Require Import ZArith QArith String List Bool Lia SpecFloat.
From S2P Require Import Prelude JsString Binary64 JsNumber IntegerText.
Import ListNotations.

Local Open Scope string_scope.
Local Open Scope js_scope.

(** [ToBoolean] of a string or [undefined]: only a non-empty string is true. *)
Definition truthy (v : option string) : bool :=
  match v with
  | Some s => negb (String.eqb s EmptyString)
  | None => false
  end.

(** [a || b] on strings or [undefined]. *)
Definition js_or (a b : option string) : option string :=
  if truthy a then a else b.

(** [o?.p]: the property [p] of [o], [undefined] when [o] is. *)
Definition optional {A B : Type} (o : option A) (p : A -> option B) : option B :=
  match o with
  | Some a => p a
  | None => None
  end.

(** [xs[0]] on an array: [undefined] past the end. *)
Definition index0 {A : Type} (xs : list A) : option A := nth_error xs 0.

(** [ToNumber] of a number or [undefined]. *)
Definition ToNumber (v : option number) : number :=
  match v with
  | Some n => n
  | None => S754_nan
  end.

(** [ToString] of a number or [undefined], as [String(v)] and a template
    literal apply it. *)
Definition ToString (v : option number) : string :=
  match v with
  | Some n => Number_toString n
  | None => "undefined"
  end.

(** [o.m(...)]: calling a method on [undefined] throws a [TypeError]. *)
Definition method_call {A B : Type} (o : option A) (m : A -> completion B) : completion B :=
  match o with
  | Some a => m a
  | None => Throw TypeError
  end.

(** [o?.m(...)]: [undefined] when the receiver is. *)
Definition optional_call {A B : Type} (o : option A) (m : A -> completion B) :
  completion (option B) :=
  match o with
  | Some a => b <- m a ;; Normal (Some b)
  | None => Normal None
  end.

(** [s.repeat(count)]. *)
Definition String_repeat (s : string) (count : number) : completion string :=
  match ToIntegerOrInfinity count with
  | PosInf | NegInf => Throw RangeError
  | Int n => if (n <? 0)%Z then Throw RangeError else Normal (repeat_string s (Z.to_nat n))
  end.

(** [a === b] on numbers or [undefined]. *)
Definition strict_equal (a b : option number) : bool :=
  match a, b with
  | Some x, Some y => Number_equal x y
  | None, None => true
  | _, _ => false
  end.

(** * Lemmas *)

Lemma strict_equal_sym (a b : option number) : strict_equal a b = strict_equal b a.
Proof. destruct a, b; cbn [strict_equal]; auto using Number_equal_sym. Qed.

Lemma strict_equal_trans (a b c : option number) :
  strict_equal a b = true -> strict_equal b c = true -> strict_equal a c = true.
Proof.
  destruct a, b, c; cbn [strict_equal]; try discriminate; eauto using Number_equal_trans.
Qed.

(** Two values equal to a third are equal, and a value equal to one of two
    different values differs from the other. *)
Lemma strict_equal_true_l (a b c : option number) :
  strict_equal a b = true -> strict_equal a c = strict_equal b c.
Proof.
  intros H. destruct (strict_equal b c) eqn:E; [eauto using strict_equal_trans|].
  destruct (strict_equal a c) eqn:E'; [|reflexivity].
  rewrite strict_equal_sym in H. now rewrite (strict_equal_trans _ _ _ H E') in E.
Qed.


Lemma truthy_Some (s : string) : truthy (Some s) = true <-> s <> EmptyString.
Proof.
  cbn [truthy]. rewrite negb_true_iff. split; [intros H; now apply String.eqb_neq|].
  intros H; now apply String.eqb_neq.
Qed.

(** [a || b] is [a] when [a] is a non-empty string, and [b] otherwise. *)
Lemma js_or_cases (a b : option string) :
  (exists s, a = Some s /\ s <> EmptyString /\ js_or a b = a)
  \/ ((a = None \/ a = Some EmptyString) /\ js_or a b = b).
Proof.
  unfold js_or. destruct a as [s|]; [|right; auto].
  destruct (truthy (Some s)) eqn:E.
  - left. exists s. apply truthy_Some in E. auto.
  - right. split; [|reflexivity]. right. cbn [truthy] in E.
    apply negb_false_iff, String.eqb_eq in E. now subst.
Qed.

(** [o?.m()] throws only when [m] does. *)
Lemma optional_call_normal {A B : Type} (o : option A) (m : A -> completion B) :
  (forall a, is_normal (m a) = true) -> is_normal (optional_call o m) = true.
Proof.
  intros H. destruct o as [a|]; [|reflexivity]. cbn [optional_call].
  specialize (H a). destruct (m a); [reflexivity | discriminate].
Qed.

(** [s.repeat(Math.round(x))] for a finite binary64 value: the closest
    integer, the larger on a tie, many copies of [s]; a [RangeError] when
    that integer is negative. *)
Lemma String_repeat_Math_round (s : string) (x : number) :
  is_double x = true -> is_finite x = true ->
  String_repeat s (Math_round x) =
  if (round_half_up (toR x) <? 0)%Z then Throw RangeError
  else Normal (repeat_string s (Z.to_nat (round_half_up (toR x)))).
Proof.
  intros Hd Hf. unfold String_repeat.
  rewrite ToIntegerOrInfinity_Math_round by assumption. reflexivity.
Qed.

(** * Properties *)


(** * Witnesses *)

