(* ===== verification/Product.v ===== *)
(** * The product record

    [Product] is the object the components read.  The type declares every
    property but [brand] as present; the tests build partial objects and
    cast them, so at run time any property may be [undefined], and the
    record has an [option] for each. *)

From Stdlib Require Import ZArith QArith String List.
From S2P Require Import Prelude JsString Binary64 JsNumber JsValue.
Import ListNotations.

Record Product : Type := mkProduct {
  id : option number;
  title : option string;
  description : option string;
  category : option string;
  price : option number;
  rating : option number;
  stock : option number;
  brand : option string;
  availabilityStatus : option string;
  returnPolicy : option string;
  thumbnail : option string;
  images : option (list string)
}.

(** The object with no property at all. *)
Definition empty_product : Product :=
  mkProduct None None None None None None None None None None None None.

(** [{ id: z }]: the object with an identity and nothing else. *)
Definition only_id (z : Z) : Product :=
  mkProduct (Some (number_of_Z z)) None None None None None None None None None None None.

(** The invariant of the data model: a price that is a non-negative number,
    a rating within [[0, 5]] and a stock that is a non-negative integer. *)
Definition in_range (lo hi : Z) (v : option number) : bool :=
  match v with
  | Some x => is_finite x && negb (js_lt x (number_of_Z lo)) && negb (js_lt (number_of_Z hi) x)
  | None => false
  end.

Definition well_formed (p : Product) : bool :=
  match price p, stock p with
  | Some pr, Some st =>
      is_finite pr && negb (js_lt pr (number_of_Z 0))
      && is_finite st && negb (js_lt st (number_of_Z 0)) && is_integral (toR st)
      && in_range 0 5 (rating p)
  | _, _ => false
  end.

(** * Lemmas *)

Lemma in_range_inv (lo hi : Z) (v : option number) :
  (Z.abs lo < 2 ^ 53)%Z -> (Z.abs hi < 2 ^ 53)%Z -> in_range lo hi v = true ->
  exists x, v = Some x /\ is_finite x = true /\ (inject_Z lo <= toR x <= inject_Z hi)%Q.
Proof.
  intros Hlo Hhi H. destruct v as [x|]; [|discriminate]. cbn [in_range] in H.
  apply andb_true_iff in H as [H H2]. apply andb_true_iff in H as [F H1].
  exists x. repeat split; [exact F | |].
  - apply Qnot_lt_le. intros C. apply (js_lt_integer x lo F Hlo) in C.
    rewrite C in H1. discriminate.
  - destruct (number_of_Z_exact hi Hhi) as [Fh Vh].
    apply Qnot_lt_le. intros C. rewrite <- Vh in C. apply (js_lt_finite _ _ Fh F) in C.
    rewrite C in H2. discriminate.
Qed.

(** What the invariant of the data model says of a product: a price that
    is a non-negative number, a stock that is a non-negative integer and a
    rating within [[0, 5]]. *)
Lemma well_formed_inv (p : Product) :
  well_formed p = true ->
  exists pr st r,
    price p = Some pr /\ stock p = Some st /\ rating p = Some r
    /\ is_finite pr = true /\ (0 <= toR pr)%Q
    /\ is_finite st = true /\ (0 <= toR st)%Q /\ is_integral (toR st) = true
    /\ is_finite r = true /\ (0 <= toR r <= 5)%Q.
Proof.
  unfold well_formed. destruct (price p) as [pr|]; [|discriminate].
  destruct (stock p) as [st|]; [|discriminate]. intros H.
  repeat (apply andb_true_iff in H as [H ?]).
  destruct (in_range_inv 0 5 (rating p)) as (r & Hr & Fr & Rr);
    [reflexivity | reflexivity | assumption |].
  assert (N : forall x, is_finite x = true -> negb (js_lt x (number_of_Z 0)) = true ->
                        (0 <= toR x)%Q).
  { intros x F L. apply Qnot_lt_le. intros C.
    apply (js_lt_integer x 0 F ltac:(reflexivity)) in C. rewrite C in L. discriminate. }
  exists pr, st, r. repeat split; auto; apply Rr.
Qed.
