(* ===== verification/React.v ===== *)
(** * React elements

    What a component returns: the element tree the JSX builds.  An element
    has a type (a host tag such as [div] or a component such as [Card]),
    props and children.  A child is a string, a number, nothing
    ([undefined], [null] or a boolean) or an element.  The file has the rule
    by which React turns children into text, and the queries on trees that
    the theorems of the components use. *)

From Stdlib Require Import ZArith String List Bool Lia.
From S2P Require Import Prelude JsString Binary64 JsNumber JsValue Product.
Import ListNotations.

Local Open Scope string_scope.

(** What clicking can do: the closure [() => addToCart(product)]. *)
Inductive handler : Type :=
| AddToCart (product : Product).

(** The value of a prop. *)
Inductive prop_value : Type :=
| PString (s : option string)
| PFlag (b : bool)
| PParams (ps : list (string * string))
| PHandler (h : handler).

#[warnings="-register-all"]
Inductive node : Type :=
| Text (s : string)
| Num (n : number)
| Nothing
| Element (type : string) (props : list (string * prop_value)) (children : list node).

(** A child expression of type [string | undefined]. *)
Definition child_of_string (v : option string) : node :=
  match v with
  | Some s => Text s
  | None => Nothing
  end.

(** A child expression of type [number | undefined]. *)
Definition child_of_number (v : option number) : node :=
  match v with
  | Some n => Num n
  | None => Nothing
  end.

(** The text React renders for a tree: strings as they are, numbers by
    [ToString], nothing for [undefined], elements by their children. *)
Fixpoint textContent (n : node) : string :=
  match n with
  | Text s => s
  | Num x => Number_toString x
  | Nothing => EmptyString
  | Element _ _ cs =>
      (fix concat_text (l : list node) : string :=
         match l with
         | [] => EmptyString
         | c :: l' => textContent c ++ concat_text l'
         end) cs
  end.

(** The text of the text nodes that are direct children of an element. *)
Definition own_text (n : node) : string :=
  match n with
  | Element _ _ cs =>
      String.concat EmptyString
        (map (fun c => match c with
                       | Element _ _ _ => EmptyString
                       | _ => textContent c
                       end) cs)
  | _ => EmptyString
  end.

(** The elements of a tree, in document order, the root first. *)
Fixpoint elements (n : node) : list node :=
  match n with
  | Element _ _ cs =>
      n :: (fix elements_list (l : list node) : list node :=
              match l with
              | [] => []
              | c :: l' => (elements c ++ elements_list l')%list
              end) cs
  | _ => []
  end.

Fixpoint lookup_prop (name : string) (ps : list (string * prop_value)) : option prop_value :=
  match ps with
  | [] => None
  | (k, v) :: ps' => if String.eqb k name then Some v else lookup_prop name ps'
  end.

(** The prop [name] of an element. *)
Definition prop (name : string) (n : node) : option prop_value :=
  match n with
  | Element _ ps _ => lookup_prop name ps
  | _ => None
  end.

Definition type_of (n : node) : option string :=
  match n with
  | Element t _ _ => Some t
  | _ => None
  end.

Definition has_class (c : string) (n : node) : bool :=
  match prop "className" n with
  | Some (PString (Some c')) => String.eqb c c'
  | _ => false
  end.

Definition has_type (t : string) (n : node) : bool :=
  match n with
  | Element t' _ _ => String.eqb t t'
  | _ => false
  end.

(** The elements of class [c], and of type [t], in document order. *)
Definition by_class (c : string) (root : node) : list node :=
  filter (has_class c) (elements root).

Definition by_type (t : string) (root : node) : list node :=
  filter (has_type t) (elements root).

(** The elements whose own text is [t]. *)
Definition by_text (t : string) (root : node) : list node :=
  filter (fun n => String.eqb (own_text n) t) (elements root).

(** What clicking an element runs, when it has an [onClick]. *)
Definition on_click (n : node) : option handler :=
  match prop "onClick" n with
  | Some (PHandler h) => Some h
  | _ => None
  end.

(** A component as React calls it: a function of its props and children. *)
Definition component : Type := list (string * prop_value) -> list node -> node.

(** The tree React renders when the element type [name] is bound to the
    component [impl]: every element of that type is replaced by what
    [impl] returns for its props and its children, themselves replaced. *)
Fixpoint substitute (name : string) (impl : component) (n : node) : node :=
  match n with
  | Element t ps cs =>
      let cs' := map (substitute name impl) cs in
      if String.eqb t name then impl ps cs' else Element t ps cs'
  | _ => n
  end.

(** * Lemmas *)

(** Induction on trees, with the hypothesis for every child. *)
Lemma node_ind' (P : node -> Prop) :
  (forall s, P (Text s)) -> (forall x, P (Num x)) -> P Nothing ->
  (forall t ps cs, Forall P cs -> P (Element t ps cs)) ->
  forall n, P n.
Proof.
  intros HT HN H0 HE.
  refine (fix IH (n : node) : P n :=
            match n with
            | Text s => HT s
            | Num x => HN x
            | Nothing => H0
            | Element t ps cs =>
                HE t ps cs
                  ((fix all (l : list node) : Forall P l :=
                      match l with
                      | [] => Forall_nil P
                      | c :: l' => Forall_cons c (IH c) (all l')
                      end) cs)
            end).
Qed.

Lemma elements_child_of_string (v : option string) : elements (child_of_string v) = [].
Proof. destruct v; reflexivity. Qed.

Lemma elements_child_of_number (v : option number) : elements (child_of_number v) = [].
Proof. destruct v; reflexivity. Qed.

(** React renders a string as it is and nothing for [undefined]. *)
Lemma textContent_child_of_string (v : option string) :
  textContent (child_of_string v) = match v with Some s => s | None => EmptyString end.
Proof. destruct v; reflexivity. Qed.

(** React renders a number by [ToString], zero included, and nothing for
    [undefined]. *)
Lemma textContent_child_of_number (v : option number) :
  textContent (child_of_number v) = match v with Some n => Number_toString n | None => EmptyString end.
Proof. destruct v; reflexivity. Qed.

Lemma lookup_prop_head (name : string) (v : prop_value) (ps : list (string * prop_value)) :
  lookup_prop name ((name, v) :: ps) = Some v.
Proof. cbn [lookup_prop]. now rewrite String.eqb_refl. Qed.

(** Every element a query returns is an element of the tree. *)
Lemma by_class_elements (c : string) (root n : node) :
  In n (by_class c root) -> In n (elements root) /\ has_class c n = true.
Proof. unfold by_class. apply filter_In. Qed.

Lemma by_type_elements (t : string) (root n : node) :
  In n (by_type t root) -> In n (elements root) /\ has_type t n = true.
Proof. unfold by_type. apply filter_In. Qed.

(** An element is the first of its elements. *)
Lemma has_class_elements (c : string) (n : node) : has_class c n = true -> In n (elements n).
Proof. destruct n; try discriminate. intros _. cbn [elements]. now left. Qed.

(** The text of an element is the text of its children, in order. *)
Lemma textContent_Element (t : string) (ps : list (string * prop_value)) (cs : list node) :
  textContent (Element t ps cs) = fold_right (fun c acc => textContent c ++ acc) EmptyString cs.
Proof. cbn [textContent]. induction cs as [|c cs IH]; [reflexivity | cbn; now rewrite IH]. Qed.

(** A component that renders the text of its children leaves the text of
    the tree as it is. *)
Lemma textContent_substitute (name : string) (impl : component) (n : node) :
  (forall ps cs, textContent (impl ps cs) = textContent (Element name ps cs)) ->
  textContent (substitute name impl n) = textContent n.
Proof.
  intros H. induction n as [s|x| |t ps cs IH] using node_ind'; try reflexivity.
  cbn [substitute].
  assert (E : textContent (Element t ps (map (substitute name impl) cs))
              = textContent (Element t ps cs)).
  { rewrite !textContent_Element. induction IH as [|c cs Hc _ IHcs]; [reflexivity|].
    cbn [map fold_right]. now rewrite Hc, IHcs. }
  destruct (String.eqb_spec t name) as [->|_]; [rewrite H|]; exact E.
Qed.

(** A tree without elements of the type is left as it is. *)
Lemma substitute_absent (name : string) (impl : component) (n : node) :
  by_type name n = [] -> substitute name impl n = n.
Proof.
  induction n as [s|x| |t ps cs IH] using node_ind'; try reflexivity.
  unfold by_type. cbn [elements filter has_type substitute].
  rewrite String.eqb_sym. destruct (String.eqb t name); [discriminate|]. intros E.
  f_equal. induction IH as [|c cs Hc _ IHcs]; [reflexivity|].
  rewrite filter_app in E. apply app_eq_nil in E as [E1 E2].
  cbn [map]. rewrite (Hc E1), (IHcs E2). reflexivity.
Qed.

#[export] Hint Rewrite elements_child_of_string elements_child_of_number
  textContent_child_of_string textContent_child_of_number lookup_prop_head : js.
