(* ===== verification/UseProduct.v ===== *)
(** * The product accessor

    [useProduct()] returns the record [{data, isLoading, isError, error}];
    the tests of ProductMeta, ProductImage and ProductInfo build it by hand.
    The hook itself is not under [src/]: [FetchState], the store behind the
    hook and its transitions follow sections 3 to 5 of the specification. *)

From Stdlib Require Import ZArith String List Bool Lia.
From S2P Require Import Prelude JsString Binary64 JsNumber JsValue Product.
Import ListNotations.

Local Open Scope string_scope.

(** ** What the hook returns *)

Record UseProductResult : Type := mkResult {
  data : option Product;
  isLoading : bool;
  isError : bool;
  error : option string
}.

(** The results the tests feed to the components. *)

(** [{data: p, isLoading: false, isError: false, error: null}]. *)
Definition loaded (p : Product) : UseProductResult := mkResult (Some p) false false None.

(** [{data: undefined, isLoading: true, isError: false, error: null}]. *)
Definition loading : UseProductResult := mkResult None true false None.

(** [{data: undefined, isLoading: false, isError: true, error: new Error(msg)}]. *)
Definition failed (msg : string) : UseProductResult := mkResult None false true (Some msg).

(** [{data: undefined, isLoading: false, isError: false, error: null}]. *)
Definition idle : UseProductResult := mkResult None false false None.

(** ** The fetch state of the specification *)

Inductive FetchState (T : Type) : Type :=
| Loading
| Error (cause : string)
| Ready (value : T).

Arguments Loading {T}.
Arguments Error {T} cause.
Arguments Ready {T} value.

(** The accessor's view of a fetch state. *)
Definition result_of (s : FetchState Product) : UseProductResult :=
  match s with
  | Loading => loading
  | Error cause => failed cause
  | Ready value => loaded value
  end.

(** ** The store *)

(** The product identity the view asks for, the state of its fetch cycle,
    and the identities of the requests still on their way. *)
Record ProductStore : Type := mkStore {
  key : option string;
  state : FetchState Product;
  in_flight : list string
}.

(** A response: a failure with its cause, or a product. *)
Definition response : Type := (string + Product)%type.

Definition state_of_response (r : response) : FetchState Product :=
  match r with
  | inl cause => Error cause
  | inr p => Ready p
  end.

Inductive event : Type :=
| Visit (id : string)
| Resolve (id : string) (r : response)
| Retry
| Leave.

Definition initial : ProductStore := mkStore None Loading [].

Fixpoint remove_first (id : string) (l : list string) : list string :=
  match l with
  | [] => []
  | x :: l' => if String.eqb x id then l' else x :: remove_first id l'
  end.

(** A view mounts with the identity [id], or its identity changes to [id]:
    a new cycle starts, unless the identity is the current one. *)
Definition visit (id : string) (s : ProductStore) : ProductStore :=
  match key s with
  | Some k => if String.eqb k id then s else mkStore (Some id) Loading (id :: in_flight s)
  | None => mkStore (Some id) Loading (id :: in_flight s)
  end.

(** The response for a request of [id] arrives.  It is applied when [id]
    is the current identity and its cycle is still loading; a stale
    response only leaves the requests in flight. *)
Definition resolve (id : string) (r : response) (s : ProductStore) : ProductStore :=
  let rest := remove_first id (in_flight s) in
  match key s, state s with
  | Some k, Loading =>
      if String.eqb k id then mkStore (key s) (state_of_response r) rest
      else mkStore (key s) (state s) rest
  | _, _ => mkStore (key s) (state s) rest
  end.

(** The caller asks again for an identity whose cycle ended in an error: a
    new cycle starts for the same identity.  In any other state the call
    finds the cached state and changes nothing. *)
Definition retry (s : ProductStore) : ProductStore :=
  match key s, state s with
  | Some k, Error _ => mkStore (Some k) Loading (k :: in_flight s)
  | _, _ => s
  end.

(** The view unmounts: the cycle is dropped. *)
Definition leave (s : ProductStore) : ProductStore := mkStore None Loading (in_flight s).

(** A response can only arrive for a request in flight. *)
Definition enabled (e : event) (s : ProductStore) : bool :=
  match e with
  | Resolve id _ => existsb (String.eqb id) (in_flight s)
  | _ => true
  end.

Definition handle (e : event) (s : ProductStore) : ProductStore :=
  match e with
  | Visit id => visit id s
  | Resolve id r => resolve id r s
  | Retry => retry s
  | Leave => leave s
  end.

(** One step of the store. *)
Inductive step : ProductStore -> event -> ProductStore -> Prop :=
| step_event (s : ProductStore) (e : event) :
    enabled e s = true -> step s e (handle e s).

(** The stores the events can produce from the initial one. *)
Inductive reachable : ProductStore -> Prop :=
| reachable_initial : reachable initial
| reachable_step (s s' : ProductStore) (e : event) :
    reachable s -> step s e s' -> reachable s'.

(** Running a list of events, skipping those that are not enabled. *)
Fixpoint run (es : list event) (s : ProductStore) : ProductStore :=
  match es with
  | [] => s
  | e :: es' => run es' (if enabled e s then handle e s else s)
  end.

(** [useProduct()] over the store. *)
Definition useProduct (s : ProductStore) : UseProductResult := result_of (state s).

(** The fetch state a result stands for, when it is one of the three
    shapes of the accessor: the sum type of section 9 read back from the
    record. *)
Definition state_of_result (r : UseProductResult) : option (FetchState Product) :=
  match isLoading r, isError r, data r, error r with
  | true, false, None, None => Some Loading
  | false, true, None, Some cause => Some (Error cause)
  | false, false, Some p, None => Some (Ready p)
  | _, _, _, _ => None
  end.

(** Exactly one of loading, error and data describes the result; an error
    comes with its cause. *)
Definition exclusive (r : UseProductResult) : bool :=
  match isLoading r, isError r, data r with
  | true, false, None => true
  | false, true, None => match error r with Some _ => true | None => false end
  | false, false, Some _ => true
  | _, _, _ => false
  end.

(** The invariant of the store: without an identity there is no cycle, and
    the request of a cycle that is loading is still on its way. *)
Definition store_ok (s : ProductStore) : Prop :=
  match key s, state s with
  | None, Loading => True
  | None, _ => False
  | Some k, Loading => In k (in_flight s)
  | Some _, _ => True
  end.

(** * Lemmas *)

(** ** The accessor *)

Lemma result_of_exclusive (s : FetchState Product) : exclusive (result_of s) = true.
Proof. destruct s; reflexivity. Qed.

(** The accessor tells the three states apart. *)
Lemma result_of_inj (s t : FetchState Product) : result_of s = result_of t -> s = t.
Proof. destruct s, t; cbn; intros H; inversion H; reflexivity. Qed.

Lemma result_of_data (s : FetchState Product) (p : Product) :
  data (result_of s) = Some p <-> s = Ready p.
Proof. destruct s; cbn; split; intros H; inversion H; reflexivity. Qed.

Lemma result_of_error (s : FetchState Product) (cause : string) :
  error (result_of s) = Some cause <-> s = Error cause.
Proof. destruct s; cbn; split; intros H; inversion H; reflexivity. Qed.

Lemma result_of_isError (s : FetchState Product) :
  isError (result_of s) = true <-> exists cause, s = Error cause.
Proof.
  destruct s; cbn; split; try discriminate; eauto; intros [c H]; discriminate H.
Qed.

(** Reading the state back from the accessor's result gives the state. *)
Lemma state_of_result_of (s : FetchState Product) : state_of_result (result_of s) = Some s.
Proof. destruct s; reflexivity. Qed.

(** Only the results of the accessor stand for a state. *)
Lemma state_of_result_inv (r : UseProductResult) (s : FetchState Product) :
  state_of_result r = Some s -> r = result_of s.
Proof.
  destruct r as [[p|] [|] [|] [c|]]; cbn; intros H; inversion H; reflexivity.
Qed.

(** ** Requests in flight *)

Lemma remove_first_other (a b : string) (l : list string) :
  a <> b -> In a l -> In a (remove_first b l).
Proof.
  intros N. induction l as [|x l IH]; [auto|]. cbn [remove_first In].
  destruct (String.eqb_spec x b) as [->|E]; intros [H|H]; subst; cbn [In]; auto; congruence.
Qed.

Lemma enabled_resolve (id : string) (r : response) (s : ProductStore) :
  enabled (Resolve id r) s = true <-> In id (in_flight s).
Proof.
  cbn [enabled]. rewrite existsb_exists. split.
  - intros (x & I & E). apply String.eqb_eq in E. now subst.
  - intros I. exists id. split; [exact I | apply String.eqb_refl].
Qed.

(** ** The transitions *)

Lemma visit_same (id : string) (s : ProductStore) : key s = Some id -> visit id s = s.
Proof. intros H. unfold visit. now rewrite H, String.eqb_refl. Qed.

Lemma visit_new (id : string) (s : ProductStore) :
  key s <> Some id -> visit id s = mkStore (Some id) Loading (id :: in_flight s).
Proof.
  intros H. unfold visit. destruct (key s) as [k|]; [|reflexivity].
  destruct (String.eqb_spec k id); [congruence | reflexivity].
Qed.

(** A response for the current identity ends a loading cycle. *)
Lemma resolve_current (id : string) (r : response) (s : ProductStore) :
  key s = Some id -> state s = Loading ->
  resolve id r s = mkStore (Some id) (state_of_response r) (remove_first id (in_flight s)).
Proof. intros K L. unfold resolve. now rewrite K, L, String.eqb_refl. Qed.

(** Any other response leaves the identity and the state as they are. *)
Lemma resolve_stale (id : string) (r : response) (s : ProductStore) :
  key s <> Some id \/ state s <> Loading ->
  key (resolve id r s) = key s /\ state (resolve id r s) = state s.
Proof.
  intros H. unfold resolve. destruct (key s) as [k|] eqn:K, (state s) eqn:L; cbn; auto.
  destruct (String.eqb_spec k id) as [->|N]; cbn; auto. destruct H; congruence.
Qed.

(** A retry after an error starts a cycle for the same identity. *)
Lemma retry_error (k cause : string) (s : ProductStore) :
  key s = Some k -> state s = Error cause ->
  retry s = mkStore (Some k) Loading (k :: in_flight s).
Proof. intros K E. unfold retry. now rewrite K, E. Qed.

(** In any other state a retry finds the cached state. *)
Lemma retry_cached (s : ProductStore) : isError (result_of (state s)) = false -> retry s = s.
Proof. unfold retry. destruct (key s), (state s); cbn; intros H; congruence. Qed.

Lemma key_resolve (id : string) (r : response) (s : ProductStore) : key (resolve id r s) = key s.
Proof.
  unfold resolve. destruct (key s), (state s); try reflexivity.
  destruct (String.eqb _ _); reflexivity.
Qed.

Lemma key_visit (id : string) (s : ProductStore) : key (visit id s) = Some id.
Proof.
  unfold visit. destruct (key s) as [k|] eqn:K; [|reflexivity].
  destruct (String.eqb_spec k id) as [->|]; [exact K | reflexivity].
Qed.

(** A response for another identity than the one that is loading leaves
    the cycle loading and its request on its way, whether or not somebody
    asked for it. *)
Lemma run_stale (a b : string) (r : response) (s : ProductStore) :
  key s = Some b -> state s = Loading -> In b (in_flight s) -> a <> b ->
  key (run [Resolve a r] s) = Some b /\ state (run [Resolve a r] s) = Loading
  /\ In b (in_flight (run [Resolve a r] s)).
Proof.
  intros K L I N. cbn [run]. destruct (enabled (Resolve a r) s); [|auto].
  cbn [handle]. destruct (resolve_stale a r s) as [K' L']; [left; congruence|].
  rewrite K', L'. repeat split; auto.
  unfold resolve. rewrite K, L. destruct (String.eqb b a); cbn [in_flight];
    apply remove_first_other; auto.
Qed.

(** The response for the identity that is loading is shown. *)
Lemma run_current (b : string) (r : response) (s : ProductStore) :
  key s = Some b -> state s = Loading -> In b (in_flight s) ->
  state (run [Resolve b r] s) = state_of_response r.
Proof.
  intros K L I. cbn [run]. rewrite (proj2 (enabled_resolve b r s) I).
  cbn [handle]. now rewrite resolve_current.
Qed.

(** ** The invariant *)

Lemma store_ok_initial : store_ok initial.
Proof. exact I. Qed.

Lemma store_ok_visit (id : string) (s : ProductStore) : store_ok s -> store_ok (visit id s).
Proof.
  intros H. unfold visit.
  destruct (key s) as [k|] eqn:K; [destruct (String.eqb_spec k id); [exact H|]|]; cbn; auto.
Qed.

Lemma store_ok_leave (s : ProductStore) : store_ok (leave s).
Proof. exact I. Qed.

Lemma store_ok_retry (s : ProductStore) : store_ok s -> store_ok (retry s).
Proof.
  intros H. unfold retry. destruct (key s) as [k|] eqn:K; [|exact H].
  destruct (state s) eqn:S; try exact H. cbn. auto.
Qed.

Lemma store_ok_resolve (id : string) (r : response) (s : ProductStore) :
  store_ok s -> store_ok (resolve id r s).
Proof.
  unfold store_ok, resolve. destruct (key s) as [k|], (state s); cbn; auto.
  destruct (String.eqb_spec k id) as [->|N]; cbn; [destruct r; cbn; auto|].
  now apply remove_first_other.
Qed.

Lemma store_ok_handle (e : event) (s : ProductStore) : store_ok s -> store_ok (handle e s).
Proof.
  destruct e; cbn [handle];
    auto using store_ok_visit, store_ok_resolve, store_ok_retry, store_ok_leave.
Qed.

#[export] Hint Resolve store_ok_initial store_ok_handle : js.

Lemma reachable_ok (s : ProductStore) : reachable s -> store_ok s.
Proof. induction 1 as [|s s' e _ IH St]; [|destruct St]; auto with js. Qed.

(** ** Runs *)

Lemma run_app (es es' : list event) (s : ProductStore) : run (es ++ es') s = run es' (run es s).
Proof. revert s. induction es as [|e es IH]; intros s; [reflexivity | apply IH]. Qed.

Lemma reachable_run (es : list event) (s : ProductStore) : reachable s -> reachable (run es s).
Proof.
  revert s. induction es as [|e es IH]; intros s R; [exact R|].
  cbn [run]. apply IH. destruct (enabled e s) eqn:E; [|exact R].
  eapply reachable_step; [exact R | now constructor].
Qed.

(** A run keeps the invariant, from any store that has it. *)
Lemma store_ok_run (es : list event) (s : ProductStore) : store_ok s -> store_ok (run es s).
Proof.
  revert s. induction es as [|e es IH]; intros s H; [exact H|].
  cbn [run]. apply IH. destruct (enabled e s); auto with js.
Qed.

(** Every reachable store is the result of a run from the initial store. *)
Lemma reachable_is_run (s : ProductStore) : reachable s -> exists es, run es initial = s.
Proof.
  induction 1 as [|s s' e _ [es IH] St]; [now exists []|].
  destruct St as [s e En]. exists (es ++ [e])%list. rewrite run_app, IH. cbn [run]. now rewrite En.
Qed.

Lemma result_of_loading (s : FetchState Product) : isLoading (result_of s) = true <-> s = Loading.
Proof. destruct s; cbn; split; intros H; inversion H; reflexivity. Qed.

(** What one step does to the state of the cycle: nothing, a new cycle, or
    the end of a loading cycle by the response for the current identity. *)
Lemma step_state (s s' : ProductStore) (e : event) :
  step s e s' ->
  state s' = state s \/ state s' = Loading
  \/ (state s = Loading /\ exists r, e = Resolve (match key s with Some k => k | None => EmptyString end) r
                                     /\ key s <> None /\ state s' = state_of_response r).
Proof.
  intros [s0 e0 En]. destruct e0 as [id|id r| |]; cbn [handle].
  - unfold visit. destruct (key s0) as [k|]; [destruct (String.eqb k id)|]; cbn; auto.
  - unfold resolve. destruct (key s0) as [k|] eqn:K, (state s0) eqn:L; cbn; auto.
    destruct (String.eqb_spec k id) as [->|N]; cbn; auto.
    right. right. split; [reflexivity|]. exists r. repeat split. discriminate.
  - unfold retry. destruct (key s0); [destruct (state s0) eqn:S|]; cbn; auto.
  - cbn. auto.
Qed.

(** * Properties *)

(** C36: The race of the specification: A is requested, then B before A's
    response.  When A's response arrives the accessor still says loading,
    and it shows B's response whether that comes after A's or before. *)
Theorem race_resolved_by_identity (a b : string) (ra rb : response) :
  a <> b ->
  useProduct (run [Visit a; Visit b; Resolve a ra] initial) = loading
  /\ useProduct (run [Visit a; Visit b; Resolve a ra; Resolve b rb] initial)
     = result_of (state_of_response rb)
  /\ useProduct (run [Visit a; Visit b; Resolve b rb; Resolve a ra] initial)
     = result_of (state_of_response rb).
Proof.
  intros N. assert (N' : b <> a) by congruence.
  apply String.eqb_neq in N, N'. unfold useProduct.
  cbn [run enabled handle visit resolve initial key state in_flight existsb remove_first].
  rewrite ?String.eqb_refl, ?N, ?N'.
  cbn [orb run enabled handle visit resolve key state in_flight existsb remove_first].
  rewrite ?String.eqb_refl, ?N, ?N'.
  cbn [orb run enabled handle visit resolve key state in_flight existsb remove_first].
  rewrite ?String.eqb_refl, ?N, ?N'. destruct rb; cbn; rewrite ?String.eqb_refl, ?N; auto.
Qed.

(** The accessor says exactly one of loading, error and data, for
    every store; the result with no data and neither flag, which one test
    feeds to the components, is none the accessor gives. *)
Theorem accessor_exclusive (s : ProductStore) :
  exclusive (useProduct s) = true /\ exclusive idle = false /\ useProduct s <> idle.
Proof.
  pose proof (result_of_exclusive (state s)) as E. unfold useProduct.
  repeat split; [exact E|]. intros H. rewrite H in E. discriminate.
Qed.

(** C38: A loading cycle ends: in a reachable store that is loading for
    the identity [k], the response for [k] can arrive, and when it does
    the accessor shows it, a failure with its cause. *)
Theorem loading_ends (s : ProductStore) (k : string) (r : response) :
  reachable s -> key s = Some k -> isLoading (useProduct s) = true ->
  step s (Resolve k r) (handle (Resolve k r) s)
  /\ useProduct (handle (Resolve k r) s) = result_of (state_of_response r).
Proof.
  intros R K L. apply result_of_loading in L.
  pose proof (reachable_ok s R) as Ok. unfold store_ok in Ok. rewrite K, L in Ok.
  split; [constructor; now apply enabled_resolve|].
  cbn [handle]. now rewrite resolve_current.
Qed.

(** Once a cycle has ended, in an error or in data, a step leaves the
    accessor's result as it is or starts a new cycle that is loading: an
    error never turns into data without one. *)
Theorem cycle_ends_once (s s' : ProductStore) (e : event) :
  step s e s' -> isLoading (useProduct s) = false ->
  useProduct s' = useProduct s \/ useProduct s' = loading.
Proof.
  intros St L. unfold useProduct in *.
  destruct (step_state s s' e St) as [E|[E|[E _]]]; rewrite E in *; auto. discriminate.
Qed.


(** After a cycle that ended in an error, asking again starts a new
    cycle for the same identity: the accessor says loading, and the
    response that arrives next is the one it shows.  A retry of a cycle
    that did not fail changes nothing. *)
Theorem retry_starts_cycle (s : ProductStore) (k : string) (r : response) :
  key s = Some k -> isError (useProduct s) = true ->
  useProduct (run [Retry] s) = loading
  /\ useProduct (run [Retry; Resolve k r] s) = result_of (state_of_response r)
  /\ forall t, isError (useProduct t) = false -> run [Retry] t = t.
Proof.
  intros K E. apply result_of_isError in E as [cause E].
  cbn [run enabled handle]. rewrite (retry_error k cause s K E).
  cbn [in_flight existsb]. rewrite String.eqb_refl. cbn [orb].
  rewrite resolve_current by reflexivity.
  repeat split. intros t H. now apply retry_cached.
Qed.

(** * Witnesses *)

Lemma race_resolved_by_identity_witness :
  useProduct (run [Visit "1"; Visit "2"; Resolve "1" (inr empty_product)] initial)
  = loading
  /\ useProduct (run [Visit "1"; Visit "2"; Resolve "1" (inr empty_product);
                      Resolve "2" (inr empty_product)] initial)
     = result_of (state_of_response (inr empty_product))
  /\ useProduct (run [Visit "1"; Visit "2"; Resolve "2" (inr empty_product);
                      Resolve "1" (inr empty_product)] initial)
     = result_of (state_of_response (inr empty_product)).
Proof. apply (race_resolved_by_identity "1" "2"). discriminate. Defined.

Lemma loading_ends_witness :
  step (run [Visit "1"] initial) (Resolve "1" (inl "Failed to load product"))
    (handle (Resolve "1" (inl "Failed to load product")) (run [Visit "1"] initial))
  /\ useProduct (handle (Resolve "1" (inl "Failed to load product")) (run [Visit "1"] initial))
     = result_of (state_of_response (inl "Failed to load product")).
Proof.
  apply (loading_ends (run [Visit "1"] initial) "1");
    [apply reachable_run, reachable_initial | reflexivity | reflexivity].
Defined.

Lemma cycle_ends_once_witness :
  useProduct (handle (Visit "2") (run [Visit "1"; Resolve "1" (inl "Failed to load product")] initial))
  = useProduct (run [Visit "1"; Resolve "1" (inl "Failed to load product")] initial)
  \/ useProduct (handle (Visit "2")
                   (run [Visit "1"; Resolve "1" (inl "Failed to load product")] initial))
     = loading.
Proof.
  apply (cycle_ends_once (run [Visit "1"; Resolve "1" (inl "Failed to load product")] initial)
           _ (Visit "2")); [constructor|]; reflexivity.
Defined.

Lemma retry_starts_cycle_witness :
  useProduct (run [Retry] (run [Visit "1"; Resolve "1" (inl "Failed to load product")] initial))
  = loading
  /\ useProduct (run [Retry; Resolve "1" (inr empty_product)]
                   (run [Visit "1"; Resolve "1" (inl "Failed to load product")] initial))
     = result_of (state_of_response (inr empty_product))
  /\ forall t, isError (useProduct t) = false -> run [Retry] t = t.
Proof.
  apply (retry_starts_cycle
           (run [Visit "1"; Resolve "1" (inl "Failed to load product")] initial) "1");
    reflexivity.
Defined.
