(* ===== verification/CartContext.v ===== *)
(** * The cart context

    [useCartContext()] gives a component the function [addToCart].
    [CartContext] is that interface; the handlers of [React.v] run against
    it.  [LawfulCart] is what section 4.2 of the specification asks of a
    cart behind it: a count per product identity that every addition raises
    by one.  The recording double of the ProductCard test is an instance of
    both; the cart store is in [CartStore.v]. *)

From Stdlib Require Import ZArith QArith String List Bool Lia SpecFloat.
From Stdlib Require Import Morphisms RelationClasses Permutation.
From S2P Require Import Prelude JsString Binary64 JsNumber JsValue Product React.
Import ListNotations.

(** ** The interface *)

(** What [useCartContext()] returns, over the state [cart] it closes over. *)
Class CartContext (cart : Type) : Type := {
  addToCart : Product -> cart -> cart
}.

(** Running a click handler against a context. *)
Definition run_handler {cart : Type} `{CartContext cart} (h : handler) (c : cart) : cart :=
  match h with
  | AddToCart product => addToCart product c
  end.

(** Clicking an element: its handler runs, or nothing happens. *)
Definition click {cart : Type} `{CartContext cart} (n : node) (c : cart) : cart :=
  match on_click n with
  | Some h => run_handler h c
  | None => c
  end.

(** ** The test double *)

(** [vi.fn()]: a function that records the arguments of its calls. *)
#[export] Instance mock_context : CartContext (list Product) := {
  addToCart product calls := calls ++ [product]
}.

(** ** What the context promises *)

(** A cart that counts: [count k c] is the number of units of the product
    of identity [k] in [c].  Adding a product raises the count of its
    identity by one and leaves the other counts as they are, on every cart
    that is [valid]; [valid] holds of the empty cart and is kept by
    [addToCart].  Identities are compared with [===]. *)
Class LawfulCart (cart : Type) `{CartContext cart} : Type := {
  empty : cart;
  valid : cart -> Prop;
  count : option number -> cart -> Z;
  valid_empty : valid empty;
  count_empty : forall k, count k empty = 0%Z;
  valid_add : forall p c, valid c -> valid (addToCart p c);
  count_add_same : forall p c k,
    valid c -> strict_equal k (id p) = true -> count k (addToCart p c) = (count k c + 1)%Z;
  count_add_other : forall p c k,
    valid c -> strict_equal k (id p) = false -> count k (addToCart p c) = count k c
}.

(** The calls with an argument of identity [k] that the test double has
    recorded. *)
Definition calls_with (k : option number) (calls : list Product) : Z :=
  Z.of_nat (List.length (filter (fun p => strict_equal k (id p)) calls)).

(** A sequence of additions, the first of the list first. *)
Definition add_all {cart : Type} `{CartContext cart} (ps : list Product) (c : cart) : cart :=
  fold_left (fun acc p => addToCart p acc) ps c.

(** The number of products of identity [k] in a list. *)
Definition occurrences (k : option number) (ps : list Product) : Z :=
  Z.of_nat (List.length (filter (fun p => strict_equal k (id p)) ps)).

(** Two valid carts with the same counts: what a reader of the counts can
    tell of a cart. *)
Definition same_cart {cart : Type} {ctx : CartContext cart} {law : LawfulCart cart}
  (c1 c2 : cart) : Prop :=
  valid c1 /\ valid c2 /\ forall k, count k c1 = count k c2.

(** * Lemmas *)

Lemma calls_with_app (k : option number) (a b : list Product) :
  calls_with k (a ++ b) = (calls_with k a + calls_with k b)%Z.
Proof. unfold calls_with. rewrite filter_app, length_app. lia. Qed.

(** The test double keeps the promise. *)
#[export, refine] Instance mock_lawful : LawfulCart (list Product) := {
  empty := [];
  valid := fun _ => True;
  count := calls_with
}.
Proof.
  - exact I.
  - reflexivity.
  - intros; exact I.
  - intros p c k _ E. cbn [addToCart mock_context]. rewrite calls_with_app.
    unfold calls_with at 2. cbn [filter]. rewrite E. reflexivity.
  - intros p c k _ E. cbn [addToCart mock_context]. rewrite calls_with_app.
    unfold calls_with at 2. cbn [filter]. rewrite E. cbn [List.length]. lia.
Defined.

Section Lawful.

Context {cart : Type} {ctx : CartContext cart} {law : LawfulCart cart}.

Lemma run_handler_add (p : Product) (c : cart) : run_handler (AddToCart p) c = addToCart p c.
Proof. reflexivity. Qed.

Lemma occurrences_cons (k : option number) (p : Product) (ps : list Product) :
  occurrences k (p :: ps) =
  ((if strict_equal k (id p) then 1 else 0) + occurrences k ps)%Z.
Proof. unfold occurrences. cbn [filter]. destruct (strict_equal k (id p)); cbn [List.length]; lia. Qed.

(** One addition changes the count of [k] by one when the product has the
    identity [k], and not at all otherwise. *)
Lemma count_add (p : Product) (c : cart) (k : option number) :
  valid c -> count k (addToCart p c) = (count k c + if strict_equal k (id p) then 1 else 0)%Z.
Proof.
  intros V. destruct (strict_equal k (id p)) eqn:E.
  - now apply count_add_same.
  - rewrite count_add_other by assumption. lia.
Qed.

(** No addition is lost: after a sequence of additions the count of each
    identity has grown by the number of products of that identity in the
    sequence, in whatever order they came. *)
Lemma add_all_count (ps : list Product) (c : cart) (k : option number) :
  valid c -> valid (add_all ps c) /\ count k (add_all ps c) = (count k c + occurrences k ps)%Z.
Proof.
  revert c. induction ps as [|p ps IH]; intros c V.
  - split; [exact V | unfold occurrences; cbn; lia].
  - cbn [add_all fold_left]. destruct (IH (addToCart p c) (valid_add p c V)) as [V' E].
    split; [exact V'|]. unfold add_all in E. rewrite E, count_add, occurrences_cons by assumption.
    lia.
Qed.

(** ** Carts up to their counts *)

#[export] Instance same_cart_PER : PER same_cart.
Proof.
  split.
  - intros c1 c2 (V1 & V2 & E). repeat split; auto.
  - intros c1 c2 c3 (V1 & V2 & E) (_ & V3 & E'). repeat split; auto.
    intros k. now rewrite E.
Qed.

Lemma same_cart_refl (c : cart) : valid c -> same_cart c c.
Proof. intros V. repeat split; auto. Qed.

(** Adding the same product to carts with the same counts gives carts with
    the same counts. *)
#[export] Instance addToCart_Proper : Proper (eq ==> same_cart ==> same_cart) addToCart.
Proof.
  intros p q <- c1 c2 (V1 & V2 & E). repeat split; auto using valid_add.
  intros k. now rewrite !count_add, E.
Qed.

Lemma occurrences_Permutation (k : option number) (ps qs : list Product) :
  Permutation ps qs -> occurrences k ps = occurrences k qs.
Proof.
  intros P. unfold occurrences. f_equal. apply Permutation_length.
  induction P as [|p ps qs _ IH|p q ps|ps qs rs _ IH1 _ IH2]; cbn [filter].
  - constructor.
  - destruct (strict_equal k (id p)); [constructor|]; exact IH.
  - destruct (strict_equal k (id p)), (strict_equal k (id q)); try reflexivity. constructor.
  - now rewrite IH1.
Qed.

(** The order of the additions does not matter for the counts. *)
#[export] Instance add_all_Proper :
  Proper (@Permutation Product ==> same_cart ==> same_cart) add_all.
Proof.
  intros ps qs P c1 c2 (V1 & V2 & E).
  destruct (add_all_count ps c1 None V1) as [W1 _].
  destruct (add_all_count qs c2 None V2) as [W2 _].
  repeat split; auto. intros k.
  rewrite (proj2 (add_all_count ps c1 k V1)), (proj2 (add_all_count qs c2 k V2)).
  now rewrite E, (occurrences_Permutation k ps qs P).
Qed.

End Lawful.
