(* ===== verification/CartStore.v ===== *)
(** * The cart store

    The store behind [useCartContext()], after section 4.2 of the
    specification (its code is not under [src/]): the cart is a list of
    lines, one per product identity, and [addToCart] raises the quantity of
    the product's line by one or appends a line of quantity one.  The store
    is an instance of the interface of [CartContext.v] and keeps its
    promise. *)

From Stdlib Require Import ZArith QArith String List Bool Lia SpecFloat.
From S2P Require Import Prelude JsString Binary64 JsNumber JsValue Product React CartContext.
Import ListNotations.

Local Open Scope Z_scope.

(** ** Data *)

Record CartLine : Type := mkLine {
  productId : option number;
  snapshot : Product;
  quantity : Z
}.

Definition Cart : Type := list CartLine.

Definition empty_cart : Cart := [].

(** ** Operations *)

(** The line is the line of the identity [k]. *)
Definition is_line_of (k : option number) (l : CartLine) : bool := strict_equal k (productId l).

Definition has_line (k : option number) (c : Cart) : bool := existsb (is_line_of k) c.

(** One more unit on the line of [k]; the other lines as they are. *)
Definition increment (k : option number) (l : CartLine) : CartLine :=
  if is_line_of k l then mkLine (productId l) (snapshot l) (quantity l + 1) else l.

(** [addToCart(product)]: the lookup by identity and the write-back, as
    one step. *)
Definition cart_add (product : Product) (c : Cart) : Cart :=
  if has_line (id product) c then map (increment (id product)) c
  else c ++ [mkLine (id product) product 1].

#[export] Instance store_context : CartContext Cart := {
  addToCart := cart_add
}.

(** ** Observations *)

(** The lines of the identity [k]. *)
Definition lines_of (k : option number) (c : Cart) : list CartLine := filter (is_line_of k) c.

(** The units of the identity [k]: the sum over its lines. *)
Definition quantity_of (k : option number) (c : Cart) : Z :=
  fold_right (fun l acc => quantity l + acc) 0 (lines_of k c).

(** At most one line per product identity. *)
Fixpoint unique_lines (c : Cart) : bool :=
  match c with
  | [] => true
  | l :: c' => negb (has_line (productId l) c') && unique_lines c'
  end.

(** * Lemmas *)

Lemma is_line_of_increment (k k' : option number) (l : CartLine) :
  is_line_of k (increment k' l) = is_line_of k l.
Proof. unfold increment. destruct (is_line_of k' l); reflexivity. Qed.

Lemma productId_increment (k : option number) (l : CartLine) :
  productId (increment k l) = productId l.
Proof. unfold increment. destruct (is_line_of k l); reflexivity. Qed.

Lemma has_line_increment (k k' : option number) (c : Cart) :
  has_line k (map (increment k') c) = has_line k c.
Proof.
  unfold has_line. induction c as [|l c IH]; [reflexivity|].
  cbn [map existsb]. now rewrite is_line_of_increment, IH.
Qed.

Lemma has_line_app (k : option number) (a b : Cart) :
  has_line k (a ++ b) = has_line k a || has_line k b.
Proof. apply existsb_app. Qed.

Lemma has_line_false (k : option number) (c : Cart) : has_line k c = false -> lines_of k c = [].
Proof.
  unfold has_line, lines_of. induction c as [|l c IH]; [reflexivity|].
  cbn [existsb filter]. intros H. apply orb_false_iff in H as [-> H]. auto.
Qed.

(** Whether a cart has a line of an identity depends on the identity up to
    [===]. *)
Lemma is_line_of_equal (k k' : option number) (l : CartLine) :
  strict_equal k k' = true -> is_line_of k l = is_line_of k' l.
Proof. apply strict_equal_true_l. Qed.

Lemma has_line_equal (k k' : option number) (c : Cart) :
  strict_equal k k' = true -> has_line k c = has_line k' c.
Proof.
  intros E. unfold has_line. induction c as [|l c IH]; [reflexivity|].
  cbn [existsb]. now rewrite IH, (is_line_of_equal k k').
Qed.

Lemma lines_of_equal (k k' : option number) (c : Cart) :
  strict_equal k k' = true -> lines_of k c = lines_of k' c.
Proof.
  intros E. unfold lines_of. apply filter_ext. intros l. now apply is_line_of_equal.
Qed.

(** ** The invariant *)

Lemma unique_lines_increment (k : option number) (c : Cart) :
  unique_lines (map (increment k) c) = unique_lines c.
Proof.
  induction c as [|l c IH]; [reflexivity|].
  cbn [map unique_lines]. now rewrite productId_increment, has_line_increment, IH.
Qed.

Lemma unique_lines_snoc (c : Cart) (l : CartLine) :
  unique_lines c = true -> has_line (productId l) c = false -> unique_lines (c ++ [l]) = true.
Proof.
  induction c as [|l' c IH]; [reflexivity|].
  cbn [unique_lines app has_line existsb]. intros U H.
  apply andb_true_iff in U as [U1 U2]. apply orb_false_iff in H as [H1 H2].
  rewrite has_line_app, IH by assumption. apply negb_true_iff in U1. rewrite U1.
  cbn [has_line existsb]. unfold is_line_of in *. rewrite strict_equal_sym, H1. reflexivity.
Qed.

(** [addToCart] keeps the lines unique. *)
Lemma cart_add_unique (p : Product) (c : Cart) :
  unique_lines c = true -> unique_lines (cart_add p c) = true.
Proof.
  intros U. unfold cart_add. destruct (has_line (id p) c) eqn:E.
  - now rewrite unique_lines_increment.
  - now apply unique_lines_snoc.
Qed.

(** In a cart with unique lines an identity has at most one line. *)
Lemma unique_lines_one (k : option number) (c : Cart) :
  unique_lines c = true -> (length (lines_of k c) <= 1)%nat.
Proof.
  induction c as [|l c IH]; [cbn; lia|].
  cbn [unique_lines]. intros U. apply andb_true_iff in U as [U1 U2].
  unfold lines_of. cbn [filter]. destruct (is_line_of k l) eqn:E; [|now apply IH].
  apply negb_true_iff in U1. rewrite <- (has_line_equal k) in U1 by exact E.
  apply has_line_false in U1. unfold lines_of in U1. rewrite U1. cbn. lia.
Qed.

(** ** Quantities *)

Lemma lines_of_increment_other (k k' : option number) (c : Cart) :
  strict_equal k k' = false -> lines_of k (map (increment k') c) = lines_of k c.
Proof.
  intros E. unfold lines_of. induction c as [|l c IH]; [reflexivity|].
  cbn [map filter]. rewrite is_line_of_increment, IH.
  destruct (is_line_of k l) eqn:E1; [|reflexivity]. f_equal.
  unfold increment. destruct (is_line_of k' l) eqn:E2; [|reflexivity].
  unfold is_line_of in *. rewrite strict_equal_sym in E2.
  rewrite (strict_equal_trans _ _ _ E1 E2) in E. discriminate.
Qed.

Lemma lines_of_increment_same (k : option number) (c : Cart) :
  lines_of k (map (increment k) c)
  = map (fun l => mkLine (productId l) (snapshot l) (quantity l + 1)) (lines_of k c).
Proof.
  unfold lines_of. induction c as [|l c IH]; [reflexivity|].
  cbn [map filter]. rewrite is_line_of_increment, IH. unfold increment.
  destruct (is_line_of k l); reflexivity.
Qed.

Lemma lines_of_app (k : option number) (a b : Cart) :
  lines_of k (a ++ b) = (lines_of k a ++ lines_of k b)%list.
Proof. apply filter_app. Qed.

Lemma has_line_true (k : option number) (c : Cart) :
  has_line k c = true -> lines_of k c <> [].
Proof.
  intros H E. unfold has_line in H. apply existsb_exists in H as (l & I & L).
  assert (I' : In l (lines_of k c)) by (apply filter_In; auto).
  rewrite E in I'. destruct I'.
Qed.

(** In a cart with unique lines, an identity that has a line has exactly
    one. *)
Lemma unique_lines_single (k : option number) (c : Cart) :
  unique_lines c = true -> has_line k c = true -> exists l, lines_of k c = [l].
Proof.
  intros U H. pose proof (unique_lines_one k c U) as L. apply has_line_true in H.
  destruct (lines_of k c) as [|l [|l' ls]]; [congruence | eauto | cbn in L; lia].
Qed.

(** The lines of the added product's identity after [addToCart]: its one
    line with one more unit, or a new line of quantity one with the product
    as snapshot. *)
Lemma lines_of_cart_add (p : Product) (c : Cart) :
  unique_lines c = true -> strict_equal (id p) (id p) = true ->
  lines_of (id p) (cart_add p c) =
  match lines_of (id p) c with
  | l :: _ => [mkLine (productId l) (snapshot l) (quantity l + 1)]
  | [] => [mkLine (id p) p 1]
  end.
Proof.
  intros U R. unfold cart_add. destruct (has_line (id p) c) eqn:E.
  - rewrite lines_of_increment_same.
    destruct (unique_lines_single _ _ U E) as [l ->]. reflexivity.
  - rewrite lines_of_app, (has_line_false _ _ E). unfold lines_of. cbn [filter app].
    unfold is_line_of. cbn [productId]. now rewrite R.
Qed.

(** The lines of every other identity are as they were. *)
Lemma lines_of_cart_add_other (p : Product) (c : Cart) (k : option number) :
  strict_equal k (id p) = false -> lines_of k (cart_add p c) = lines_of k c.
Proof.
  intros E. unfold cart_add. destruct (has_line (id p) c).
  - now apply lines_of_increment_other.
  - rewrite lines_of_app. unfold lines_of at 2. cbn [filter]. unfold is_line_of. cbn [productId].
    rewrite E. apply app_nil_r.
Qed.

Lemma quantity_of_cart_add (p : Product) (c : Cart) :
  unique_lines c = true -> strict_equal (id p) (id p) = true ->
  quantity_of (id p) (cart_add p c) = quantity_of (id p) c + 1.
Proof.
  intros U R. unfold quantity_of. rewrite lines_of_cart_add by assumption.
  destruct (lines_of (id p) c) as [|l ls] eqn:E; [reflexivity|].
  pose proof (unique_lines_one (id p) c U) as L. rewrite E in L.
  destruct ls; [cbn; lia | cbn in L; lia].
Qed.

(** The store keeps the promise of the context, with unique lines as the
    valid carts and the units of an identity as its count. *)
#[export, refine] Instance store_lawful : LawfulCart Cart := {
  empty := empty_cart;
  valid := fun c => unique_lines c = true;
  count := quantity_of
}.
Proof.
  - reflexivity.
  - reflexivity.
  - exact cart_add_unique.
  - intros p c k U E. cbn [addToCart store_context].
    assert (R : strict_equal (id p) (id p) = true).
    { apply (strict_equal_trans _ k); [now rewrite strict_equal_sym | exact E]. }
    unfold quantity_of. rewrite !(lines_of_equal k (id p)) by exact E.
    now apply quantity_of_cart_add.
  - intros p c k _ E. cbn [addToCart store_context]. unfold quantity_of.
    now rewrite lines_of_cart_add_other.
Defined.
