(* ===== verification/CartMap.v ===== *)
(** * The cart as a finite map

    What the cart store of [CartStore.v] stands for: a finite map from
    product identities to quantities, with [addToCart] as the update of one
    key.  The identities are the integers the specification speaks of; a
    line whose identity is no integer (a product without [id], NaN, a
    fraction) has no key.  The map is stdpp's [gmap]; the file shows that
    the list of lines implements it. *)

From stdpp Require Import gmap.
From Stdlib Require Import ZArith QArith Qround SpecFloat.
From S2P Require Import Prelude JsString Binary64 JsNumber JsValue Product React.
From S2P Require Import CartContext CartStore.

Local Open Scope Z_scope.

(* [set_solver] clears hypotheses it has already used. *)
#[local] Set Warnings "-clear-no-such-hyp".

(** ** The abstraction *)

(** The integer an identity stands for, when it is one; the two zeros
    stand for 0. *)
Definition id_key (k : option number) : option Z :=
  match k with
  | Some x => if is_finite x && is_integral (toR x) then Some (Qfloor (toR x)) else None
  | None => None
  end.

(** A line put into the map: its quantity on top of what the map has for
    its key. *)
Definition line_into (l : CartLine) (m : gmap Z Z) : gmap Z Z :=
  match id_key (productId l) with
  | Some z => <[z := quantity l + default 0 (m !! z)]> m
  | None => m
  end.

(** The map a cart stands for. *)
Definition cart_map (c : Cart) : gmap Z Z := foldr line_into ∅ c.

(** [addToCart] on the map: one more unit under the key. *)
Definition map_add (z : Z) (m : gmap Z Z) : gmap Z Z := <[z := default 0 (m !! z) + 1]> m.

(** [addToCart] of a product on the map: nothing for a product whose
    identity has no key. *)
Definition map_add_product (p : Product) (m : gmap Z Z) : gmap Z Z :=
  match id_key (id p) with
  | Some z => map_add z m
  | None => m
  end.

#[export] Instance map_context : CartContext (gmap Z Z) := {
  addToCart := map_add_product
}.

(** The identities in the cart, as a set of keys. *)
Definition cart_keys (c : Cart) : gset Z := dom (cart_map c).

(** The keys of a list of products. *)
Definition product_keys (ps : list Product) : gset Z :=
  list_to_set (omap (fun p => id_key (id p)) ps).

(** * Lemmas *)

(** ** Keys *)

Lemma id_key_Some (k : option number) (z : Z) :
  id_key k = Some z <->
  exists x, k = Some x /\ is_finite x = true /\ (toR x == inject_Z z)%Q.
Proof.
  unfold id_key. split.
  - destruct k as [x|]; [|done]. destruct (is_finite x) eqn:F; [|done].
    destruct (is_integral (toR x)) eqn:I; [|done]. cbn. intros [= <-].
    exists x. repeat split; [done|]. symmetry. by apply Qeq_bool_iff.
  - intros (x & -> & -> & E). cbn.
    rewrite (proj2 (is_integral_iff (toR x))) by eauto.
    by rewrite (Qfloor_comp _ _ E), Qfloor_Z.
Qed.

(** An identity with a key equals exactly the identities with that key. *)
Lemma strict_equal_id_key (a b : option number) (z : Z) :
  id_key a = Some z -> strict_equal a b = true <-> id_key b = Some z.
Proof.
  rewrite !id_key_Some. intros (x & -> & Fx & Ex). split.
  - destruct b as [y|]; [|done]. cbn [strict_equal]. intros E.
    pose proof (Number_equal_is_finite x y Fx E) as Fy.
    rewrite Number_equal_finite in E by done. apply Qeq_bool_iff in E.
    exists y. repeat split; [done|]. by rewrite <- E.
  - intros (y & -> & Fy & Ey). cbn [strict_equal]. rewrite Number_equal_finite by done.
    apply Qeq_bool_iff. by rewrite Ex, Ey.
Qed.

(** An identity with a key equals itself. *)
Lemma strict_equal_refl_key (k : option number) (z : Z) :
  id_key k = Some z -> strict_equal k k = true.
Proof. intros H. by apply (strict_equal_id_key k k z). Qed.

(** An identity without a key equals no identity that has one. *)
Lemma id_key_None_line (k : option number) (l : CartLine) :
  id_key k = None -> is_line_of k l = true -> id_key (productId l) = None.
Proof.
  intros N E. destruct (id_key (productId l)) as [z|] eqn:K; [|done].
  unfold is_line_of in E. rewrite strict_equal_sym in E.
  apply (strict_equal_id_key _ _ z K) in E. congruence.
Qed.

(** ** Lines *)

Lemma line_into_increment (k : option number) (l : CartLine) (m : gmap Z Z) :
  line_into (increment k l) m
  = if is_line_of k l
    then match id_key (productId l) with
         | Some z => <[z := quantity l + 1 + default 0 (m !! z)]> m
         | None => m
         end
    else line_into l m.
Proof. unfold increment, line_into. by destruct (is_line_of k l). Qed.

Lemma line_into_lookup_ne (l : CartLine) (m : gmap Z Z) (z : Z) :
  id_key (productId l) ≠ Some z -> line_into l m !! z = m !! z.
Proof.
  unfold line_into. destruct (id_key (productId l)) as [z'|]; [|done].
  intros N. apply lookup_insert_ne. congruence.
Qed.

(** A cart without a line of the key has nothing under it. *)
Lemma cart_map_absent (k : option number) (z : Z) (c : Cart) :
  id_key k = Some z -> has_line k c = false -> cart_map c !! z = None.
Proof.
  intros K. induction c as [|l c IH]; [done|].
  cbn [has_line existsb cart_map foldr]. intros H.
  apply orb_false_iff in H as [H1 H2]. rewrite line_into_lookup_ne; [by apply IH|].
  intros E. apply (strict_equal_id_key k _ z K) in E. unfold is_line_of in H1. congruence.
Qed.

(** Lines of other keys go into the map in any order. *)
Lemma line_into_insert (l : CartLine) (z v : Z) (m : gmap Z Z) :
  id_key (productId l) ≠ Some z -> line_into l (<[z := v]> m) = <[z := v]> (line_into l m).
Proof.
  intros N. unfold line_into. destruct (id_key (productId l)) as [z'|]; [|done].
  assert (z' ≠ z) by congruence.
  rewrite lookup_insert_ne by done. by apply insert_insert_ne.
Qed.

Lemma line_into_map_add (l : CartLine) (z : Z) (m : gmap Z Z) :
  id_key (productId l) ≠ Some z -> line_into l (map_add z m) = map_add z (line_into l m).
Proof.
  intros N. unfold map_add. by rewrite (line_into_lookup_ne l m z N), line_into_insert.
Qed.

Lemma is_line_of_key (k : option number) (z : Z) (l : CartLine) :
  id_key k = Some z -> is_line_of k l = true <-> id_key (productId l) = Some z.
Proof. apply strict_equal_id_key. Qed.

Lemma is_line_of_other (k : option number) (z : Z) (l : CartLine) :
  id_key k = Some z -> is_line_of k l = false -> id_key (productId l) ≠ Some z.
Proof. intros K E H. apply (is_line_of_key k z l K) in H. congruence. Qed.

(** ** The operations on the map *)

Lemma increment_absent (k : option number) (c : Cart) :
  has_line k c = false -> map (increment k) c = c.
Proof.
  induction c as [|l c IH]; [done|]. cbn [has_line existsb map]. intros H.
  apply orb_false_iff in H as [H1 H2]. unfold increment at 1. rewrite H1. f_equal. by apply IH.
Qed.

(** A new line of a key the cart does not have. *)
Lemma cart_map_snoc (l : CartLine) (z : Z) (c : Cart) :
  id_key (productId l) = Some z -> has_line (productId l) c = false ->
  cart_map (c ++ [l]) = <[z := quantity l]> (cart_map c).
Proof.
  intros K. unfold cart_map. rewrite foldr_app. cbn [foldr]. unfold line_into at 2.
  rewrite K, lookup_empty. cbn [default]. rewrite Z.add_0_r.
  induction c as [|l' c IH]; [done|]. cbn [has_line existsb foldr]. intros H.
  apply orb_false_iff in H as [H1 H2]. rewrite IH by done.
  apply line_into_insert. eapply is_line_of_other; [exact K | exact H1].
Qed.

(** A new line without a key does not show. *)
Lemma cart_map_snoc_None (l : CartLine) (c : Cart) :
  id_key (productId l) = None -> cart_map (c ++ [l]) = cart_map c.
Proof.
  intros K. unfold cart_map. rewrite foldr_app. cbn [foldr]. unfold line_into at 2.
  by rewrite K.
Qed.

(** One more unit on the line of a key, in a cart with unique lines. *)
Lemma cart_map_increment (k : option number) (z : Z) (c : Cart) :
  id_key k = Some z -> unique_lines c = true -> has_line k c = true ->
  cart_map (map (increment k) c) = map_add z (cart_map c).
Proof.
  intros K. induction c as [|l c IH]; [done|].
  cbn [unique_lines has_line existsb map cart_map foldr]. intros U H.
  apply andb_true_iff in U as [U1 U2]. apply negb_true_iff in U1.
  fold (cart_map c). fold (cart_map (map (increment k) c)).
  rewrite line_into_increment. destruct (is_line_of k l) eqn:E.
  - rewrite <- (has_line_equal k) in U1 by exact E.
    rewrite increment_absent by exact U1.
    apply (is_line_of_key k z l K) in E. unfold line_into, map_add. rewrite E.
    rewrite lookup_insert_eq, insert_insert_eq. f_equal. unfold default, Datatypes.id. cbn. lia.
  - cbn [orb] in H. rewrite IH by done.
    apply line_into_map_add. by eapply is_line_of_other.
Qed.

(** One more unit on the lines of an identity without a key does not
    show. *)
Lemma cart_map_increment_None (k : option number) (c : Cart) :
  id_key k = None -> cart_map (map (increment k) c) = cart_map c.
Proof.
  intros K. induction c as [|l c IH]; [done|]. cbn [map cart_map foldr].
  fold (cart_map c). fold (cart_map (map (increment k) c)).
  rewrite line_into_increment, IH. destruct (is_line_of k l) eqn:E; [|done].
  unfold line_into. by rewrite (id_key_None_line k l K E).
Qed.

(** [addToCart] on the list of lines is [addToCart] on the map. *)
Lemma cart_add_map (p : Product) (c : Cart) :
  unique_lines c = true -> cart_map (cart_add p c) = map_add_product p (cart_map c).
Proof.
  intros U. unfold cart_add, map_add_product. destruct (id_key (id p)) as [z|] eqn:K.
  - destruct (has_line (id p) c) eqn:H; [by apply cart_map_increment|].
    rewrite (cart_map_snoc _ z) by done. unfold map_add.
    by rewrite (cart_map_absent (id p) z c K H).
  - destruct (has_line (id p) c); [by apply cart_map_increment_None|].
    by apply cart_map_snoc_None.
Qed.

(** What the map has under a key: the units of the line of an identity
    with that key. *)
Lemma cart_map_lookup (k : option number) (z : Z) (c : Cart) :
  id_key k = Some z ->
  cart_map c !! z = if has_line k c then Some (quantity_of k c) else None.
Proof.
  intros K. induction c as [|l c IH]; [done|].
  cbn [has_line existsb cart_map foldr]. fold (cart_map c). fold (has_line k c).
  unfold quantity_of, lines_of. cbn [List.filter]. destruct (is_line_of k l) eqn:E.
  - apply (is_line_of_key k z l K) in E. unfold line_into. rewrite E, lookup_insert_eq, IH.
    cbn [orb fold_right]. f_equal. f_equal.
    destruct (has_line k c) eqn:H; [done|].
    pose proof (has_line_false k c H) as L. unfold lines_of in L. by rewrite L.
  - rewrite line_into_lookup_ne by (by eapply is_line_of_other). by rewrite IH.
Qed.

(** A sequence of additions on the list of lines is the same sequence on
    the map. *)
Lemma add_all_map (ps : list Product) (c : Cart) :
  unique_lines c = true -> cart_map (add_all ps c) = add_all ps (cart_map c).
Proof.
  revert c. induction ps as [|p ps IH]; intros c U; [done|].
  cbn [add_all fold_left]. cbn [addToCart store_context map_context].
  rewrite <- (cart_add_map p c U). apply IH. by apply cart_add_unique.
Qed.

(** ** The identities in the cart *)

Lemma dom_map_add_product (p : Product) (m : gmap Z Z) :
  dom (map_add_product p m) = product_keys [p] ∪ dom m.
Proof.
  unfold map_add_product, product_keys, map_add. simpl omap.
  destruct (id_key (id p)) as [z|]; [rewrite dom_insert_L, list_to_set_cons|];
    rewrite list_to_set_nil; set_solver.
Qed.

(** Adding a product adds its key to the cart and nothing else. *)
Lemma cart_keys_add (p : Product) (c : Cart) :
  unique_lines c = true -> cart_keys (cart_add p c) = product_keys [p] ∪ cart_keys c.
Proof. intros U. unfold cart_keys. rewrite cart_add_map by done. apply dom_map_add_product. Qed.

Lemma product_keys_cons (p : Product) (ps : list Product) :
  product_keys (p :: ps) = product_keys [p] ∪ product_keys ps.
Proof.
  unfold product_keys. simpl omap.
  destruct (id_key (id p)); rewrite ?list_to_set_cons, ?list_to_set_nil; set_solver.
Qed.

(** After any sequence of additions the cart holds the identities it held
    and those of the products added: none is lost and none appears from
    nowhere. *)
Lemma cart_keys_add_all (ps : list Product) (c : Cart) :
  unique_lines c = true -> cart_keys (add_all ps c) = product_keys ps ∪ cart_keys c.
Proof.
  revert c. induction ps as [|p ps IH]; intros c U; [set_solver|].
  change (add_all (p :: ps) c) with (add_all ps (cart_add p c)).
  rewrite IH by (by apply cart_add_unique).
  rewrite cart_keys_add, (product_keys_cons p ps) by done. set_solver.
Qed.

(** No addition removes an identity from the cart. *)
Lemma cart_keys_mono (ps : list Product) (c : Cart) :
  unique_lines c = true -> cart_keys c ⊆ cart_keys (add_all ps c).
Proof. intros U. rewrite cart_keys_add_all by done. set_solver. Qed.

(** * Properties *)

(** C35: The cart store implements the finite map: on a cart with unique
    lines, [addToCart] on the list of lines is one more unit under the key
    of the product on the map the list stands for, so is any sequence of
    additions, and what the map has under a key is the quantity of the line
    of that identity. *)
Theorem cart_implements_map (p : Product) (ps : list Product) (c : Cart) :
  unique_lines c = true ->
  cart_map (cart_add p c) = map_add_product p (cart_map c)
  /\ cart_map (add_all ps c) = add_all ps (cart_map c)
  /\ forall k z, id_key k = Some z ->
       cart_map c !! z = if has_line k c then Some (quantity_of k c) else None.
Proof.
  intros U. split; [by apply cart_add_map|]. split; [by apply add_all_map|].
  intros k z K. by apply cart_map_lookup.
Qed.

(** * Witnesses *)

Lemma cart_implements_map_witness :
  cart_map (cart_add (only_id 1) empty_cart)
  = map_add_product (only_id 1) (cart_map empty_cart)
  /\ cart_map (add_all [only_id 1; only_id 1] empty_cart)
     = add_all [only_id 1; only_id 1] (cart_map empty_cart)
  /\ forall k z, id_key k = Some z ->
       cart_map empty_cart !! z
       = if has_line k empty_cart then Some (quantity_of k empty_cart) else None.
Proof.
  apply (cart_implements_map (only_id 1) [only_id 1; only_id 1] empty_cart). done.
Defined.
