(* ===== verification/ProductCard.v ===== *)
(** * The ProductCard component

    [src/src/components/ProductCard/index.tsx]: each expression of the
    component is a definition, and [ProductCard] composes them in the order
    the JSX evaluates them. *)

From Stdlib Require Import ZArith QArith Qround Qabs String List Bool Lia Lqa SpecFloat.
From S2P Require Import Prelude JsString Binary64 JsNumber Literals IntegerText JsValue Product React.
From S2P Require Import CartContext.
Import ListNotations.

Local Open Scope string_scope.
Local Open Scope js_scope.

(** [product.stock < 10]. *)
Definition isLowStock (product : Product) : bool :=
  js_lt (ToNumber (stock product)) (number_of_Z 10).

(** A [Link] to the product's page, with the given class and children. *)
Definition productLink (product : Product) (className : string) (children : list node) : node :=
  Element "Link"
    [("to", PString (Some "/products/$productId"));
     ("params", PParams [("productId", ToString (id product))]);
     ("className", PString (Some className))]
    children.

(** ['⭐'.repeat(Math.round(product.rating))]. *)
Definition stars (product : Product) : completion string :=
  String_repeat "⭐" (Math_round (ToNumber (rating product))).

(** [product.rating.toFixed(1)]. *)
Definition ratingCount (product : Product) : completion string :=
  method_call (rating product) (fun r => Number_toFixed r 1).

(** [product.price.toFixed(2)]. *)
Definition priceText (product : Product) : completion string :=
  method_call (price product) (fun p => Number_toFixed p 2).

(** The class of the stock indicator. *)
Definition stockClass (product : Product) : string :=
  if isLowStock product then "lowStock" else "stock".

(** The text of the stock indicator. *)
Definition stockLabel (product : Product) : string :=
  if isLowStock product then "Only " ++ ToString (stock product) ++ " left!"
  else "In Stock".

(** The "Add to Cart" button. *)
Definition addButton (product : Product) : node :=
  Element "Button"
    [("fullWidth", PFlag true); ("onClick", PHandler (AddToCart product))]
    [Text "Add to Cart"].

(** The component. *)
Definition ProductCard (product : Product) : completion node :=
  s <- stars product ;;
  r <- ratingCount product ;;
  p <- priceText product ;;
  Normal
    (Element "Card" []
       [productLink product "cardLink"
          [Element "div" [("className", PString (Some "imageWrapper"))]
             [Element "Card.Image"
                [("src", PString (thumbnail product)); ("alt", PString (title product))]
                []]];
        Element "div" [("className", PString (Some "content"))]
          [productLink product "titleLink"
             [Element "Card.Title" [] [child_of_string (title product)]];
           Element "div" [("className", PString (Some "rating"))]
             [Element "span" [("className", PString (Some "stars"))] [Text s];
              Element "span" [("className", PString (Some "ratingCount"))]
                [Text "("; Text r; Text ")"]];
           Element "div" [("className", PString (Some "priceSection"))]
             [Element "Card.Price" [] [Text "$"; Text p]]];
        Element "Card.Actions" []
          [Element "div" [("className", PString (Some "actionsContent"))]
             [Element "div" [("className", PString (Some (stockClass product)))]
                [Text (stockLabel product)];
              addButton product]]]).

(** [interface ProductCardProps]. *)
Record ProductCardProps : Type := { product : Product }.

(** [<ProductCard product={p} />]: React calls the component with its
    props object, which the parameter list destructures. *)
Definition ProductCard_element (props : ProductCardProps) : completion node :=
  ProductCard (product props).

(** ** The fixtures of the test file *)

Module ProductCardTest.

(** The double of the router's [Link]:
    [<a href={to} className={className}>{children}</a>]; it drops
    [params]. *)
Definition Link : component := fun props children =>
  Element "a"
    [("href", match lookup_prop "to" props with Some v => v | None => PString None end);
     ("className",
      match lookup_prop "className" props with Some v => v | None => PString None end)]
    children.

(** The card as the test file renders it: with the double in the place of
    the router's [Link]. *)
Definition rendered_card (p : Product) : completion node :=
  card <- ProductCard_element {| product := p |} ;; Normal (substitute "Link" Link card).

(** [mockProduct]. *)
Definition mockProduct : Product := {|
  id := Some (number_of_Z 1);
  title := Some "Test Product";
  description := Some "Test description";
  category := Some "Electronics";
  price := Some (number_of_decimal 9999 (-2));
  rating := Some (number_of_decimal 45 (-1));
  stock := Some (number_of_Z 5);
  brand := Some "TestBrand";
  availabilityStatus := Some "In Stock";
  returnPolicy := Some "30 days";
  thumbnail := Some "https://example.com/thumb.jpg";
  images := Some ["https://example.com/image1.jpg"]
|}.

(** [{ ...mockProduct, stock: 50 }]. *)
Definition highStockProduct : Product := {|
  id := id mockProduct;
  title := title mockProduct;
  description := description mockProduct;
  category := category mockProduct;
  price := price mockProduct;
  rating := rating mockProduct;
  stock := Some (number_of_Z 50);
  brand := brand mockProduct;
  availabilityStatus := availabilityStatus mockProduct;
  returnPolicy := returnPolicy mockProduct;
  thumbnail := thumbnail mockProduct;
  images := images mockProduct
|}.

End ProductCardTest.

(** * Properties *)

(** ** The stock indicator *)

(** C1: [isLowStock] holds of a product with a finite stock exactly when
    the stock is below 10: 10 itself is not low. *)
Theorem isLowStock_iff (p : Product) (x : number) :
  stock p = Some x -> is_finite x = true ->
  (isLowStock p = true <-> (toR x < 10)%Q).
Proof.
  intros Hs Hf. unfold isLowStock. rewrite Hs. cbn [ToNumber].
  now apply (js_lt_integer x 10).
Qed.

(** A stock that is missing or NaN is not low. *)
Lemma isLowStock_missing (p : Product) :
  stock p = None \/ stock p = Some S754_nan -> isLowStock p = false.
Proof. intros [H|H]; unfold isLowStock; rewrite H; reflexivity. Qed.

(** C2: For a stock that is a non-negative integer, the indicator reads
    "Only n left!" with the decimal digits of the stock when it is below
    10, and "In Stock" from 10 on. *)
Theorem stockLabel_integer (p : Product) (z : Z) :
  stock p = Some (number_of_Z z) -> (0 <= z < 2 ^ 53)%Z ->
  stockLabel p = if (z <? 10)%Z then "Only " ++ decimal_digits z ++ " left!" else "In Stock".
Proof.
  intros Hs Hz. unfold stockLabel, isLowStock. rewrite Hs. cbn [ToNumber ToString].
  destruct (number_of_Z_exact z ltac:(lia)) as [Hf Hv].
  pose proof (js_lt_integer _ 10 Hf ltac:(reflexivity)) as Hl. rewrite Hv in Hl.
  unfold Qlt in Hl. cbn [Qnum Qden inject_Z] in Hl.
  destruct (Z.ltb_spec z 10) as [H|H].
  - replace (js_lt _ _) with true by (symmetry; apply Hl; lia).
    rewrite Number_toString_natural by lia. reflexivity.
  - destruct (js_lt _ _); [|reflexivity]. exfalso. assert (z * 1 < 10 * 1)%Z by now apply Hl. lia.
Qed.

(** ** The stars *)

(** C10: For a rating that is a finite binary64 value, the stars are
    [Math.round(rating)] copies of the glyph, the closest integer with ties
    upwards, and [repeat] throws a [RangeError] when that integer is
    negative. *)
Theorem stars_count (p : Product) (r : number) :
  rating p = Some r -> is_double r = true -> is_finite r = true ->
  stars p =
  if (round_half_up (toR r) <? 0)%Z then Throw RangeError
  else Normal (repeat_string "⭐" (Z.to_nat (round_half_up (toR r)))).
Proof.
  intros Hr Hd Hf. unfold stars. rewrite Hr. now apply String_repeat_Math_round.
Qed.

(** C11: A rating written with one decimal gives the stars of the decimal:
    for the literal of digits [r] over 10, below [2^47], the card shows
    [(r + 5) / 10] stars, the integer nearest to [r / 10] and the larger on
    a tie ([4.5] gives five stars, [4.4] four), and [repeat] does not
    throw.  The rounding of the literal to binary64 never moves the rating
    across a half. *)
Theorem stars_literal (p : Product) (r : Z) :
  rating p = Some (literal r 1) -> (0 <= r < 2 ^ 47)%Z ->
  stars p = Normal (repeat_string "⭐" (Z.to_nat ((r + 5) / 10))).
Proof.
  intros Hr Hb. destruct (round_literal r 1 Hb ltac:(lia)) as (Hd & Hf & R).
  unfold stars. rewrite Hr. cbn [ToNumber].
  rewrite String_repeat_Math_round, R by assumption.
  change (10 ^ Z.of_nat 1)%Z with 10%Z. change (10 / 2)%Z with 5%Z.
  pose proof (Z.div_pos (r + 5) 10 ltac:(lia) ltac:(lia)).
  now replace (_ <? 0)%Z with false by (symmetry; zbool).
Qed.

(** A rating that is missing or NaN gives no star, and nothing throws. *)
Lemma stars_missing_rating (p : Product) :
  rating p = None \/ rating p = Some S754_nan -> stars p = Normal EmptyString.
Proof. intros [H|H]; unfold stars; rewrite H; reflexivity. Qed.

(** An infinite rating makes [repeat] throw. *)
Lemma stars_infinite (p : Product) (s : bool) :
  rating p = Some (S754_infinity s) -> stars p = Throw RangeError.
Proof. intros H. unfold stars; rewrite H. destruct s; reflexivity. Qed.

(** C27: For a rating within [[0, 5]], as the data model has it, the card
    shows between 0 and 5 stars and [repeat] does not throw. *)
Theorem stars_within_five (p : Product) (r : number) :
  rating p = Some r -> is_double r = true -> is_finite r = true ->
  (0 <= toR r <= 5)%Q ->
  exists k, (k <= 5)%nat /\ stars p = Normal (repeat_string "⭐" k)
            /\ Z.of_nat k = round_half_up (toR r).
Proof.
  intros Hr Hd Hf [Hlo Hhi]. unfold stars. rewrite Hr. cbn [ToNumber].
  rewrite String_repeat_Math_round by assumption.
  pose proof (round_half_up_nonneg _ Hlo) as H0.
  pose proof (round_half_up_mono _ _ Hhi) as H5.
  change 5%Q with (inject_Z 5) in H5. rewrite round_half_up_Z in H5.
  exists (Z.to_nat (round_half_up (toR r))).
  replace (round_half_up (toR r) <? 0)%Z with false by (symmetry; zbool).
  repeat split; lia.
Qed.

(** ** Price and rating *)

(** C5: For a price that is a finite non-negative number below [10^21],
    the card shows the price with exactly two decimals, and no number with
    two decimals is closer to the price. *)
Theorem priceText_two_decimals (p : Product) (x : number) :
  price p = Some x -> is_finite x = true -> (0 <= toR x < pow10 21)%Q ->
  exists s n,
    priceText p = Normal s
    /\ parse_fixed s = Some (n, 2%nat)
    /\ forall n', (Qabs (inject_Z n / 100 - toR x) <= Qabs (inject_Z n' / 100 - toR x))%Q.
Proof.
  intros Hp Hf Hr. unfold priceText. rewrite Hp. cbn [method_call].
  destruct (toFixed_nonneg x 2 Hf ltac:(lia) Hr) as (s & n & E & P & _ & C).
  exists s, n. repeat split; assumption.
Qed.

(** For a rating that is a finite non-negative number below [10^21],
    the card shows the rating in brackets with exactly one decimal, and no
    number with one decimal is closer to the rating. *)
Theorem ratingCount_one_decimal (p : Product) (x : number) :
  rating p = Some x -> is_finite x = true -> (0 <= toR x < pow10 21)%Q ->
  exists s n,
    ratingCount p = Normal s
    /\ parse_fixed s = Some (n, 1%nat)
    /\ forall n', (Qabs (inject_Z n / 10 - toR x) <= Qabs (inject_Z n' / 10 - toR x))%Q.
Proof.
  intros Hp Hf Hr. unfold ratingCount. rewrite Hp. cbn [method_call].
  destruct (toFixed_nonneg x 1 Hf ltac:(lia) Hr) as (s & n & E & P & _ & C).
  exists s, n. repeat split; assumption.
Qed.

(** ** Errors *)

Lemma ratingCount_normal_iff (p : Product) :
  is_normal (ratingCount p) = true <-> rating p <> None.
Proof.
  unfold ratingCount. destruct (rating p) as [r|]; cbn [method_call].
  - rewrite Number_toFixed_normal_iff. split; [discriminate | lia].
  - split; [discriminate | congruence].
Qed.

Lemma priceText_normal_iff (p : Product) :
  is_normal (priceText p) = true <-> price p <> None.
Proof.
  unfold priceText. destruct (price p) as [r|]; cbn [method_call].
  - rewrite Number_toFixed_normal_iff. split; [discriminate | lia].
  - split; [discriminate | congruence].
Qed.

(** C13: The card renders exactly when the stars can be built and the
    product has a rating and a price; otherwise evaluating it throws. *)
Theorem ProductCard_normal_iff (p : Product) :
  is_normal (ProductCard p) = true <->
  is_normal (stars p) = true /\ rating p <> None /\ price p <> None.
Proof.
  rewrite <- ratingCount_normal_iff, <- priceText_normal_iff. unfold ProductCard.
  destruct (stars p), (ratingCount p), (priceText p); cbn; intuition congruence.
Qed.

(** C12: A product without a rating makes the card throw a [TypeError]:
    [product.rating.toFixed] has no optional chaining. *)
Theorem ProductCard_without_rating (p : Product) :
  rating p = None -> ProductCard p = Throw TypeError.
Proof.
  intros H. unfold ProductCard, stars, ratingCount. rewrite H. reflexivity.
Qed.

(** A product with a rating but no price throws a [TypeError] too, when
    the stars can be built. *)
Lemma ProductCard_without_price (p : Product) :
  is_normal (stars p) = true -> rating p <> None -> price p = None ->
  ProductCard p = Throw TypeError.
Proof.
  intros Hs Hr Hp. apply ratingCount_normal_iff in Hr.
  unfold ProductCard, priceText. rewrite Hp.
  destruct (stars p), (ratingCount p); try discriminate. reflexivity.
Qed.

(** C19: The card of a product that satisfies the invariant of the data
    model, with a rating that is a binary64 value, renders: nothing
    throws, and it shows at most five stars. *)
Theorem ProductCard_well_formed (p : Product) (r : number) :
  well_formed p = true -> rating p = Some r -> is_double r = true ->
  exists card k,
    ProductCard p = Normal card /\ stars p = Normal (repeat_string "⭐" k) /\ (k <= 5)%nat.
Proof.
  intros W Hr Hd.
  destruct (well_formed_inv p W) as (pr & st & r' & Hp & _ & Hr' & _ & _ & _ & _ & _ & Fr & [R0 R5]).
  assert (r' = r) by congruence. subst r'.
  assert (S : stars p = Normal (repeat_string "⭐" (Z.to_nat (round_half_up (toR r))))).
  { unfold stars. rewrite Hr. cbn [ToNumber]. rewrite String_repeat_Math_round by assumption.
    pose proof (round_half_up_nonneg _ R0).
    now replace (round_half_up (toR r) <? 0)%Z with false by (symmetry; zbool). }
  pose proof (round_half_up_mono _ _ R5) as H5.
  change 5%Q with (inject_Z 5) in H5. rewrite round_half_up_Z in H5.
  unfold ProductCard, ratingCount, priceText. rewrite S, Hr, Hp. cbn [bind method_call].
  destruct (Number_toFixed_total r 1 ltac:(lia)) as [s1 ->].
  destruct (Number_toFixed_total pr 2 ltac:(lia)) as [s2 ->]. cbn [bind].
  eexists _, _. repeat split. lia.
Qed.

(** ** The button *)

(** The card, when it renders, has one button, which carries the handler
    of the card's product. *)
Lemma ProductCard_button (p : Product) (card : node) :
  ProductCard p = Normal card -> by_type "Button" card = [addButton p].
Proof.
  unfold ProductCard. destruct (stars p), (ratingCount p), (priceText p); cbn [bind];
    try discriminate.
  intros H. inversion H; subst. unfold by_type. cbn [elements productLink].
  destruct (title p); reflexivity.
Qed.

(** The card, when it renders, has two links to the product's page: the
    one around the image and the one around the title. *)
Lemma ProductCard_links (p : Product) (card : node) :
  ProductCard p = Normal card ->
  exists c1 c2,
    by_type "Link" card = [productLink p "cardLink" c1; productLink p "titleLink" c2].
Proof.
  unfold ProductCard. destruct (stars p), (ratingCount p), (priceText p); cbn [bind];
    try discriminate.
  intros H. inversion H; subst. unfold by_type. cbn [elements productLink].
  destruct (title p); do 2 eexists; reflexivity.
Qed.

(** What the test file renders of the links: two anchors whose [href] is
    the route pattern itself, whatever the product; the [productId] of the
    links is not in the tree the tests see. *)
Lemma rendered_card_anchors (p : Product) (dom : node) :
  ProductCardTest.rendered_card p = Normal dom ->
  by_type "Link" dom = []
  /\ map (prop "href") (by_type "a" dom)
     = [Some (PString (Some "/products/$productId"));
        Some (PString (Some "/products/$productId"))].
Proof.
  unfold ProductCardTest.rendered_card, ProductCard_element, ProductCard. cbn [product].
  destruct (stars p), (ratingCount p), (priceText p); cbn [bind]; try discriminate.
  intros H. inversion H; subst. unfold by_type.
  cbn [substitute map productLink String.eqb Ascii.eqb Bool.eqb ProductCardTest.Link].
  destruct (title p); split; reflexivity.
Qed.

(** Clicking a button of the card is [addToCart] of the card's product. *)
Lemma ProductCard_button_click
  {cart : Type} `{CartContext cart} (p : Product) (card b : node) (c : cart) :
  ProductCard p = Normal card -> In b (by_type "Button" card) -> click b c = addToCart p c.
Proof.
  intros E I. rewrite (ProductCard_button p card E) in I. destruct I as [<-|[]]. reflexivity.
Qed.

(** C14: Clicking the button of a rendered card calls [addToCart] of the
    context with the card's product, whatever the context is. *)
Theorem ProductCard_click_adds_product
  (cart : Type) (ctx : CartContext cart) (p : Product) (card : node) (c : cart) :
  ProductCard p = Normal card ->
  exists b, by_type "Button" card = [b] /\ click b c = addToCart p c.
Proof.
  intros H. exists (addButton p). split; [now apply ProductCard_button | reflexivity].
Qed.

(** C6: A price written with two decimals and a rating written with one
    are shown as they were written: for a price that is the literal of
    digits [c] over 100 and a rating that is the literal of digits [r] over
    10, with [c] and [r] below [2^50], the card's price text is the decimal
    [c / 100] with its two decimals and its rating text the decimal
    [r / 10] with its one.  The rounding of the literal to binary64 and the
    rounding of [toFixed] cancel. *)
Theorem price_literal_roundtrip (p : Product) (c r : Z) :
  price p = Some (literal c 2) -> rating p = Some (literal r 1) ->
  (0 <= c < 2 ^ 50)%Z -> (0 <= r < 2 ^ 50)%Z ->
  priceText p = Normal (fixed_digits c 2) /\ parse_fixed (fixed_digits c 2) = Some (c, 2%nat)
  /\ ratingCount p = Normal (fixed_digits r 1) /\ parse_fixed (fixed_digits r 1) = Some (r, 1%nat).
Proof.
  intros Hp Hr Hc Hrr. unfold priceText, ratingCount. rewrite Hp, Hr. cbn [method_call].
  destruct (toFixed_literal c 2 Hc ltac:(lia)) as [_ Ec].
  destruct (toFixed_literal r 1 Hrr ltac:(lia)) as [_ Er].
  change (Z.of_nat 2) with 2%Z in Ec. change (Z.of_nat 1) with 1%Z in Er.
  rewrite Ec, Er. repeat split; apply parse_fixed_fixed_digits; lia.
Qed.

(** A price written with more than two decimals is shown rounded to two,
    as a decimal, provided that a tie is a multiple of [1/64]: [19.999]
    shows as "20.00" and [0.125] as "0.13". *)
Lemma priceText_literal_rounds (p : Product) (c : Z) (f : nat) :
  price p = Some (literal c f) -> (0 <= c < 2 ^ 47)%Z -> (2 < f <= 100)%nat ->
  ((c + 10 ^ Z.of_nat (f - 2) / 2) mod 10 ^ Z.of_nat (f - 2) = 0 ->
   (c * 64) mod 10 ^ Z.of_nat f = 0)%Z ->
  priceText p =
  Normal (fixed_digits ((c + 10 ^ Z.of_nat (f - 2) / 2) / 10 ^ Z.of_nat (f - 2)) 2).
Proof.
  intros Hp Hc Hf Ht. unfold priceText. rewrite Hp. cbn [method_call].
  exact (toFixed_literal_rounds c f 2 Hc Hf Ht).
Qed.

(** ** The characters of the texts *)

(** The stars are copies of the glyph. *)
Lemma stars_glyphs (p : Product) (s : string) :
  stars p = Normal s -> exists k, s = repeat_string "⭐" k.
Proof.
  unfold stars, String_repeat. destruct (ToIntegerOrInfinity _) as [n| |]; try discriminate.
  destruct (n <? 0)%Z; [discriminate|]. intros <-%Normal_inj. eauto.
Qed.

Lemma ratingCount_chars (p : Product) (r : string) :
  ratingCount p = Normal r -> all_chars number_char r = true.
Proof. unfold ratingCount. destruct (rating p); [apply Number_toFixed_chars | discriminate]. Qed.

Lemma priceText_chars (p : Product) (pr : string) :
  priceText p = Normal pr -> all_chars number_char pr = true.
Proof. unfold priceText. destruct (price p); [apply Number_toFixed_chars | discriminate]. Qed.

(** The stock label: "In Stock", or "Only n left!" around the text of a
    number. *)
Lemma stockLabel_cases (p : Product) :
  (isLowStock p = false /\ stockLabel p = "In Stock")
  \/ (isLowStock p = true
      /\ exists x, stock p = Some x /\ stockLabel p = "Only " ++ Number_toString x ++ " left!").
Proof.
  unfold stockLabel. destruct (isLowStock p) eqn:L; [right | now left].
  split; [reflexivity|]. unfold isLowStock in L.
  destruct (stock p) as [x|]; [now exists x | discriminate].
Qed.

(** * Witnesses *)

Lemma isLowStock_iff_witness :
  isLowStock ProductCardTest.mockProduct = true <-> (toR (number_of_Z 5) < 10)%Q.
Proof. apply (isLowStock_iff ProductCardTest.mockProduct (number_of_Z 5)); reflexivity. Defined.

Lemma stockLabel_integer_witness :
  stockLabel ProductCardTest.highStockProduct =
  if (50 <? 10)%Z then "Only " ++ decimal_digits 50 ++ " left!" else "In Stock".
Proof.
  apply (stockLabel_integer ProductCardTest.highStockProduct 50); [reflexivity | lia].
Defined.

Lemma stars_count_witness :
  stars ProductCardTest.mockProduct =
  if (round_half_up (toR (number_of_decimal 45 (-1))) <? 0)%Z then Throw RangeError
  else Normal (repeat_string "⭐" (Z.to_nat (round_half_up (toR (number_of_decimal 45 (-1)))))).
Proof.
  apply (stars_count ProductCardTest.mockProduct (number_of_decimal 45 (-1))); reflexivity.
Defined.

Lemma stars_within_five_witness :
  exists k, (k <= 5)%nat /\ stars ProductCardTest.mockProduct = Normal (repeat_string "⭐" k)
            /\ Z.of_nat k = round_half_up (toR (number_of_decimal 45 (-1))).
Proof.
  apply (stars_within_five ProductCardTest.mockProduct (number_of_decimal 45 (-1)));
    try reflexivity.
  split; unfold Qle; simpl; lia.
Defined.

Lemma priceText_two_decimals_witness :
  exists s n,
    priceText ProductCardTest.mockProduct = Normal s
    /\ parse_fixed s = Some (n, 2%nat)
    /\ forall n', (Qabs (inject_Z n / 100 - toR (number_of_decimal 9999 (-2)))
                   <= Qabs (inject_Z n' / 100 - toR (number_of_decimal 9999 (-2))))%Q.
Proof.
  apply (priceText_two_decimals ProductCardTest.mockProduct (number_of_decimal 9999 (-2)));
    try reflexivity.
  split; [unfold Qle, Z.le | unfold Qlt, Z.lt]; vm_compute; [intro H; discriminate H | reflexivity].
Defined.

Lemma ProductCard_without_rating_witness : ProductCard empty_product = Throw TypeError.
Proof. apply (ProductCard_without_rating empty_product). reflexivity. Defined.

Lemma ProductCard_click_adds_product_witness :
  exists b,
    by_type "Button"
      (match ProductCard ProductCardTest.mockProduct with Normal c => c | Throw _ => Nothing end)
    = [b]
    /\ click b [] = addToCart ProductCardTest.mockProduct [].
Proof.
  apply (ProductCard_click_adds_product (list Product) mock_context ProductCardTest.mockProduct).
  reflexivity.
Defined.

Lemma ratingCount_one_decimal_witness :
  exists s n,
    ratingCount ProductCardTest.mockProduct = Normal s
    /\ parse_fixed s = Some (n, 1%nat)
    /\ forall n', (Qabs (inject_Z n / 10 - toR (number_of_decimal 45 (-1)))
                   <= Qabs (inject_Z n' / 10 - toR (number_of_decimal 45 (-1))))%Q.
Proof.
  apply (ratingCount_one_decimal ProductCardTest.mockProduct (number_of_decimal 45 (-1)));
    try reflexivity.
  split; [unfold Qle, Z.le | unfold Qlt, Z.lt]; vm_compute; [intro H; discriminate H | reflexivity].
Defined.

Lemma ProductCard_well_formed_witness :
  exists card k,
    ProductCard ProductCardTest.mockProduct = Normal card
    /\ stars ProductCardTest.mockProduct = Normal (repeat_string "⭐" k) /\ (k <= 5)%nat.
Proof.
  apply (ProductCard_well_formed ProductCardTest.mockProduct (number_of_decimal 45 (-1)));
    reflexivity.
Defined.

Lemma stars_literal_witness :
  stars ProductCardTest.mockProduct = Normal (repeat_string "⭐" (Z.to_nat ((45 + 5) / 10))).
Proof.
  apply (stars_literal ProductCardTest.mockProduct 45); [reflexivity|].
  split; (discriminate || reflexivity).
Defined.

Lemma price_literal_roundtrip_witness :
  priceText ProductCardTest.mockProduct = Normal (fixed_digits 9999 2)
  /\ parse_fixed (fixed_digits 9999 2) = Some (9999%Z, 2%nat)
  /\ ratingCount ProductCardTest.mockProduct = Normal (fixed_digits 45 1)
  /\ parse_fixed (fixed_digits 45 1) = Some (45%Z, 1%nat).
Proof.
  apply (price_literal_roundtrip ProductCardTest.mockProduct 9999 45);
    try reflexivity; split; (discriminate || reflexivity).
Defined.
