(* ===== verification/ProductMeta.v ===== *)
(** * The ProductMeta component

    [src/src/components/ProductMeta/index.tsx]: brand, category, stock and
    rating of the product [useProduct()] returns. *)

From Stdlib Require Import ZArith QArith Qabs String List Bool Lia SpecFloat.
From S2P Require Import Prelude JsString Binary64 JsNumber Literals IntegerText JsValue Product React.
From S2P Require Import UseProduct.
Import ListNotations.

Local Open Scope string_scope.
Local Open Scope js_scope.

(** One row: its label and the children of its value. *)
Definition metaItem (label : string) (value : list node) : node :=
  Element "div" [("className", PString (Some "metaItem"))]
    [Element "span" [("className", PString (Some "metaLabel"))] [Text label];
     Element "span" [("className", PString (Some "metaValue"))] value].

(** [product?.brand || 'N/A']. *)
Definition brandLabel (product : option Product) : option string :=
  js_or (optional product brand) (Some "N/A").

(** [product?.rating?.toFixed(1)]. *)
Definition ratingText (product : option Product) : completion (option string) :=
  optional_call (optional product rating) (fun r => Number_toFixed r 1).

(** The component, over the result of the hook. *)
Definition ProductMeta (hook : UseProductResult) : completion node :=
  let product := data hook in
  r <- ratingText product ;;
  Normal
    (Element "div" [("className", PString (Some "meta"))]
       [metaItem "Brand" [child_of_string (brandLabel product)];
        metaItem "Category" [child_of_string (optional product category)];
        metaItem "Stock" [child_of_number (optional product stock)];
        metaItem "Rating" [Text "⭐ "; child_of_string r]]).

(** The texts of the labels and of the values of a rendered panel, in
    document order. *)
Definition metaLabels (tree : node) : list string :=
  map textContent (by_class "metaLabel" tree).

Definition metaValues (tree : node) : list string :=
  map textContent (by_class "metaValue" tree).

(** ** The fixtures of the test file *)

Module ProductMetaTest.

(** [mockProduct]. *)
Definition mockProduct : Product := {|
  id := Some (number_of_Z 1);
  title := Some "Test Product";
  description := Some "Test description";
  category := Some "Electronics";
  price := Some (number_of_decimal 9999 (-2));
  rating := Some (number_of_decimal 45 (-1));
  stock := Some (number_of_Z 10);
  brand := Some "TestBrand";
  availabilityStatus := Some "In Stock";
  returnPolicy := Some "30 days";
  thumbnail := Some "https://example.com/thumb.jpg";
  images := Some ["https://example.com/image1.jpg"]
|}.

(** [{ ...mockProduct, rating: 4.567 }]. *)
Definition with_rating (r : number) : Product := {|
  id := id mockProduct;
  title := title mockProduct;
  description := description mockProduct;
  category := category mockProduct;
  price := price mockProduct;
  rating := Some r;
  stock := stock mockProduct;
  brand := brand mockProduct;
  availabilityStatus := availabilityStatus mockProduct;
  returnPolicy := returnPolicy mockProduct;
  thumbnail := thumbnail mockProduct;
  images := images mockProduct
|}.

(** [{ ...mockProduct, brand: undefined }]. *)
Definition without_brand : Product := {|
  id := id mockProduct;
  title := title mockProduct;
  description := description mockProduct;
  category := category mockProduct;
  price := price mockProduct;
  rating := rating mockProduct;
  stock := stock mockProduct;
  brand := None;
  availabilityStatus := availabilityStatus mockProduct;
  returnPolicy := returnPolicy mockProduct;
  thumbnail := thumbnail mockProduct;
  images := images mockProduct
|}.

(** [{ id: 1, category: 'Test Category', stock: 5 }]. *)
Definition partial_product : Product := {|
  id := Some (number_of_Z 1);
  title := None;
  description := None;
  category := Some "Test Category";
  price := None;
  rating := None;
  stock := Some (number_of_Z 5);
  brand := None;
  availabilityStatus := None;
  returnPolicy := None;
  thumbnail := None;
  images := None
|}.

End ProductMetaTest.

(** * Properties *)

(** [toFixed(1)] does not throw, and [?.] guards the missing rating. *)
Lemma ratingText_total (product : option Product) : exists r, ratingText product = Normal r.
Proof.
  unfold ratingText. destruct (optional product rating) as [x|]; cbn [optional_call]; [|eauto].
  match goal with
  | |- context [Number_toFixed x ?f] => destruct (Number_toFixed_total x f ltac:(lia)) as [s ->]
  end.
  cbn [bind]. eauto.
Qed.

(** The labels and the values of the panel, given the rating text. *)
Lemma ProductMeta_tree (hook : UseProductResult) (r : option string) :
  ratingText (data hook) = Normal r ->
  exists tree,
    ProductMeta hook = Normal tree
    /\ metaLabels tree = ["Brand"; "Category"; "Stock"; "Rating"]
    /\ metaValues tree =
       [textContent (child_of_string (brandLabel (data hook)));
        textContent (child_of_string (optional (data hook) category));
        textContent (child_of_number (optional (data hook) stock));
        "⭐ " ++ textContent (child_of_string r)].
Proof.
  intros E. unfold ProductMeta. rewrite E. cbn [bind]. eexists. split; [reflexivity|].
  unfold metaLabels, metaValues, by_class.
  destruct (brandLabel (data hook)), (optional (data hook) category),
    (optional (data hook) stock), r; split; try reflexivity;
    cbn -[Number_toString append]; now rewrite ?append_nil_r.
Qed.

Lemma ProductMeta_total (hook : UseProductResult) : exists tree, ProductMeta hook = Normal tree.
Proof.
  destruct (ratingText_total (data hook)) as [r E].
  destruct (ProductMeta_tree hook r E) as (tree & H & _). eauto.
Qed.

(** The root of the panel. *)
Lemma ProductMeta_root (hook : UseProductResult) (tree : node) :
  ProductMeta hook = Normal tree -> has_class "meta" tree = true.
Proof.
  unfold ProductMeta. destruct (ratingText (data hook)); cbn [bind]; [|discriminate].
  intros H. inversion H. reflexivity.
Qed.

(** C20: ProductMeta renders for every result of the hook, whatever is
    missing: four rows with the labels Brand, Category, Stock and Rating. *)
Theorem ProductMeta_never_throws (hook : UseProductResult) :
  exists tree,
    ProductMeta hook = Normal tree
    /\ metaLabels tree = ["Brand"; "Category"; "Stock"; "Rating"]
    /\ length (metaValues tree) = 4%nat.
Proof.
  destruct (ratingText_total (data hook)) as [r E].
  destruct (ProductMeta_tree hook r E) as (tree & H & L & V).
  exists tree. rewrite V. auto.
Qed.

(** C9: The brand row shows the brand when it is a non-empty string, and
    "N/A" when there is no data, no brand or an empty brand. *)
Theorem ProductMeta_brand (hook : UseProductResult) (tree : node) :
  ProductMeta hook = Normal tree ->
  nth_error (metaValues tree) 0 =
  Some (match optional (data hook) brand with
        | Some b => if String.eqb b "" then "N/A" else b
        | None => "N/A"
        end).
Proof.
  intros H. destruct (ratingText_total (data hook)) as [r E].
  destruct (ProductMeta_tree hook r E) as (tree' & H' & _ & V).
  assert (tree' = tree) by congruence. subst. rewrite V. cbn [nth_error]. f_equal.
  unfold brandLabel, js_or. destruct (optional (data hook) brand) as [b|]; [|reflexivity].
  cbn [truthy]. destruct (String.eqb b ""); reflexivity.
Qed.

(** C28: The category row shows the category as it is, and the stock row
    the digits of a stock that is an integer from 0 below [10^15], zero
    included; each row is empty when its property is missing, whatever the
    others are. *)
Theorem ProductMeta_category_stock (hook : UseProductResult) (tree : node) :
  ProductMeta hook = Normal tree ->
  nth_error (metaValues tree) 1 =
    Some (match optional (data hook) category with Some c => c | None => "" end)
  /\ (optional (data hook) stock = None -> nth_error (metaValues tree) 2 = Some "")
  /\ (forall z, (0 <= z < 10 ^ 15)%Z -> optional (data hook) stock = Some (number_of_Z z) ->
      nth_error (metaValues tree) 2 = Some (decimal_digits z)).
Proof.
  intros H. destruct (ratingText_total (data hook)) as [r E].
  destruct (ProductMeta_tree hook r E) as (tree' & H' & _ & V).
  assert (tree' = tree) by congruence. subst. rewrite V. cbn [nth_error].
  autorewrite with js. repeat split.
  - intros ->. reflexivity.
  - intros z Hz ->. now rewrite Number_toString_natural.
Qed.

(** C7: For a rating that is a finite non-negative number below [10^21],
    the rating row shows the glyph, a space and the rating with exactly one
    decimal, and no number with one decimal is closer to the rating. *)
Theorem ProductMeta_rating_one_decimal (hook : UseProductResult) (p : Product) (x : number) :
  data hook = Some p -> rating p = Some x ->
  is_finite x = true -> (0 <= toR x < pow10 21)%Q ->
  exists tree s n,
    ProductMeta hook = Normal tree
    /\ nth_error (metaValues tree) 3 = Some ("⭐ " ++ s)
    /\ parse_fixed s = Some (n, 1%nat)
    /\ forall n', (Qabs (inject_Z n / 10 - toR x) <= Qabs (inject_Z n' / 10 - toR x))%Q.
Proof.
  intros Hd Hr Hf Hx.
  destruct (toFixed_nonneg x 1 Hf ltac:(lia) Hx) as (s & n & E & P & _ & C).
  assert (R : ratingText (data hook) = Normal (Some s)).
  { unfold ratingText. rewrite Hd. cbn [optional]. rewrite Hr. cbn [optional_call].
    rewrite E. reflexivity. }
  destruct (ProductMeta_tree hook _ R) as (tree & H & _ & V).
  exists tree, s, n. rewrite V. repeat split; assumption.
Qed.

(** With no data, whatever the flags of the hook say, the panel shows
    "N/A" for the brand, empty category and stock rows, and the glyph alone
    for the rating. *)
Theorem ProductMeta_without_data (hook : UseProductResult) :
  data hook = None ->
  exists tree, ProductMeta hook = Normal tree /\ metaValues tree = ["N/A"; ""; ""; "⭐ "].
Proof.
  intros Hd. destruct (ProductMeta_tree hook None) as (tree & H & _ & V).
  - unfold ratingText. rewrite Hd. reflexivity.
  - exists tree. rewrite V, Hd. auto.
Qed.

(** ** Ratings written as decimals *)

(** The rating text of a product with a rating is what [toFixed(1)] gives. *)
Lemma ratingText_data (hook : UseProductResult) (p : Product) (x : number) (s : string) :
  data hook = Some p -> rating p = Some x -> Number_toFixed x 1 = Normal s ->
  ratingText (data hook) = Normal (Some s).
Proof.
  intros Hd Hr E. unfold ratingText. rewrite Hd. cbn [optional]. rewrite Hr.
  cbn [optional_call]. rewrite E. reflexivity.
Qed.

(** The rating row shows the rating text after the glyph and a space. *)
Lemma ProductMeta_rating_row (hook : UseProductResult) (s : string) :
  ratingText (data hook) = Normal (Some s) ->
  exists tree, ProductMeta hook = Normal tree /\ nth_error (metaValues tree) 3 = Some ("⭐ " ++ s).
Proof.
  intros R. destruct (ProductMeta_tree hook _ R) as (tree & H & _ & V).
  exists tree. rewrite V. split; [exact H | reflexivity].
Qed.

(** A rating written with one decimal is shown as it was written, after
    the glyph and a space. *)
Lemma ProductMeta_rating_literal (hook : UseProductResult) (p : Product) (r : Z) :
  data hook = Some p -> rating p = Some (literal r 1) -> (0 <= r < 2 ^ 50)%Z ->
  exists tree,
    ProductMeta hook = Normal tree
    /\ nth_error (metaValues tree) 3 = Some ("⭐ " ++ fixed_digits r 1).
Proof.
  intros Hd Hr Hb. destruct (toFixed_literal r 1 Hb ltac:(lia)) as [_ E].
  eapply ProductMeta_rating_row, ratingText_data; eassumption.
Qed.

(** C8: A rating written with more than one decimal is shown rounded to
    one, as a decimal: for the literal of digits [c], below [2^47], with
    [f] digits after the point, the rating row shows the multiple of
    [10^(f - 1)] nearest to [c] with one decimal, the larger on a tie
    ([4.567] shows as "⭐ 4.6" and [4.25] as "⭐ 4.3"), provided that a tie
    is a multiple of [1/64], which binary64 holds exactly. *)
Theorem ProductMeta_rating_rounds (hook : UseProductResult) (p : Product) (c : Z) (f : nat) :
  data hook = Some p -> rating p = Some (literal c f) ->
  (0 <= c < 2 ^ 47)%Z -> (1 < f <= 100)%nat ->
  ((c + 10 ^ Z.of_nat (f - 1) / 2) mod 10 ^ Z.of_nat (f - 1) = 0 ->
   (c * 64) mod 10 ^ Z.of_nat f = 0)%Z ->
  exists tree,
    ProductMeta hook = Normal tree
    /\ nth_error (metaValues tree) 3 =
       Some ("⭐ " ++ fixed_digits ((c + 10 ^ Z.of_nat (f - 1) / 2) / 10 ^ Z.of_nat (f - 1)) 1).
Proof.
  intros Hd Hr Hc Hf Ht.
  pose proof (toFixed_literal_rounds c f 1 Hc ltac:(lia) Ht) as E.
  eapply ProductMeta_rating_row, ratingText_data; eassumption.
Qed.

(** A tie that binary64 does not hold exactly is shown as the binary value
    falls: [4.35] is stored below the decimal and shows as "4.3", [4.45] is
    stored above it and shows as "4.5". *)
Example rating_tie_follows_binary :
  ratingText (Some (ProductMetaTest.with_rating (literal 435 2))) = Normal (Some "4.3")
  /\ ratingText (Some (ProductMetaTest.with_rating (literal 445 2))) = Normal (Some "4.5").
Proof. split; vm_compute; reflexivity. Qed.

(** * Witnesses *)

Lemma ProductMeta_brand_witness :
  nth_error
    (metaValues (match ProductMeta (loaded ProductMetaTest.without_brand) with
                 | Normal t => t
                 | Throw _ => Nothing
                 end)) 0
  = Some "N/A".
Proof.
  apply (ProductMeta_brand (loaded ProductMetaTest.without_brand)). reflexivity.
Defined.

Lemma ProductMeta_category_stock_witness :
  nth_error
    (metaValues (match ProductMeta (loaded ProductMetaTest.partial_product) with
                 | Normal t => t
                 | Throw _ => Nothing
                 end)) 2
  = Some (decimal_digits 5).
Proof.
  apply (ProductMeta_category_stock (loaded ProductMetaTest.partial_product));
    [reflexivity | split; [lia | reflexivity] | reflexivity].
Defined.

Lemma ProductMeta_rating_one_decimal_witness :
  exists tree s n,
    ProductMeta (loaded (ProductMetaTest.with_rating (number_of_decimal 4567 (-3)))) = Normal tree
    /\ nth_error (metaValues tree) 3 = Some ("⭐ " ++ s)
    /\ parse_fixed s = Some (n, 1%nat)
    /\ forall n', (Qabs (inject_Z n / 10 - toR (number_of_decimal 4567 (-3)))
                   <= Qabs (inject_Z n' / 10 - toR (number_of_decimal 4567 (-3))))%Q.
Proof.
  apply (ProductMeta_rating_one_decimal _
           (ProductMetaTest.with_rating (number_of_decimal 4567 (-3)))); try reflexivity.
  split; [unfold Qle, Z.le | unfold Qlt, Z.lt]; vm_compute; [intro H; discriminate H | reflexivity].
Defined.

Lemma ProductMeta_without_data_witness :
  exists tree, ProductMeta (failed "Failed to load product") = Normal tree
               /\ metaValues tree = ["N/A"; ""; ""; "⭐ "].
Proof. apply (ProductMeta_without_data (failed "Failed to load product")). reflexivity. Defined.

Lemma ProductMeta_rating_rounds_witness :
  exists tree,
    ProductMeta (loaded (ProductMetaTest.with_rating (literal 4567 3))) = Normal tree
    /\ nth_error (metaValues tree) 3 =
       Some ("⭐ " ++ fixed_digits ((4567 + 10 ^ Z.of_nat (3 - 1) / 2) / 10 ^ Z.of_nat (3 - 1)) 1).
Proof.
  apply (ProductMeta_rating_rounds _ (ProductMetaTest.with_rating (literal 4567 3)) 4567 3);
    try reflexivity; try lia.
  intros H. vm_compute in H. discriminate H.
Defined.
