(* ===== verification/ProductImage.v ===== *)
(** * The ProductImage component

    [src/src/components/ProductImage/index.tsx]: the first image of the
    product [useProduct()] returns, or its thumbnail. *)

From Stdlib Require Import ZArith String List Bool Lia.
From S2P Require Import Prelude JsString Binary64 JsNumber JsValue Product React UseProduct.
Import ListNotations.

Local Open Scope string_scope.

(** [product?.images?.[0] || product?.thumbnail]. *)
Definition imageSrc (product : option Product) : option string :=
  js_or (optional (optional product images) index0) (optional product thumbnail).

(** The component, over the result of the hook. *)
Definition ProductImage (hook : UseProductResult) : node :=
  let product := data hook in
  Element "div" [("className", PString (Some "imageSection"))]
    [Element "img"
       [("src", PString (imageSrc product));
        ("alt", PString (optional product title));
        ("className", PString (Some "image"))]
       []].

(** ** The fixtures of the test file *)

Module ProductImageTest.

(** [mockProduct] of the ProductImage test. *)
Definition mockProduct : Product := {|
  id := Some (number_of_Z 1);
  title := Some "Test Product";
  description := Some "Test description";
  category := Some "Electronics";
  price := Some (number_of_decimal 9999 (-2));
  rating := Some (number_of_decimal 45 (-1));
  stock := Some (number_of_Z 10);
  brand := Some "TestBrand";
  availabilityStatus := Some "In Stock";
  returnPolicy := Some "30 days";
  thumbnail := Some "https://example.com/thumb.jpg";
  images := Some ["https://example.com/image1.jpg"; "https://example.com/image2.jpg"]
|}.

(** [{ ...mockProduct, images: value }]. *)
Definition with_images (value : option (list string)) (p : Product) : Product := {|
  id := id p; title := title p; description := description p; category := category p;
  price := price p; rating := rating p; stock := stock p; brand := brand p;
  availabilityStatus := availabilityStatus p; returnPolicy := returnPolicy p;
  thumbnail := thumbnail p; images := value
|}.

(** [{ ...mockProduct, images: [], thumbnail: undefined }]. *)
Definition without_images_and_thumbnail (p : Product) : Product := {|
  id := id p; title := title p; description := description p; category := category p;
  price := price p; rating := rating p; stock := stock p; brand := brand p;
  availabilityStatus := availabilityStatus p; returnPolicy := returnPolicy p;
  thumbnail := None; images := Some []
|}.

End ProductImageTest.

(** * Properties *)

(** The component renders one [img]. *)
Lemma ProductImage_img (hook : UseProductResult) :
  by_type "img" (ProductImage hook) =
  [Element "img"
     [("src", PString (imageSrc (data hook)));
      ("alt", PString (optional (data hook) title));
      ("className", PString (Some "image"))] []].
Proof. reflexivity. Qed.

(** [imageSrc] by cases on the product. *)
Lemma imageSrc_cases (p : Product) :
  imageSrc (Some p) =
  match images p with
  | Some (img :: _) => if String.eqb img EmptyString then thumbnail p else Some img
  | _ => thumbnail p
  end.
Proof.
  unfold imageSrc, js_or, optional, index0, truthy.
  destruct (images p) as [[|img rest]|]; simpl; try reflexivity.
  destruct (String.eqb img EmptyString); reflexivity.
Qed.

(** C4: For a product whose [images] array starts with a non-empty string,
    the [img] that ProductImage renders has that string as its [src] and
    the product's title as its [alt]. *)
Theorem ProductImage_shows_first_image
  (hook : UseProductResult) (p : Product) (img : string) (rest : list string) :
  data hook = Some p -> images p = Some (img :: rest) -> img <> EmptyString ->
  exists e, by_type "img" (ProductImage hook) = [e]
            /\ prop "src" e = Some (PString (Some img))
            /\ prop "alt" e = Some (PString (title p)).
Proof.
  intros Hd Hi Hne. eexists. split; [apply ProductImage_img|].
  rewrite Hd. cbn [prop lookup_prop String.eqb Ascii.eqb Bool.eqb optional].
  rewrite imageSrc_cases, Hi.
  apply String.eqb_neq in Hne. rewrite Hne. split; reflexivity.
Qed.

(** C3: When the product has no [images], an empty array, or an array that
    starts with the empty string, the [src] is the thumbnail, whatever it
    is ([undefined] included: nothing throws). *)
Theorem ProductImage_falls_back_to_thumbnail (hook : UseProductResult) (p : Product) :
  data hook = Some p ->
  images p = None \/ images p = Some [] \/ (exists rest, images p = Some (EmptyString :: rest)) ->
  exists e, by_type "img" (ProductImage hook) = [e]
            /\ prop "src" e = Some (PString (thumbnail p)).
Proof.
  intros Hd Hi. eexists. split; [apply ProductImage_img|].
  rewrite Hd. cbn [prop lookup_prop String.eqb Ascii.eqb Bool.eqb].
  rewrite imageSrc_cases.
  destruct Hi as [-> | [-> | [rest ->]]]; reflexivity.
Qed.

(** While there is no data (loading, error, or neither), ProductImage
    renders an [img] with neither [src] nor [alt]. *)
Theorem ProductImage_without_data (hook : UseProductResult) :
  data hook = None ->
  ProductImage hook =
  Element "div" [("className", PString (Some "imageSection"))]
    [Element "img"
       [("src", PString None); ("alt", PString None); ("className", PString (Some "image"))]
       []].
Proof. intros H. unfold ProductImage. rewrite H. reflexivity. Qed.

Lemma ProductImage_shows_first_image_witness :
  exists e, by_type "img" (ProductImage (loaded ProductImageTest.mockProduct)) = [e]
            /\ prop "src" e = Some (PString (Some "https://example.com/image1.jpg"))
            /\ prop "alt" e = Some (PString (Some "Test Product")).
Proof.
  apply (ProductImage_shows_first_image (loaded ProductImageTest.mockProduct)
           ProductImageTest.mockProduct "https://example.com/image1.jpg"
           ["https://example.com/image2.jpg"]);
    [reflexivity | reflexivity | discriminate].
Defined.

Lemma ProductImage_falls_back_to_thumbnail_witness :
  exists e,
    by_type "img"
      (ProductImage (loaded (ProductImageTest.with_images (Some []) ProductImageTest.mockProduct)))
    = [e]
    /\ prop "src" e = Some (PString (Some "https://example.com/thumb.jpg")).
Proof.
  apply (ProductImage_falls_back_to_thumbnail
           (loaded (ProductImageTest.with_images (Some []) ProductImageTest.mockProduct))
           (ProductImageTest.with_images (Some []) ProductImageTest.mockProduct));
    [reflexivity | right; left; reflexivity].
Defined.

Lemma ProductImage_without_data_witness :
  ProductImage (failed "Failed to load product") =
  Element "div" [("className", PString (Some "imageSection"))]
    [Element "img"
       [("src", PString None); ("alt", PString None); ("className", PString (Some "image"))]
       []].
Proof. apply (ProductImage_without_data (failed "Failed to load product")). reflexivity. Defined.
