(* ===== verification/ProductInfo.v ===== *)
(** * The ProductInfo component

    The component is not under [src/]; its test is.  The model follows the
    test and section 6 of the specification: the title as a heading of
    level 1, the price with a dollar sign and two decimals, the
    description, each read from the result of [useProduct()] with optional
    chaining, as ProductMeta reads its fields. *)

From Stdlib Require Import ZArith QArith Qabs String List Bool Lia SpecFloat.
From S2P Require Import Prelude JsString Binary64 JsNumber Literals JsValue Product React UseProduct.
Import ListNotations.

Local Open Scope string_scope.
Local Open Scope js_scope.

(** [product?.price?.toFixed(2)]. *)
Definition infoPrice (product : option Product) : completion (option string) :=
  optional_call (optional product price) (fun p => Number_toFixed p 2).

(** The component, over the result of the hook. *)
Definition ProductInfo (hook : UseProductResult) : completion node :=
  let product := data hook in
  p <- infoPrice product ;;
  Normal
    (Element "div" [("className", PString (Some "info"))]
       [Element "h1" [("className", PString (Some "title"))]
          [child_of_string (optional product title)];
        Element "p" [("className", PString (Some "price"))] [Text "$"; child_of_string p];
        Element "p" [("className", PString (Some "description"))]
          [child_of_string (optional product description)]]).

(** ** The fixtures of the test file *)

Module ProductInfoTest.

(** [mockProduct]. *)
Definition mockProduct : Product := {|
  id := Some (number_of_Z 1);
  title := Some "Test Product";
  description := Some "This is a test product description";
  category := Some "Electronics";
  price := Some (number_of_decimal 9999 (-2));
  rating := Some (number_of_decimal 45 (-1));
  stock := Some (number_of_Z 10);
  brand := Some "TestBrand";
  availabilityStatus := Some "In Stock";
  returnPolicy := Some "30 days";
  thumbnail := Some "https://example.com/thumb.jpg";
  images := Some ["https://example.com/image1.jpg"]
|}.

(** [{ ...mockProduct, price: 100 }]. *)
Definition with_price (x : number) : Product := {|
  id := id mockProduct;
  title := title mockProduct;
  description := description mockProduct;
  category := category mockProduct;
  price := Some x;
  rating := rating mockProduct;
  stock := stock mockProduct;
  brand := brand mockProduct;
  availabilityStatus := availabilityStatus mockProduct;
  returnPolicy := returnPolicy mockProduct;
  thumbnail := thumbnail mockProduct;
  images := images mockProduct
|}.

(** [{ id: 1, title: 'Partial Product', price: 49.99 }]. *)
Definition partial_product : Product := {|
  id := Some (number_of_Z 1);
  title := Some "Partial Product";
  description := None;
  category := None;
  price := Some (number_of_decimal 4999 (-2));
  rating := None;
  stock := None;
  brand := None;
  availabilityStatus := None;
  returnPolicy := None;
  thumbnail := None;
  images := None
|}.

End ProductInfoTest.

(** * Properties *)

Lemma infoPrice_total (product : option Product) : exists p, infoPrice product = Normal p.
Proof.
  unfold infoPrice. destruct (optional product price) as [x|]; cbn [optional_call]; [|eauto].
  match goal with
  | |- context [Number_toFixed x ?f] => destruct (Number_toFixed_total x f ltac:(lia)) as [s ->]
  end.
  cbn [bind]. eauto.
Qed.

(** The text of the price paragraph, given the price text. *)
Lemma ProductInfo_tree (hook : UseProductResult) (p : option string) :
  infoPrice (data hook) = Normal p ->
  exists tree,
    ProductInfo hook = Normal tree
    /\ map textContent (by_type "h1" tree) = [textContent (child_of_string (optional (data hook) title))]
    /\ map textContent (by_class "price" tree) = ["$" ++ textContent (child_of_string p)].
Proof.
  intros E. unfold ProductInfo. rewrite E. cbn [bind]. eexists. split; [reflexivity|].
  unfold by_type, by_class.
  destruct (optional (data hook) title), (optional (data hook) description), p;
    split; cbn -[append]; now rewrite ?append_nil_r.
Qed.

(** The root of the panel. *)
Lemma ProductInfo_root (hook : UseProductResult) (tree : node) :
  ProductInfo hook = Normal tree -> has_class "info" tree = true.
Proof.
  unfold ProductInfo. destruct (infoPrice (data hook)); cbn [bind]; [|discriminate].
  intros H. inversion H. reflexivity.
Qed.

Lemma ProductInfo_total (hook : UseProductResult) : exists tree, ProductInfo hook = Normal tree.
Proof.
  destruct (infoPrice_total (data hook)) as [p E].
  destruct (ProductInfo_tree hook p E) as (tree & H & _). eauto.
Qed.

(** ProductInfo renders for every result of the hook, with one heading
    of level 1 that holds the title, or nothing when there is no title or
    no data. *)
Theorem ProductInfo_never_throws (hook : UseProductResult) :
  exists tree,
    ProductInfo hook = Normal tree
    /\ map textContent (by_type "h1" tree)
       = [match optional (data hook) title with Some t => t | None => "" end].
Proof.
  destruct (infoPrice_total (data hook)) as [p E].
  destruct (ProductInfo_tree hook p E) as (tree & H & T & _).
  exists tree. rewrite T. autorewrite with js. auto.
Qed.

(** For a price that is a finite non-negative number below [10^21],
    the price paragraph is a dollar sign and the price with exactly two
    decimals, the closest such number. *)
Theorem ProductInfo_price_two_decimals (hook : UseProductResult) (p : Product) (x : number) :
  data hook = Some p -> price p = Some x ->
  is_finite x = true -> (0 <= toR x < pow10 21)%Q ->
  exists tree s n,
    ProductInfo hook = Normal tree
    /\ map textContent (by_class "price" tree) = ["$" ++ s]
    /\ parse_fixed s = Some (n, 2%nat)
    /\ forall n', (Qabs (inject_Z n / 100 - toR x) <= Qabs (inject_Z n' / 100 - toR x))%Q.
Proof.
  intros Hd Hp Hf Hx.
  destruct (toFixed_nonneg x 2 Hf ltac:(lia) Hx) as (s & n & E & P & _ & C).
  assert (R : infoPrice (data hook) = Normal (Some s)).
  { unfold infoPrice. rewrite Hd. cbn [optional]. rewrite Hp. cbn [optional_call].
    rewrite E. reflexivity. }
  destruct (ProductInfo_tree hook _ R) as (tree & H & _ & V).
  exists tree, s, n. repeat split; assumption.
Qed.

(** A price written with two decimals is shown as it was written, after
    the dollar sign. *)
Lemma ProductInfo_price_literal (hook : UseProductResult) (p : Product) (c : Z) :
  data hook = Some p -> price p = Some (literal c 2) -> (0 <= c < 2 ^ 50)%Z ->
  exists tree,
    ProductInfo hook = Normal tree
    /\ map textContent (by_class "price" tree) = ["$" ++ fixed_digits c 2].
Proof.
  intros Hd Hp Hb. destruct (toFixed_literal c 2 Hb ltac:(lia)) as [_ E].
  change (Z.of_nat 2) with 2%Z in E.
  assert (R : infoPrice (data hook) = Normal (Some (fixed_digits c 2))).
  { unfold infoPrice. rewrite Hd. cbn [optional]. rewrite Hp. cbn [optional_call].
    rewrite E. reflexivity. }
  destruct (ProductInfo_tree hook _ R) as (tree & H & _ & V).
  exists tree. split; assumption.
Qed.

(** * Witnesses *)

Lemma ProductInfo_price_two_decimals_witness :
  exists tree s n,
    ProductInfo (loaded (ProductInfoTest.with_price (number_of_Z 100))) = Normal tree
    /\ map textContent (by_class "price" tree) = ["$" ++ s]
    /\ parse_fixed s = Some (n, 2%nat)
    /\ forall n', (Qabs (inject_Z n / 100 - toR (number_of_Z 100))
                   <= Qabs (inject_Z n' / 100 - toR (number_of_Z 100)))%Q.
Proof.
  apply (ProductInfo_price_two_decimals _ (ProductInfoTest.with_price (number_of_Z 100)));
    try reflexivity.
  split; [unfold Qle, Z.le | unfold Qlt, Z.lt]; vm_compute; [intro H; discriminate H | reflexivity].
Defined.
