(* ===== verification/ProductDetail.v ===== *)
(** * The ProductDetail component

    The component is not under [src/]; its test is, with the mocks it
    puts in the place of the five panels.  The model follows the test: a
    container with the navigation and a product section, which holds the
    image and an info section with the info, meta and actions panels.  The
    panels are parameters, so that the page can be composed of the mocks of
    the test or of the components of this development. *)

From Stdlib Require Import ZArith String List Bool Lia.
From S2P Require Import Prelude JsString Binary64 JsNumber JsValue Product React.
Import ListNotations.

Local Open Scope string_scope.
Local Open Scope js_scope.

(** What the five panels render, or throw. *)
Record Panels : Type := mkPanels {
  navigation : completion node;
  image : completion node;
  info : completion node;
  meta : completion node;
  actions : completion node
}.

(** The component: React renders the panels in document order, and a
    panel that throws ends the rendering. *)
Definition ProductDetail (ps : Panels) : completion node :=
  n <- navigation ps ;;
  i <- image ps ;;
  f <- info ps ;;
  m <- meta ps ;;
  a <- actions ps ;;
  Normal
    (Element "div" [("className", PString (Some "container"))]
       [n;
        Element "div" [("className", PString (Some "product"))]
          [i; Element "div" [("className", PString (Some "infoSection"))] [f; m; a]]]).

(** The panels of the page, when all of them render. *)
Definition all_normal (ps : Panels) : bool :=
  is_normal (navigation ps) && is_normal (image ps) && is_normal (info ps)
  && is_normal (meta ps) && is_normal (actions ps).

(** ** The mocks of the test file *)

Module ProductDetailTest.

(** [() => <div data-testid={id}>{text}</div>]. *)
Definition mock (id text : string) : completion node :=
  Normal (Element "div" [("data-testid", PString (Some id))] [Text text]).

Definition mocks : Panels := {|
  navigation := mock "product-navigation" "Navigation";
  image := mock "product-image" "Image";
  info := mock "product-info" "Info";
  meta := mock "product-meta" "Meta";
  actions := mock "product-actions" "Actions"
|}.

End ProductDetailTest.

(** * Properties *)

(** The page renders exactly when its five panels do. *)
Lemma ProductDetail_normal_iff (ps : Panels) :
  is_normal (ProductDetail ps) = all_normal ps.
Proof.
  unfold ProductDetail, all_normal.
  destruct (navigation ps), (image ps), (info ps), (meta ps), (actions ps); reflexivity.
Qed.

(** The elements of the page are the container, the product section, the
    info section and the elements of the panels, in document order. *)
Lemma ProductDetail_elements (ps : Panels) (n i f m a : node) :
  navigation ps = Normal n -> image ps = Normal i -> info ps = Normal f ->
  meta ps = Normal m -> actions ps = Normal a ->
  exists page c p s,
    ProductDetail ps = Normal page
    /\ elements page = (c :: elements n ++ p :: elements i ++ s :: elements f ++ elements m ++ elements a)%list
    /\ has_class "container" c = true /\ has_class "product" p = true
    /\ has_class "infoSection" s = true.
Proof.
  intros Hn Hi Hf Hm Ha. unfold ProductDetail. rewrite Hn, Hi, Hf, Hm, Ha. cbn [bind].
  eexists _, _, _, _. split; [reflexivity|]. cbn [elements].
  rewrite ?app_nil_r. repeat split.
Qed.

(** The first panel that throws decides what the page throws. *)
Lemma ProductDetail_throws (ps : Panels) (e : native_error) :
  ProductDetail ps = Throw e ->
  navigation ps = Throw e \/ image ps = Throw e \/ info ps = Throw e
  \/ meta ps = Throw e \/ actions ps = Throw e.
Proof.
  unfold ProductDetail.
  destruct (navigation ps), (image ps), (info ps), (meta ps), (actions ps); cbn [bind];
    intros H; inversion H; auto.
Qed.
