(* ===== verification/Storefront.v ===== *)
(** * The storefront: the views over the stores

    The components composed with the two stores: the clicks on product
    cards against a cart that keeps the promise of [CartContext.v] and
    against the cart store of [CartStore.v], and ProductMeta and
    ProductImage over the product store of [UseProduct.v]. *)

From Stdlib Require Import ZArith QArith String List Bool Lia SpecFloat.
From Stdlib Require Import Morphisms RelationClasses Permutation.
From S2P Require Import Prelude JsString Binary64 JsNumber JsValue Product React UseProduct.
From S2P Require Import CartContext CartStore ProductCard ProductMeta ProductImage.
From S2P Require Import ProductInfo ProductDetail.
Import ListNotations.

Local Open Scope string_scope.
Local Open Scope Z_scope.

(** ** Clicking cards *)

(** Clicking the buttons of the card of [product], when the card renders. *)
Definition click_card {cart : Type} `{CartContext cart} (product : Product) (c : cart) : cart :=
  match ProductCard product with
  | Normal card => fold_left (fun acc b => click b acc) (by_type "Button" card) c
  | Throw _ => c
  end.

(** A sequence of clicks, one per product of the list, on the cards of
    those products. *)
Definition click_cards {cart : Type} `{CartContext cart} (ps : list Product) (c : cart) : cart :=
  fold_left (fun acc p => click_card p acc) ps c.

(** The products of the list whose card renders. *)
Definition rendered (ps : list Product) : list Product :=
  filter (fun p => is_normal (ProductCard p)) ps.

(** ** The views of a store *)

(** What the detail page shows of the product store: the panel of
    ProductMeta and the image of ProductImage. *)
Definition views (s : ProductStore) : completion node * node :=
  (ProductMeta (useProduct s), ProductImage (useProduct s)).

(** The detail page over the product store: the image, info and meta
    panels read the store through the accessor; the navigation and the
    actions are given. *)
Definition detail_page (s : ProductStore) (nav act : node) : Panels := {|
  navigation := Normal nav;
  image := Normal (ProductImage (useProduct s));
  info := ProductInfo (useProduct s);
  meta := ProductMeta (useProduct s);
  actions := Normal act
|}.

(** * Lemmas *)

Section Clicks.

Context {cart : Type} {ctx : CartContext cart} {law : LawfulCart cart}.

(** A click on a card that renders is one [addToCart]; on a card that
    throws there is nothing to click. *)
Lemma click_card_add (p : Product) (c : cart) :
  click_card p c = if is_normal (ProductCard p) then addToCart p c else c.
Proof.
  unfold click_card. destruct (ProductCard p) as [card|e] eqn:E; [|reflexivity].
  rewrite (ProductCard_button p card E). reflexivity.
Qed.

Lemma click_cards_add_all (ps : list Product) (c : cart) :
  click_cards ps c = add_all (rendered ps) c.
Proof.
  revert c. induction ps as [|p ps IH]; intros c; [reflexivity|].
  cbn [click_cards fold_left rendered filter]. rewrite click_card_add.
  destruct (is_normal (ProductCard p)); apply IH.
Qed.

Lemma click_cards_count (ps : list Product) (c : cart) (k : option number) :
  valid c ->
  valid (click_cards ps c) /\ count k (click_cards ps c) = count k c + occurrences k (rendered ps).
Proof. intros V. rewrite click_cards_add_all. now apply add_all_count. Qed.

End Clicks.

Lemma rendered_Permutation (ps qs : list Product) :
  Permutation ps qs -> Permutation (rendered ps) (rendered qs).
Proof.
  unfold rendered. induction 1 as [|p ps qs _ IH|p q ps|ps qs rs _ IH1 _ IH2]; cbn [filter].
  - constructor.
  - destruct (is_normal (ProductCard p)); [constructor|]; exact IH.
  - destruct (is_normal (ProductCard p)), (is_normal (ProductCard q)); try reflexivity.
    constructor.
  - now rewrite IH1.
Qed.

Lemma rendered_repeat (p : Product) (n : nat) :
  is_normal (ProductCard p) = true -> rendered (repeat p n) = repeat p n.
Proof.
  intros E. induction n as [|n IH]; [reflexivity|].
  cbn [repeat rendered filter]. rewrite E. f_equal. exact IH.
Qed.

Lemma occurrences_repeat (k : option number) (p : Product) (n : nat) :
  occurrences k (repeat p n) = if strict_equal k (id p) then Z.of_nat n else 0.
Proof.
  induction n as [|n IH]; [destruct (strict_equal k (id p)); reflexivity|].
  cbn [repeat]. rewrite occurrences_cons, IH. destruct (strict_equal k (id p)); lia.
Qed.

(** Both views read the store through the accessor only. *)
Lemma views_state (s t : ProductStore) : state s = state t -> views s = views t.
Proof. unfold views, useProduct. now intros ->. Qed.

(** * Properties *)

(** ** The cart *)

(** C33: No addition is lost, whatever cart keeps the promise of the
    context: after any sequence of clicks on product cards, the count of
    each identity has grown by the number of clicks on rendered cards of
    that identity, and the cart is valid. *)
Theorem clicks_are_counted
  (cart : Type) (ctx : CartContext cart) (law : LawfulCart cart)
  (ps : list Product) (c : cart) :
  valid c ->
  valid (click_cards ps c)
  /\ forall k, count k (click_cards ps c) = count k c + occurrences k (rendered ps).
Proof.
  intros V. split; [exact (proj1 (click_cards_count ps c None V))|].
  intros k. exact (proj2 (click_cards_count ps c k V)).
Qed.

(** C32: Two clicks on the card of a product whose identity equals itself
    leave exactly one line of that identity in the cart store, with two
    units more than before. *)
Theorem add_twice_one_line (p : Product) (c : Cart) :
  is_normal (ProductCard p) = true -> strict_equal (id p) (id p) = true ->
  unique_lines c = true ->
  exists l, lines_of (id p) (click_card p (click_card p c)) = [l]
            /\ quantity l = quantity_of (id p) c + 2
            /\ unique_lines (click_card p (click_card p c)) = true.
Proof.
  intros N R U. rewrite !click_card_add, N. cbn [addToCart store_context].
  pose proof (cart_add_unique p c U) as U1.
  rewrite (lines_of_cart_add p _ U1 R), (lines_of_cart_add p c U R).
  unfold quantity_of. pose proof (unique_lines_one (id p) c U) as L.
  destruct (lines_of (id p) c) as [|l [|l' ls]]; [| |cbn in L; lia];
    eexists; (split; [reflexivity|]); (split; [cbn; lia | now apply cart_add_unique]).
Qed.

(** From the empty cart, whatever cards are clicked in whatever
    order, the cart store has at most one line per product identity. *)
Theorem cart_lines_unique (ps : list Product) (k : option number) :
  unique_lines (click_cards ps empty_cart) = true
  /\ (length (lines_of k (click_cards ps empty_cart)) <= 1)%nat.
Proof.
  destruct (click_cards_count (law := store_lawful) ps empty_cart k eq_refl) as [U _].
  split; [exact U | now apply unique_lines_one].
Qed.

(** The cart store refines the history of calls: after the same
    clicks, the units of each identity in the store are the calls the
    recording double has seen with that identity. *)
Theorem store_refines_history (ps : list Product) (k : option number) :
  quantity_of k (click_cards ps empty_cart) = calls_with k (click_cards ps ([] : list Product)).
Proof.
  destruct (click_cards_count (law := store_lawful) ps empty_cart k eq_refl) as [_ E].
  destruct (click_cards_count (law := mock_lawful) ps [] k I) as [_ E'].
  cbn [count store_lawful mock_lawful] in E, E'. rewrite E, E'. reflexivity.
Qed.


(** ** The product store *)

(** A response for another identity than the current one changes
    nothing of what ProductMeta and ProductImage show. *)
Theorem stale_response_discarded (s : ProductStore) (a b : string) (r : response) :
  key s = Some b -> a <> b -> views (handle (Resolve a r) s) = views s.
Proof.
  intros K N. apply views_state. cbn [handle].
  apply resolve_stale. left. rewrite K. congruence.
Qed.

(** A failure is surfaced: when the response for the current
    identity is a failure, the accessor says error with its cause, and both
    views render without data. *)
Theorem failure_surfaced (s : ProductStore) (k cause : string) :
  key s = Some k -> state s = Loading ->
  useProduct (handle (Resolve k (inl cause)) s) = failed cause
  /\ exists panel, views (handle (Resolve k (inl cause)) s)
                   = (Normal panel, ProductImage (failed cause))
                   /\ metaValues panel = ["N/A"; ""; ""; "⭐ "].
Proof.
  intros K L. assert (E : useProduct (handle (Resolve k (inl cause)) s) = failed cause).
  { unfold useProduct. cbn [handle]. now rewrite resolve_current. }
  split; [exact E|]. unfold views. rewrite E. eexists. split; reflexivity.
Qed.

(** The detail page renders in every state of the product store,
    loading, error or data, whatever the product lacks, and holds the
    image, the info panel and the meta panel. *)
Theorem detail_page_renders (s : ProductStore) (nav act : node) :
  exists page f m,
    ProductDetail (detail_page s nav act) = Normal page
    /\ ProductInfo (useProduct s) = Normal f
    /\ ProductMeta (useProduct s) = Normal m
    /\ In (ProductImage (useProduct s)) (elements page)
    /\ In f (elements page) /\ In m (elements page).
Proof.
  destruct (ProductInfo_total (useProduct s)) as [f Hf].
  destruct (ProductMeta_total (useProduct s)) as [m Hm].
  destruct (ProductDetail_elements (detail_page s nav act) nav _ f m act
              eq_refl eq_refl Hf Hm eq_refl) as (page & c & p & i & H & E & _).
  exists page, f, m. rewrite E. repeat split; try assumption.
  - right. apply in_or_app. right. right. apply in_or_app. left. now left.
  - apply ProductInfo_root, has_class_elements in Hf. right. apply in_or_app. right. right.
    apply in_or_app. right. right. apply in_or_app. now left.
  - apply ProductMeta_root, has_class_elements in Hm. right. apply in_or_app. right. right.
    apply in_or_app. right. right. apply in_or_app. right. apply in_or_app. now left.
Qed.

(** * Witnesses *)

Lemma clicks_are_counted_witness :
  unique_lines (click_cards [ProductCardTest.mockProduct; ProductCardTest.highStockProduct] empty_cart)
  = true
  /\ forall k,
      quantity_of k (click_cards [ProductCardTest.mockProduct; ProductCardTest.highStockProduct]
                       empty_cart)
      = quantity_of k empty_cart
        + occurrences k (rendered [ProductCardTest.mockProduct; ProductCardTest.highStockProduct]).
Proof.
  apply (clicks_are_counted Cart store_context store_lawful
           [ProductCardTest.mockProduct; ProductCardTest.highStockProduct] empty_cart).
  reflexivity.
Defined.

Lemma add_twice_one_line_witness :
  exists l,
    lines_of (id ProductCardTest.mockProduct)
      (click_card ProductCardTest.mockProduct (click_card ProductCardTest.mockProduct empty_cart))
    = [l]
    /\ quantity l = quantity_of (id ProductCardTest.mockProduct) empty_cart + 2
    /\ unique_lines
         (click_card ProductCardTest.mockProduct (click_card ProductCardTest.mockProduct empty_cart))
       = true.
Proof. apply (add_twice_one_line ProductCardTest.mockProduct empty_cart); reflexivity. Defined.

Lemma stale_response_discarded_witness :
  views (handle (Resolve "1" (inr ProductMetaTest.mockProduct)) (run [Visit "1"; Visit "2"] initial))
  = views (run [Visit "1"; Visit "2"] initial).
Proof.
  apply (stale_response_discarded (run [Visit "1"; Visit "2"] initial) "1" "2");
    [reflexivity | discriminate].
Defined.

Lemma failure_surfaced_witness :
  useProduct (handle (Resolve "1" (inl "Failed to load product")) (run [Visit "1"] initial))
  = failed "Failed to load product"
  /\ exists panel,
      views (handle (Resolve "1" (inl "Failed to load product")) (run [Visit "1"] initial))
      = (Normal panel, ProductImage (failed "Failed to load product"))
      /\ metaValues panel = ["N/A"; ""; ""; "⭐ "].
Proof. apply (failure_surfaced (run [Visit "1"] initial) "1"); reflexivity. Defined.

