(* ===== verification/App.v ===== *)
(** * The application: the catalogue and the product page over the stores

    The two stores side by side, driven by what a user does with the
    product cards: a click on the button of a card goes to the cart store
    through the handler of the card, a click on one of its links opens the
    product page with the [productId] of the link as the identity of the
    product store, and responses arrive for the requests in flight.  The
    links and their parameters are those [ProductCard] builds; that the
    product page takes the parameter as its identity follows section 6 of
    the specification (the router is not under [src/]). *)

From Stdlib Require Import ZArith QArith String List Bool Lia SpecFloat.
From S2P Require Import Prelude JsString Binary64 JsNumber IntegerText JsValue Product React.
From S2P Require Import UseProduct CartContext CartStore ProductCard ProductMeta ProductImage.
From S2P Require Import ProductInfo ProductDetail Storefront.
Import ListNotations.

Local Open Scope string_scope.
Local Open Scope Z_scope.

(** ** Links *)

(** The parameter [name] of a link: [params[name]]. *)
Definition link_param (name : string) (link : node) : option string :=
  match prop "params" link with
  | Some (PParams ps) => option_map snd (find (fun kv => String.eqb (fst kv) name) ps)
  | _ => None
  end.

(** The product identity a key of the product store stands for: the number
    its digits spell. *)
Definition key_id (k : string) : option number := option_map number_of_Z (parse_decimal k).

(** Following a link to the product page: the page mounts with the
    [productId] of the link as the identity it asks the product store
    for. *)
Definition follow (link : node) (s : ProductStore) : ProductStore :=
  match link_param "productId" link with
  | Some k => visit k s
  | None => s
  end.

(** A click on the [i]-th link of the card of [p]; a card that throws has
    no links. *)
Definition click_link (p : Product) (i : nat) (s : ProductStore) : ProductStore :=
  match ProductCard p with
  | Normal card =>
      match nth_error (by_type "Link" card) i with
      | Some link => follow link s
      | None => s
      end
  | Throw _ => s
  end.

(** ** The state and what happens to it *)

Record App : Type := mkApp {
  cartStore : Cart;
  productStore : ProductStore
}.

(** The application at its start: the empty cart, no product page. *)
Definition start : App := mkApp empty_cart initial.

Inductive action : Type :=
| ClickAdd (p : Product)
| ClickLink (p : Product) (i : nat)
| Store (e : event).

(** One action.  An event of the product store that is not enabled (a
    response nobody asked for) is skipped. *)
Definition act (a : action) (st : App) : App :=
  match a with
  | ClickAdd p => mkApp (click_card p (cartStore st)) (productStore st)
  | ClickLink p i => mkApp (cartStore st) (click_link p i (productStore st))
  | Store e => mkApp (cartStore st) (run [e] (productStore st))
  end.

Definition run_actions (acts : list action) (st : App) : App :=
  fold_left (fun s a => act a s) acts st.

(** ** What each store sees of a sequence of actions *)

(** The products whose button was clicked, in order. *)
Definition added (acts : list action) : list Product :=
  flat_map (fun a => match a with ClickAdd p => [p] | _ => [] end) acts.

(** The identity the [i]-th link of the card of [p] opens the product page
    with. *)
Definition link_key (p : Product) (i : nat) : option string :=
  match ProductCard p with
  | Normal card =>
      match nth_error (by_type "Link" card) i with
      | Some link => link_param "productId" link
      | None => None
      end
  | Throw _ => None
  end.

(** The events of the product store behind an action. *)
Definition events_of (a : action) : list event :=
  match a with
  | ClickAdd _ => []
  | ClickLink p i => match link_key p i with Some k => [Visit k] | None => [] end
  | Store e => [e]
  end.

(** [{ ...p, id: z }]: the product under another identity. *)
Definition with_id (z : Z) (p : Product) : Product := {|
  id := Some (number_of_Z z);
  title := title p;
  description := description p;
  category := category p;
  price := price p;
  rating := rating p;
  stock := stock p;
  brand := brand p;
  availabilityStatus := availabilityStatus p;
  returnPolicy := returnPolicy p;
  thumbnail := thumbnail p;
  images := images p
|}.

(** The invariant of the application: the invariants of its stores. *)
Definition app_ok (st : App) : Prop :=
  unique_lines (cartStore st) = true /\ store_ok (productStore st).

(** * Lemmas *)

(** ** Links *)

Lemma link_param_productLink (p : Product) (className : string) (children : list node) :
  link_param "productId" (productLink p className children) = Some (ToString (id p)).
Proof. reflexivity. Qed.

(** The links of a rendered card: the first two open the product page
    with [String(product.id)], and there is no third. *)
Lemma link_key_card (p : Product) (i : nat) :
  is_normal (ProductCard p) = true ->
  link_key p i = if (i <? 2)%nat then Some (ToString (id p)) else None.
Proof.
  unfold link_key. destruct (ProductCard p) as [card|e] eqn:E; [|discriminate]. intros _.
  destruct (ProductCard_links p card E) as (c1 & c2 & ->).
  destruct i as [|[|[|i]]]; reflexivity.
Qed.

(** The links of the card of a product without an identity open the
    product page with the text [undefined]. *)
Lemma link_key_missing_id (p : Product) :
  is_normal (ProductCard p) = true -> id p = None -> link_key p 0 = Some "undefined".
Proof. intros N I. rewrite link_key_card by exact N. now rewrite I. Qed.

Lemma link_key_throws (p : Product) (i : nat) :
  is_normal (ProductCard p) = false -> link_key p i = None.
Proof. unfold link_key. destruct (ProductCard p); [discriminate | reflexivity]. Qed.

Lemma click_link_key (p : Product) (i : nat) (s : ProductStore) :
  click_link p i s = match link_key p i with Some k => visit k s | None => s end.
Proof.
  unfold click_link, link_key, follow. destruct (ProductCard p) as [card|e]; [|reflexivity].
  destruct (nth_error _ i); reflexivity.
Qed.

(** The key of a non-negative integer identity below [10^15] reads back
    as the identity. *)
Lemma key_id_ToString (z : Z) :
  0 <= z < 10 ^ 15 -> key_id (ToString (Some (number_of_Z z))) = Some (number_of_Z z).
Proof.
  intros Hz. unfold key_id. cbn [ToString].
  now rewrite Number_toString_natural, parse_decimal_digits by lia.
Qed.

(** Different integers have different keys. *)
Lemma ToString_integer_inj (a b : Z) :
  0 <= a < 10 ^ 15 -> 0 <= b < 10 ^ 15 ->
  ToString (Some (number_of_Z a)) = ToString (Some (number_of_Z b)) -> a = b.
Proof.
  intros Ha Hb E. cbn [ToString] in E. rewrite !Number_toString_natural in E by lia.
  apply decimal_digits_inj in E; lia.
Qed.

(** ** The stores under a sequence of actions *)

Lemma run_actions_app (xs ys : list action) (st : App) :
  run_actions (xs ++ ys) st = run_actions ys (run_actions xs st).
Proof. apply fold_left_app. Qed.

Lemma act_cart (a : action) (st : App) :
  cartStore (act a st) = click_cards (added [a]) (cartStore st).
Proof. destruct a; reflexivity. Qed.

Lemma act_product (a : action) (st : App) :
  productStore (act a st) = run (events_of a) (productStore st).
Proof.
  destruct a as [p|p i|e]; cbn [act productStore events_of]; [reflexivity | | reflexivity].
  rewrite click_link_key. destruct (link_key p i); reflexivity.
Qed.

(** Each store sees its own actions only, in their order. *)
Lemma run_actions_stores (acts : list action) (st : App) :
  cartStore (run_actions acts st) = click_cards (added acts) (cartStore st)
  /\ productStore (run_actions acts st) = run (flat_map events_of acts) (productStore st).
Proof.
  revert st. induction acts as [|a acts IH]; intros st; [split; reflexivity|].
  cbn [run_actions fold_left]. destruct (IH (act a st)) as [C P].
  unfold run_actions in C, P. rewrite C, P, act_cart, act_product. split.
  - unfold click_cards, added. cbn [flat_map]. now rewrite app_nil_r, fold_left_app.
  - cbn [flat_map]. now rewrite UseProduct.run_app.
Qed.

Lemma app_ok_start : app_ok start.
Proof. split; [reflexivity | exact I]. Qed.

Lemma app_ok_run (acts : list action) (st : App) : app_ok st -> app_ok (run_actions acts st).
Proof.
  intros [U S]. destruct (run_actions_stores acts st) as [C P]. split.
  - rewrite C. exact (proj1 (click_cards_count (law := store_lawful) _ _ None U)).
  - rewrite P. now apply store_ok_run.
Qed.

#[export] Hint Resolve app_ok_start app_ok_run : js.

(** ** Opening the product page *)

(** A click on a link of the card of a product with a non-negative
    integer identity below [10^15] asks the product store for the digits
    of the identity. *)
Lemma click_link_opens (p : Product) (z : Z) (i : nat) (s : ProductStore) :
  is_normal (ProductCard p) = true -> id p = Some (number_of_Z z) -> 0 <= z < 10 ^ 15 ->
  (i < 2)%nat -> click_link p i s = visit (decimal_digits z) s.
Proof.
  intros N I Hz Hi. rewrite click_link_key, link_key_card by exact N.
  apply Nat.ltb_lt in Hi. rewrite Hi, I. cbn [ToString].
  now rewrite Number_toString_natural.
Qed.

(** Asking for a new identity starts a cycle: loading, with its request
    on its way. *)
Lemma visit_loading (k : string) (s : ProductStore) :
  key s <> Some k ->
  key (visit k s) = Some k /\ state (visit k s) = Loading /\ In k (in_flight (visit k s)).
Proof. intros H. rewrite visit_new by exact H. cbn. auto. Qed.

(** * Properties *)

(** C39: The identity survives the trip through the link: every link of a
    rendered card of a product whose identity is a non-negative integer
    below [10^15] carries the decimal digits of the identity as its
    [productId], and the digits read back as the identity.  So the cards
    of two such products with different identities open the product page
    with different keys. *)
Theorem link_identity_roundtrip (p : Product) (card link : node) (z : Z) :
  ProductCard p = Normal card -> id p = Some (number_of_Z z) -> 0 <= z < 10 ^ 15 ->
  In link (by_type "Link" card) ->
  link_param "productId" link = Some (decimal_digits z)
  /\ key_id (decimal_digits z) = id p
  /\ forall z', 0 <= z' < 10 ^ 15 -> decimal_digits z' = decimal_digits z -> z' = z.
Proof.
  intros E I Hz L. destruct (ProductCard_links p card E) as (c1 & c2 & El).
  rewrite El in L. repeat split.
  - destruct L as [<-|[<-|[]]]; rewrite link_param_productLink, I; cbn [ToString];
      now rewrite Number_toString_natural.
  - rewrite I, <- key_id_ToString by exact Hz. cbn [ToString].
    now rewrite Number_toString_natural.
  - intros z' Hz' D. apply decimal_digits_inj in D; lia.
Qed.

(** The application is the product of its stores: after any sequence
    of actions, the cart is the one the clicks on the buttons alone give
    and the product store the one the links and its own events alone give.
    The clicks on buttons and the navigation do not interfere, in whatever
    order they interleave. *)
Theorem stores_do_not_interfere (acts : list action) (st : App) :
  run_actions acts st
  = mkApp (click_cards (added acts) (cartStore st))
          (run (flat_map events_of acts) (productStore st)).
Proof.
  destruct (run_actions_stores acts st) as [C P].
  destruct (run_actions acts st) as [c s]. cbn in C, P. now subst.
Qed.

(** Whatever the user does from the start of the application, the
    cart has at most one line per product identity, the product store
    keeps its invariant and the accessor says exactly one of loading,
    error and data. *)
Theorem app_invariant (acts : list action) (k : option number) :
  app_ok (run_actions acts start)
  /\ (length (lines_of k (cartStore (run_actions acts start))) <= 1)%nat
  /\ exclusive (useProduct (productStore (run_actions acts start))) = true.
Proof.
  pose proof (app_ok_run acts start app_ok_start) as Ok. split; [exact Ok|]. split.
  - apply unique_lines_one, Ok.
  - apply result_of_exclusive.
Qed.

(** From the card to the product page: a click on a link of the card
    of a product with identity [z] starts a cycle for the digits of [z]
    unless the page is already on them; the accessor says loading, and the
    response for these digits is what the page then shows.  The cart is as
    it was. *)
Theorem open_product_page (p q : Product) (z : Z) (i : nat) (st : App) :
  is_normal (ProductCard p) = true -> id p = Some (number_of_Z z) -> 0 <= z < 10 ^ 15 ->
  (i < 2)%nat -> key (productStore st) <> Some (decimal_digits z) ->
  useProduct (productStore (run_actions [ClickLink p i] st)) = loading
  /\ useProduct (productStore (run_actions
       [ClickLink p i; Store (Resolve (decimal_digits z) (inr q))] st)) = loaded q
  /\ cartStore (run_actions
       [ClickLink p i; Store (Resolve (decimal_digits z) (inr q))] st) = cartStore st.
Proof.
  intros N I Hz Hi K. cbn [run_actions fold_left act productStore cartStore].
  rewrite (click_link_opens p z i _ N I Hz Hi).
  destruct (visit_loading _ _ K) as (K' & L' & F'). unfold useProduct.
  rewrite L', (run_current _ _ _ K' L' F'). repeat split.
Qed.

(** C40: The race of the specification, from the cards: the user opens the
    page of one product and, before its response, the page of another.
    When the first response arrives, asked for or not, the accessor still
    says loading, and the response of the second product is the one the
    page shows. *)
Theorem navigation_race
  (p p' : Product) (z z' : Z) (i j : nat) (r r' : response) (st : App) :
  is_normal (ProductCard p) = true -> is_normal (ProductCard p') = true ->
  id p = Some (number_of_Z z) -> id p' = Some (number_of_Z z') ->
  0 <= z < 10 ^ 15 -> 0 <= z' < 10 ^ 15 -> z <> z' -> (i < 2)%nat -> (j < 2)%nat ->
  useProduct (productStore (run_actions
    [ClickLink p i; ClickLink p' j; Store (Resolve (decimal_digits z) r)] st)) = loading
  /\ useProduct (productStore (run_actions
       [ClickLink p i; ClickLink p' j; Store (Resolve (decimal_digits z) r);
        Store (Resolve (decimal_digits z') r')] st)) = result_of (state_of_response r').
Proof.
  intros N N' I I' Hz Hz' D Hi Hj. cbn [run_actions fold_left act productStore cartStore].
  rewrite (click_link_opens p z i _ N I Hz Hi), (click_link_opens p' z' j _ N' I' Hz' Hj).
  assert (Dk : decimal_digits z <> decimal_digits z').
  { intros E. apply decimal_digits_inj in E; lia. }
  destruct (visit_loading (decimal_digits z') (visit (decimal_digits z) (productStore st)))
    as (K & L & F); [rewrite key_visit; congruence|].
  destruct (run_stale _ _ r _ K L F Dk) as (K1 & L1 & F1). unfold useProduct.
  rewrite L1, (run_current _ _ _ K1 L1 F1). split; reflexivity.
Qed.

(** * Witnesses *)

Lemma link_identity_roundtrip_witness :
  link_param "productId"
    (productLink ProductCardTest.mockProduct "titleLink"
       [Element "Card.Title" [] [Text "Test Product"]])
  = Some (decimal_digits 1)
  /\ key_id (decimal_digits 1) = id ProductCardTest.mockProduct
  /\ forall z', 0 <= z' < 10 ^ 15 -> decimal_digits z' = decimal_digits 1 -> z' = 1.
Proof.
  apply (link_identity_roundtrip ProductCardTest.mockProduct
           (match ProductCard ProductCardTest.mockProduct with Normal c => c | Throw _ => Nothing end)
           (productLink ProductCardTest.mockProduct "titleLink"
              [Element "Card.Title" [] [Text "Test Product"]]) 1);
    [reflexivity | reflexivity | split; [discriminate | reflexivity] |].
  vm_compute. right. left. reflexivity.
Defined.

Lemma open_product_page_witness :
  useProduct (productStore (run_actions [ClickLink ProductCardTest.mockProduct 1] start))
  = loading
  /\ useProduct (productStore (run_actions
       [ClickLink ProductCardTest.mockProduct 1;
        Store (Resolve (decimal_digits 1) (inr ProductMetaTest.mockProduct))] start))
     = loaded ProductMetaTest.mockProduct
  /\ cartStore (run_actions
       [ClickLink ProductCardTest.mockProduct 1;
        Store (Resolve (decimal_digits 1) (inr ProductMetaTest.mockProduct))] start)
     = cartStore start.
Proof.
  apply (open_product_page ProductCardTest.mockProduct ProductMetaTest.mockProduct 1 1 start);
    [reflexivity | reflexivity | split; [discriminate | reflexivity] | apply le_n | discriminate].
Defined.

Lemma navigation_race_witness :
  useProduct (productStore (run_actions
    [ClickLink ProductCardTest.mockProduct 0; ClickLink (with_id 2 ProductCardTest.mockProduct) 1;
     Store (Resolve (decimal_digits 1) (inr ProductCardTest.mockProduct))] start)) = loading
  /\ useProduct (productStore (run_actions
       [ClickLink ProductCardTest.mockProduct 0;
        ClickLink (with_id 2 ProductCardTest.mockProduct) 1;
        Store (Resolve (decimal_digits 1) (inr ProductCardTest.mockProduct));
        Store (Resolve (decimal_digits 2) (inl "Failed to load product"))] start))
     = result_of (state_of_response (inl "Failed to load product")).
Proof.
  apply (navigation_race ProductCardTest.mockProduct (with_id 2 ProductCardTest.mockProduct)
           1 2 0 1);
    try reflexivity; try (split; [discriminate | reflexivity]); try discriminate;
    [apply le_S, le_n | apply le_n].
Defined.
