(* ===== verification/TestingLibrary.v ===== *)
(** * The queries of the test files

    What the tests ask of a rendered component, on the element tree of
    [React.v]: [render], the queries of [@testing-library/react] that the
    five test files call ([getByText], [queryByText], [getByRole],
    [getByAltText], [getByTestId], [container.querySelector] with an
    attribute-substring selector) and the matchers of [jest-dom] they use.
    An element is identified by its position in the tree, as a DOM node is
    by reference.  A component of the UI kit stands for the one element it
    renders around its children, with the class it is given; that is what
    the mock of [Link] in the ProductCard test does.

    The second half of the file is the theory of the queries: the
    normalizer has a normal form, the matcher of regular expressions
    decides what a pattern denotes, and positions identify elements in a
    way that makes [toContainElement] containment in the tree. *)

From Stdlib Require Import ZArith String Ascii List Bool Lia.
From S2P Require Import Prelude JsString Binary64 JsNumber JsValue Product React.
Import ListNotations.

Local Open Scope string_scope.

(** ** Text *)

(** ASCII white space; the texts of the components have no other. *)
Definition is_space (c : ascii) : bool :=
  let n := nat_of_ascii c in
  (n =? 32)%nat || ((9 <=? n)%nat && (n <=? 13)%nat).

(** The words of [s] with one space between them: [started] says a word
    has been seen, [pending] that white space follows it. *)
Fixpoint words (s : string) (started pending : bool) : string :=
  match s with
  | EmptyString => EmptyString
  | String c s' =>
      if is_space c then words s' started started
      else if pending then String " " (String c (words s' true false))
      else String c (words s' true false)
  end.

(** The default normalizer: trim, and collapse white space. *)
Definition normalize (s : string) : string := words s false false.

(** No white space. *)
Definition no_space (c : ascii) : bool := negb (is_space c).

(** What the normalizer produces after a word ([word = true]) or at the
    start of the text: words of characters that are no white space, with
    one space between two words and none at either end. *)
Fixpoint tidy (s : string) (word : bool) : bool :=
  match s with
  | EmptyString => word
  | String c s' =>
      if is_space c then Ascii.eqb c " " && word && tidy s' false else tidy s' true
  end.

(** A text in the normalizer's form. *)
Definition normal_text (s : string) : bool :=
  match s with
  | EmptyString => true
  | _ => tidy s false
  end.

(** [s] without the prefix [p], when it starts with it. *)
Fixpoint strip_prefix (p s : string) : option string :=
  match p, s with
  | EmptyString, _ => Some s
  | String a p', String b s' => if Ascii.eqb a b then strip_prefix p' s' else None
  | String _ _, EmptyString => None
  end.

(** [s.includes(sub)]. *)
Fixpoint includes (sub s : string) : bool :=
  match strip_prefix sub s with
  | Some _ => true
  | None =>
      match s with
      | String _ s' => includes sub s'
      | EmptyString => false
      end
  end.

(** ** Matchers *)

(** The regular expressions of the tests: literal text and [.*]. *)
Inductive item : Type :=
| Lit (s : string)
| AnyStar.

Definition pattern : Type := list item.

(** [\n] and [\r], which [.] does not match. *)
Definition is_line_terminator (c : ascii) : bool :=
  let n := nat_of_ascii c in (n =? 10)%nat || (n =? 13)%nat.

(** The pattern matches a prefix of [s]. *)
Fixpoint match_here (p : pattern) (s : string) : bool :=
  match p with
  | [] => true
  | Lit l :: p' =>
      match strip_prefix l s with
      | Some s' => match_here p' s'
      | None => false
      end
  | AnyStar :: p' =>
      (fix star (s : string) : bool :=
         match_here p' s
         || match s with
            | String c s' => negb (is_line_terminator c) && star s'
            | EmptyString => false
            end) s
  end.

(** [regex.test(s)]: the pattern matches somewhere in [s]. *)
Fixpoint search (p : pattern) (s : string) : bool :=
  match_here p s
  || match s with
     | String _ s' => search p s'
     | EmptyString => false
     end.

(** The texts a pattern denotes: a literal denotes itself, [.*] any text
    without a line terminator, and a sequence the concatenations. *)
Inductive denotes : pattern -> string -> Prop :=
| denotes_end : denotes [] ""
| denotes_Lit (l : string) (p : pattern) (w : string) :
    denotes p w -> denotes (Lit l :: p) (l ++ w)
| denotes_AnyStar (u : string) (p : pattern) (w : string) :
    all_chars (fun c => negb (is_line_terminator c)) u = true ->
    denotes p w -> denotes (AnyStar :: p) (u ++ w).

(** A text matcher: a string, matched exactly, or a regular expression. *)
Inductive matcher : Type :=
| Exact (s : string)
| Regex (p : pattern).

Definition matches (m : matcher) (text : string) : bool :=
  match m with
  | Exact s => String.eqb (normalize text) s
  | Regex p => search p (normalize text)
  end.

(** The matcher accepts only texts with the character [c]. *)
Definition needs (c : ascii) (m : matcher) : bool :=
  match m with
  | Exact l => negb (lacks c l)
  | Regex (Lit (String c' _) :: _) => Ascii.eqb c c'
  | Regex _ => false
  end.

(** ** Elements and their positions *)

Definition path : Type := list nat.

(** The elements of a tree with their positions, in document order. *)
Fixpoint located (n : node) (here : path) : list (path * node) :=
  match n with
  | Element _ _ cs =>
      (here, n)
      :: (fix located_list (l : list node) (i : nat) : list (path * node) :=
            match l with
            | [] => []
            | c :: l' => (located c (here ++ [i]) ++ located_list l' (S i))%list
            end) cs O
  | _ => []
  end.

(** The node at a position below [n]: the path names a child at each
    step. *)
Fixpoint subtree (n : node) (p : path) : option node :=
  match p with
  | [] => Some n
  | i :: p' =>
      match n with
      | Element _ _ cs =>
          match nth_error cs i with
          | Some c => subtree c p'
          | None => None
          end
      | _ => None
      end
  end.

Definition is_element (n : node) : bool :=
  match n with
  | Element _ _ _ => true
  | _ => false
  end.

(** The elements of the children [cs] of the node at [here], the first of
    which is child number [i]. *)
Fixpoint located_children (here : path) (cs : list node) (i : nat) : list (path * node) :=
  match cs with
  | [] => []
  | c :: cs' => (located c (here ++ [i]) ++ located_children here cs' (S i))%list
  end.

(** [a.contains(b)] on trees: [b] is [a] or is inside a child of [a]. *)
Inductive contains : node -> node -> Prop :=
| contains_self (n : node) : contains n n
| contains_child (t : string) (ps : list (string * prop_value)) (cs : list node) (c m : node) :
    In c cs -> contains c m -> contains (Element t ps cs) m.

(** What [located] says of a tree: an element is at a position exactly
    when [subtree] finds it there. *)
Definition located_at (n : node) : Prop :=
  forall (here q : path) (m : node),
    In (q, m) (located n here) <->
    exists r, q = (here ++ r)%list /\ subtree n r = Some m /\ is_element m = true.

(** The own texts of the elements of a tree, with their positions. *)
Definition texts (root : node) : list (path * string) :=
  map (fun e => (fst e, own_text (snd e))) (located root []).

(** Where a matcher finds a text in a list of texts. *)
Definition hits (m : matcher) (l : list (path * string)) : list path :=
  map fst (filter (fun x => matches m (snd x)) l).

(** [render]: the tree, unless the component throws or renders nothing. *)
Definition render (c : completion node) : option node :=
  match c with
  | Normal (Element t ps cs) => Some (Element t ps cs)
  | _ => None
  end.

(** What a query finds. *)
Inductive found (A : Type) : Type :=
| One (a : A)
| Missing
| Several.

Arguments One {A} a.
Arguments Missing {A}.
Arguments Several {A}.

Definition single {A : Type} (l : list A) : found A :=
  match l with
  | [] => Missing
  | [a] => One a
  | _ => Several
  end.

Definition is_one {A : Type} (f : found A) : bool :=
  match f with One _ => true | _ => false end.

Definition is_missing {A : Type} (f : found A) : bool :=
  match f with Missing => true | _ => false end.

(** ** Queries *)

Definition attribute (name : string) (n : node) : option string :=
  match prop name n with
  | Some (PString v) => v
  | _ => None
  end.

(** [queryAllByText]: the elements whose own text matches. *)
Definition queryAllByText (m : matcher) (root : node) : list (path * node) :=
  filter (fun e => matches m (own_text (snd e))) (located root []).

(** [getByText] and [queryByText]: the first throws unless it finds one
    element, the second gives [null] when it finds none. *)
Definition byText (m : matcher) (root : node) : found (path * node) :=
  single (queryAllByText m root).

(** [getByRole('img')]: the images, but those with an empty [alt]. *)
Definition byRole_img (root : node) : found (path * node) :=
  single (filter (fun e => has_type "img" (snd e)
                           && negb (match attribute "alt" (snd e) with
                                    | Some a => String.eqb a EmptyString
                                    | None => false
                                    end))
                 (located root [])).

(** [getByRole('heading', { level: 1 })]. *)
Definition byRole_heading1 (root : node) : found (path * node) :=
  single (filter (fun e => has_type "h1" (snd e)) (located root [])).

Definition byAttribute (name : string) (m : matcher) (root : node) : found (path * node) :=
  single (filter (fun e => match attribute name (snd e) with
                           | Some v => matches m v
                           | None => false
                           end)
                 (located root [])).

(** [getByAltText] and [getByTestId]. *)
Definition byAltText (m : matcher) (root : node) : found (path * node) := byAttribute "alt" m root.

Definition byTestId (id : string) (root : node) : found (path * node) :=
  byAttribute "data-testid" (Exact id) root.

(** [container.querySelector('[class*="sub"]')]: the first element whose
    class contains [sub]. *)
Definition querySelector_class (sub : string) (root : node) : option (path * node) :=
  hd_error (filter (fun e => match attribute "className" (snd e) with
                             | Some c => includes sub c
                             | None => false
                             end)
                   (located root [])).

(** ** Matchers of jest-dom *)

Fixpoint is_prefix (p q : path) : bool :=
  match p, q with
  | [], _ => true
  | a :: p', b :: q' => (a =? b)%nat && is_prefix p' q'
  | _ :: _, [] => false
  end.

(** [expect(a).toContainElement(b)]. *)
Definition toContainElement (a : option (path * node)) (b : found (path * node)) : bool :=
  match a, b with
  | Some (p, _), One (q, _) => is_prefix p q
  | _, _ => false
  end.

(** [expect(e).toHaveAttribute(name, value)]. *)
Definition toHaveAttribute (e : found (path * node)) (name value : string) : bool :=
  match e with
  | One (_, n) =>
      match attribute name n with
      | Some v => String.eqb v value
      | None => false
      end
  | _ => false
  end.

(** [expect(e).toHaveTextContent(text)]. *)
Definition toHaveTextContent (e : found (path * node)) (text : string) : bool :=
  match e with
  | One (_, n) => includes text (normalize (textContent n))
  | _ => false
  end.

(** * Lemmas *)

(** The positions are those of the elements of [React.v]. *)
Lemma located_elements (n : node) (here : path) : map snd (located n here) = elements n.
Proof.
  revert here. induction n as [s|x| |t ps cs IH] using node_ind'; intros here; try reflexivity.
  cbn [located elements map]. f_equal. generalize 0%nat as i.
  induction IH as [|c cs' Hc _ IHcs]; intros i; [reflexivity|].
  rewrite map_app, Hc, IHcs. reflexivity.
Qed.

(** ** Prefixes and substrings *)

Lemma strip_prefix_spec (p s r : string) : strip_prefix p s = Some r <-> s = p ++ r.
Proof.
  revert s. induction p as [|a p IH]; intros s; cbn [strip_prefix append].
  - split; congruence.
  - destruct s as [|b s]; [split; discriminate|].
    destruct (Ascii.eqb_spec a b) as [->|N].
    + rewrite IH. split; congruence.
    + split; [discriminate | congruence].
Qed.

Lemma strip_prefix_app (p r : string) : strip_prefix p (p ++ r) = Some r.
Proof. now apply strip_prefix_spec. Qed.

(** [includes] finds [sub] exactly when it occurs. *)
Lemma includes_spec (sub s : string) :
  includes sub s = true <-> exists a b, s = a ++ sub ++ b.
Proof.
  induction s as [|c s IH]; cbn [includes].
  - destruct (strip_prefix sub "") as [r|] eqn:E.
    + apply strip_prefix_spec in E. split; [|reflexivity]. intros _. now exists "", r.
    + split; [discriminate|]. intros ([|x a] & b & H); [|discriminate].
      cbn [append] in H. rewrite H, strip_prefix_app in E. discriminate.
  - destruct (strip_prefix sub (String c s)) as [r|] eqn:E.
    + apply strip_prefix_spec in E. split; [|reflexivity]. intros _. now exists "", r.
    + rewrite IH. split.
      * intros (a & b & ->). now exists (String c a), b.
      * intros ([|x a] & b & H); cbn [append] in H.
        -- rewrite H, strip_prefix_app in E. discriminate.
        -- inversion H; subst. now exists a, b.
Qed.

(** A literal pattern is a search for a substring. *)
Lemma search_literal (l s : string) : search [Lit l] s = includes l s.
Proof.
  induction s as [|c s IH]; cbn [search includes match_here].
  - destruct (strip_prefix l ""); reflexivity.
  - rewrite IH. destruct (strip_prefix l (String c s)); reflexivity.
Qed.

(** ** Positions *)

Lemma is_prefix_spec (p q : path) : is_prefix p q = true <-> exists r, q = (p ++ r)%list.
Proof.
  revert q. induction p as [|a p IH]; intros q; cbn [is_prefix app].
  - split; eauto.
  - destruct q as [|b q]; [split; [discriminate | intros [r H]; discriminate]|].
    rewrite andb_true_iff, Nat.eqb_eq, IH. split.
    + intros [-> [r ->]]. now exists r.
    + intros [r H]. inversion H; subst. eauto.
Qed.

Lemma is_prefix_refl (p : path) : is_prefix p p = true.
Proof. apply is_prefix_spec. exists []. now rewrite app_nil_r. Qed.

(** ** The form of normalized text *)

Lemma tidy_weaken (s : string) : tidy s false = true -> tidy s true = true.
Proof. destruct s as [|c s]; [discriminate|]. cbn [tidy]. destruct (is_space c); [|auto]. now rewrite andb_false_r. Qed.

(** What [words] produces is in the normalizer's form, from any state in
    which white space is pending only after a word. *)
Lemma words_tidy (s : string) (started pending : bool) :
  (pending = true -> started = true) ->
  words s started pending = "" \/ tidy (words s started pending) started = true.
Proof.
  revert started pending. induction s as [|c s IH]; intros st pe H; [now left|].
  cbn [words]. destruct (is_space c) eqn:Sp; [apply IH; auto|]. right.
  assert (T : tidy (words s true false) true = true).
  { destruct (IH true false ltac:(discriminate)) as [->|T]; [reflexivity | exact T]. }
  destruct pe; [rewrite (H eq_refl)|]; cbn [tidy]; rewrite ?Sp; exact T.
Qed.

Lemma normalize_tidy (s : string) : normal_text (normalize s) = true.
Proof.
  unfold normalize. destruct (words_tidy s false false ltac:(discriminate)) as [->|T]; [reflexivity|].
  unfold normal_text. destruct (words s false false); [reflexivity | exact T].
Qed.

(** [words] leaves a text in the normalizer's form as it is, after the
    space that was pending. *)
Lemma words_fixed (s : string) :
  (tidy s true = true -> words s true false = s)
  /\ (tidy s false = true ->
      forall started pending,
        words s started pending = if pending then String " " s else s).
Proof.
  induction s as [|c s [IHa IHb]]; [split; [reflexivity | discriminate]|].
  cbn [tidy words]. destruct (is_space c) eqn:Sp.
  - split; [|rewrite andb_false_r; discriminate].
    intros H. apply andb_prop in H as [H T]. rewrite andb_true_r in H.
    apply Ascii.eqb_eq in H as ->. now rewrite IHb.
  - split; [intros T; now rewrite IHa|].
    intros T st pe. rewrite IHa by exact T. now destruct pe.
Qed.

Lemma normalize_fixed (s : string) : normal_text s = true -> normalize s = s.
Proof.
  unfold normalize. destruct s as [|c s]; [reflexivity|].
  intros T. now rewrite (proj2 (words_fixed _) T).
Qed.

Lemma normalize_idempotent (s : string) : normalize (normalize s) = normalize s.
Proof. apply normalize_fixed, normalize_tidy. Qed.

(** A word, then a text: the text continues after a word. *)
Lemma tidy_word (a t : string) (word : bool) :
  all_chars no_space a = true ->
  tidy (a ++ t) word = match a with EmptyString => tidy t word | _ => tidy t true end.
Proof.
  revert word. induction a as [|c a IH]; intros word H; [reflexivity|].
  cbn [all_chars] in H. apply andb_prop in H as [Hc Ha]. unfold no_space in Hc.
  apply negb_true_iff in Hc. cbn [append tidy]. rewrite Hc, (IH true Ha).
  now destruct a.
Qed.

(** ** Regular expressions *)

(** One step of [.*]: nothing, or a character and [.*] again. *)
Lemma match_here_AnyStar (p : pattern) (s : string) :
  match_here (AnyStar :: p) s =
  match_here p s
  || match s with
     | String c s' => negb (is_line_terminator c) && match_here (AnyStar :: p) s'
     | EmptyString => false
     end.
Proof. destruct s; reflexivity. Qed.

Lemma match_here_sound (p : pattern) (s : string) :
  match_here p s = true -> exists w r, s = w ++ r /\ denotes p w.
Proof.
  revert s. induction p as [|[l|] p IH]; intros s.
  - intros _. exists "", s. split; [reflexivity | constructor].
  - cbn [match_here]. destruct (strip_prefix l s) as [s'|] eqn:E; [|discriminate].
    apply strip_prefix_spec in E as ->. intros (w & r & -> & D)%IH.
    exists (l ++ w), r. split; [now rewrite append_assoc | now constructor].
  - induction s as [|c s IHs]; rewrite match_here_AnyStar; intros H;
      apply orb_prop in H as [H|H]; try discriminate.
    + apply IH in H as (w & r & -> & D). exists ("" ++ w), r.
      split; [reflexivity | now constructor].
    + apply IH in H as (w & r & -> & D). exists ("" ++ w), r.
      split; [reflexivity | now constructor].
    + apply andb_prop in H as [Hc (w & r & -> & D)%IHs]. inversion D; subst.
      exists (String c u ++ w0), r. split; [reflexivity|].
      constructor; [cbn [all_chars]; now rewrite Hc | assumption].
Qed.

Lemma match_here_complete (p : pattern) (w r : string) :
  denotes p w -> match_here p (w ++ r) = true.
Proof.
  intros D. induction D as [|l p w D IH|u p w U D IH]; [reflexivity| |].
  - cbn [match_here]. now rewrite append_assoc, strip_prefix_app.
  - induction u as [|c u IHu]; cbn [append]; rewrite match_here_AnyStar; [now rewrite IH|].
    cbn [all_chars] in U. apply andb_prop in U as [Hc U].
    rewrite Hc, (IHu U). apply orb_true_r.
Qed.

(** The matcher at a position decides the denotation: it accepts exactly
    the texts that start with a text the pattern denotes. *)
Lemma match_here_spec (p : pattern) (s : string) :
  match_here p s = true <-> exists w r, s = w ++ r /\ denotes p w.
Proof.
  split; [apply match_here_sound|]. intros (w & r & -> & D). now apply match_here_complete.
Qed.

(** [regex.test]: the pattern denotes a part of the text. *)
Lemma search_spec (p : pattern) (s : string) :
  search p s = true <-> exists a w b, s = a ++ w ++ b /\ denotes p w.
Proof.
  induction s as [|c s IH]; cbn [search]; rewrite orb_true_iff, match_here_spec.
  - split.
    + intros [(w & r & E & D)|H]; [|discriminate]. now exists "", w, r.
    + intros ([|x a] & w & b & E & D); [|discriminate]. left. now exists w, b.
  - rewrite IH. split.
    + intros [(w & r & E & D)|(a & w & b & -> & D)]; [now exists "", w, r|].
      now exists (String c a), w, b.
    + intros ([|x a] & w & b & E & D); [left; now exists w, b|].
      right. inversion E; subst. now exists a, w, b.
Qed.

(** ** Positions and subtrees *)

Lemma located_Element (t : string) (ps : list (string * prop_value)) (cs : list node) (here : path) :
  located (Element t ps cs) here = (here, Element t ps cs) :: located_children here cs 0.
Proof.
  cbn [located]. f_equal. generalize 0%nat as i.
  induction cs as [|c cs IH]; intros i; [reflexivity|].
  cbn [located_children]. now rewrite <- IH.
Qed.

Lemma subtree_app (n : node) (p r : path) :
  subtree n (p ++ r)%list = match subtree n p with Some a => subtree a r | None => None end.
Proof.
  revert n. induction p as [|i p IH]; intros n; [reflexivity|].
  cbn [app subtree]. destruct n as [| | |t ps cs]; try reflexivity.
  destruct (nth_error cs i); [apply IH | reflexivity].
Qed.

Lemma subtree_leaf (n m : node) (r : path) :
  is_element n = false -> subtree n r = Some m -> is_element m = false.
Proof.
  intros E S. destruct r; [inversion S; subst; exact E|].
  destruct n; discriminate.
Qed.

(** The elements of the children: those of child [j], below position
    [i + j]. *)
Lemma located_children_at (here : path) (cs : list node) (i : nat) (q : path) (m : node) :
  Forall located_at cs ->
  In (q, m) (located_children here cs i) <->
  exists j c r, nth_error cs j = Some c /\ q = (here ++ (i + j)%nat :: r)%list
                /\ subtree c r = Some m /\ is_element m = true.
Proof.
  intros H. revert i. induction H as [|c cs Hc _ IH]; intros i; cbn [located_children].
  - split; [intros [] | intros ([|j] & c & r & N & _); discriminate].
  - rewrite in_app_iff, (Hc _ _ _), IH. split.
    + intros [(r & -> & Hs & E)|(j & c' & r & N & -> & Hs & E)].
      * exists 0%nat, c, r. rewrite Nat.add_0_r, <- app_assoc. auto.
      * exists (S j), c', r. rewrite Nat.add_succ_r. auto.
    + intros ([|j] & c' & r & N & -> & Hs & E); cbn [nth_error] in N.
      * left. inversion N; subst. exists r. rewrite Nat.add_0_r, <- app_assoc. auto.
      * right. exists j, c', r. rewrite Nat.add_succ_r. auto.
Qed.

(** Where [located] puts an element is where [subtree] finds it. *)
Lemma located_spec (n : node) : located_at n.
Proof.
  induction n as [s|x| |t ps cs IH] using node_ind'; intros here q m;
    try (split; [intros [] | intros (r & _ & Hs & E);
                 apply subtree_leaf in Hs; [congruence | reflexivity]]).
  rewrite located_Element. cbn [In]. rewrite (located_children_at _ _ _ _ _ IH). split.
  - intros [H|(j & c & r & N & -> & Hs & E)].
    + inversion H; subst. exists []. now rewrite app_nil_r.
    + exists (j :: r). cbn [subtree]. now rewrite N.
  - intros ([|j r] & -> & Hs & E).
    + left. cbn in Hs. inversion Hs. now rewrite app_nil_r.
    + right. cbn [subtree] in Hs. destruct (nth_error cs j) as [c|] eqn:N; [|discriminate].
      now exists j, c, r.
Qed.

(** The position of an element of a child is below the child's. *)
Lemma located_children_below (here : path) (cs : list node) (i : nat) (q : path) (m : node) :
  In (q, m) (located_children here cs i) ->
  exists j r, q = (here ++ (i + j)%nat :: r)%list.
Proof.
  intros (j & c & r & _ & -> & _)%located_children_at; [eauto|].
  apply Forall_forall. intros ? _. apply located_spec.
Qed.

(** A position names one element. *)
Lemma located_functional (n : node) (here q : path) (m m' : node) :
  In (q, m) (located n here) -> In (q, m') (located n here) -> m = m'.
Proof.
  intros (r & -> & H & _)%located_spec (r' & E & H' & _)%located_spec.
  apply app_inv_head in E as <-. congruence.
Qed.

(** [contains] is reaching by a path. *)
Lemma subtree_contains (a b : node) : contains a b <-> exists r, subtree a r = Some b.
Proof.
  split.
  - induction 1 as [n|t ps cs c m Hc _ [r IH]]; [now exists []|].
    apply In_nth_error in Hc as [i Hi]. exists (i :: r). cbn [subtree]. now rewrite Hi.
  - intros [r H]. revert a H. induction r as [|i r IH]; intros a H.
    + inversion H. constructor.
    + destruct a as [| | |t ps cs]; try discriminate. cbn [subtree] in H.
      destruct (nth_error cs i) as [c|] eqn:N; [|discriminate].
      eapply contains_child; [eapply nth_error_In; eassumption | now apply IH].
Qed.

(** The elements found below [a] are the elements [a] contains. *)
Lemma located_contains (a b : node) (p : path) :
  (exists q, In (q, b) (located a p)) <-> contains a b /\ is_element b = true.
Proof.
  rewrite subtree_contains. split.
  - intros [q (r & _ & H & E)%located_spec]. eauto.
  - intros [[r H] E]. exists (p ++ r)%list. apply located_spec. eauto.
Qed.

(** Among the elements of a rendered tree, the position of [a] is a prefix
    of the position of [b] exactly when [b] is one of the elements below
    [a], at that position. *)
Lemma is_prefix_located (root a b : node) (p q : path) :
  In (p, a) (located root []) -> In (q, b) (located root []) ->
  is_prefix p q = true <-> In (q, b) (located a p).
Proof.
  intros (r1 & -> & Ha & _)%located_spec (r2 & -> & Hb & Eb)%located_spec.
  cbn [app]. rewrite is_prefix_spec, (located_spec a _ _ b). split.
  - intros [r ->]. exists r. rewrite subtree_app, Ha in Hb. auto.
  - intros (r & -> & _). now exists r.
Qed.

(** The positions of the elements of a tree are distinct. *)
Lemma located_children_NoDup (here : path) (cs : list node) (i : nat) :
  Forall (fun c => forall here, NoDup (map fst (located c here))) cs ->
  NoDup (map fst (located_children here cs i)).
Proof.
  intros H. revert i. induction H as [|c cs Hc _ IH]; intros i; [constructor|].
  cbn [located_children]. rewrite map_app. apply NoDup_app; [apply Hc | apply IH|].
  intros q [[q1 m] [<- (r & -> & _)%located_spec]]%in_map_iff
           [[q2 m'] [E (j & r' & ->)%located_children_below]]%in_map_iff.
  cbn [fst] in E. rewrite <- app_assoc in E. apply app_inv_head in E. inversion E. lia.
Qed.

Lemma located_NoDup (n : node) (here : path) : NoDup (map fst (located n here)).
Proof.
  revert here. induction n as [s|x| |t ps cs IH] using node_ind'; intros here;
    try solve [constructor].
  rewrite located_Element. cbn [map fst]. constructor; [|now apply located_children_NoDup].
  intros [[q m] [E (j & r & ->)%located_children_below]]%in_map_iff. cbn [fst] in E.
  rewrite <- (app_nil_r here) in E at 2. apply app_inv_head in E. discriminate.
Qed.

(** ** Characters of normalized text *)

(** The normalizer adds no character but the space. *)
Lemma all_chars_words (f : ascii -> bool) (s : string) (started pending : bool) :
  f " "%char = true -> all_chars f s = true -> all_chars f (words s started pending) = true.
Proof.
  intros Hsp. revert started pending. induction s as [|c s IH]; intros st pe H; [reflexivity|].
  cbn [all_chars] in H. apply andb_prop in H as [Hc Hs]. cbn [words].
  destruct (is_space c); [now apply IH|].
  destruct pe; cbn [all_chars]; now rewrite ?Hsp, Hc, IH.
Qed.

(** The characters of the text of a number are no white space. *)
Lemma number_char_no_space (c : ascii) : number_char c = true -> no_space c = true.
Proof. destruct c as [[] [] [] [] [] [] [] []]; (reflexivity || discriminate). Qed.

(** ** What matchers refuse *)

(** An exact matcher refuses a text that lacks one of its characters. *)
Lemma matches_Exact_lacks (c : ascii) (l t : string) :
  negb (Ascii.eqb " " c) = true -> lacks c t = true -> lacks c l = false ->
  matches (Exact l) t = false.
Proof.
  intros Hc Ht Hl. cbn [matches]. apply String.eqb_neq. intros E.
  apply (all_chars_words _ t false false Hc) in Ht. fold (normalize t) in Ht.
  unfold lacks in Hl. congruence.
Qed.

(** An exact matcher accepts its own text when that is in normal form. *)
Lemma matches_Exact_refl (l : string) : normal_text l = true -> matches (Exact l) l = true.
Proof. intros H. cbn [matches]. rewrite normalize_fixed by exact H. apply String.eqb_refl. Qed.

(** A pattern that starts with a character finds nothing in a text
    without that character. *)
Lemma search_needs_head (c : ascii) (l : string) (p : pattern) (s : string) :
  all_chars (fun x => negb (Ascii.eqb x c)) s = true -> search (Lit (String c l) :: p) s = false.
Proof.
  intros H. apply not_true_is_false. intros (a & w & b & -> & D)%search_spec.
  inversion D; subst. rewrite !all_chars_app in H. cbn [append all_chars] in H.
  rewrite Ascii.eqb_refl in H. cbn [negb andb] in H. now rewrite andb_false_r in H.
Qed.

(** So does a regular expression that starts with a character the text
    lacks. *)
Lemma matches_Regex_lacks (c : ascii) (l : string) (p : pattern) (s : string) :
  negb (Ascii.eqb " " c) = true -> lacks c s = true ->
  matches (Regex (Lit (String c l) :: p)) s = false.
Proof. intros Hc H. cbn [matches]. now apply search_needs_head, all_chars_words. Qed.

(** A matcher refuses a text that lacks a character it needs. *)
Lemma matches_needs (c : ascii) (m : matcher) (t : string) :
  negb (Ascii.eqb " " c) = true -> needs c m = true -> lacks c t = true -> matches m t = false.
Proof.
  intros Hc Hm Ht. destruct m as [l|[|[[|c' l]|] p]]; try discriminate.
  - apply (matches_Exact_lacks c); [assumption..|]. now apply negb_true_iff.
  - cbn [needs] in Hm. apply Ascii.eqb_eq in Hm as <-. now apply matches_Regex_lacks.
Qed.

(** ** What the queries return *)

Lemma single_One_In {A : Type} (l : list A) (a : A) : single l = One a -> In a l.
Proof. destruct l as [|x [|y l]]; try discriminate. intros [= ->]. now left. Qed.

(** A text query returns an element of the tree, whose own text matches. *)
Lemma byText_located (m : matcher) (root : node) (e : path * node) :
  byText m root = One e -> In e (located root []) /\ matches m (own_text (snd e)) = true.
Proof. intros H%single_One_In. now apply filter_In in H. Qed.

(** So does a class query, and the class of what it returns contains the
    text asked for. *)
Lemma querySelector_class_located (sub : string) (root : node) (e : path * node) :
  querySelector_class sub root = Some e ->
  In e (located root [])
  /\ exists c, attribute "className" (snd e) = Some c /\ includes sub c = true.
Proof.
  unfold querySelector_class. intros H.
  assert (I : In e (filter (fun e => match attribute "className" (snd e) with
                                     | Some c => includes sub c
                                     | None => false
                                     end) (located root []))).
  { destruct (filter _ _) as [|x l]; [discriminate|]. inversion H. now left. }
  apply filter_In in I as [I C]. split; [exact I|].
  destruct (attribute "className" (snd e)) as [c|]; [eauto | discriminate].
Qed.

(** ** toContainElement *)

(** On elements of a rendered tree, [toContainElement] holds exactly when
    the second is one of the elements below the first, at its position;
    the first then contains the second. *)
Lemma toContainElement_spec (root : node) (a b : path * node) :
  In a (located root []) -> In b (located root []) ->
  toContainElement (Some a) (One b) = true <-> In b (located (snd a) (fst a)).
Proof. destruct a as [p a], b as [q b]. cbn [toContainElement fst snd]. apply is_prefix_located. Qed.

Lemma toContainElement_contains (root : node) (a b : path * node) :
  In a (located root []) -> In b (located root []) ->
  toContainElement (Some a) (One b) = true -> contains (snd a) (snd b).
Proof.
  intros Ha Hb H. apply (toContainElement_spec root a b Ha Hb) in H.
  destruct b as [q b]. apply (located_contains (snd a) b (fst a)). eauto.
Qed.

(** ** Text queries through the own texts *)

(** A text query sees the own texts only: where it finds elements follows
    from the texts. *)
Lemma queryAllByText_texts (m : matcher) (root : node) :
  map fst (queryAllByText m root) = hits m (texts root).
Proof.
  unfold queryAllByText, hits, texts. induction (located root []) as [|[q e] l IH]; [reflexivity|].
  cbn [map filter fst snd]. destruct (matches m (own_text e)); cbn [map fst]; now rewrite IH.
Qed.

Lemma hits_cons (m : matcher) (q : path) (t : string) (l : list (path * string)) :
  hits m ((q, t) :: l) = if matches m t then q :: hits m l else hits m l.
Proof. unfold hits. cbn [filter snd]. now destruct (matches m t). Qed.

(** To compare what a matcher finds in two lists of texts: a text it
    refuses is skipped, a text at the head of both is kept; a text it
    accepts is found. *)
Lemma hits_skip (m : matcher) (q : path) (t : string) (l : list (path * string)) (k : list path) :
  matches m t = false -> hits m l = k -> hits m ((q, t) :: l) = k.
Proof. intros H <-. now rewrite hits_cons, H. Qed.

Lemma hits_keep (m : matcher) (q : path) (t : string) (l l' : list (path * string)) :
  hits m l = hits m l' -> hits m ((q, t) :: l) = hits m ((q, t) :: l').
Proof. intros H. now rewrite !hits_cons, H. Qed.

Lemma hits_take (m : matcher) (q : path) (t : string) (l : list (path * string)) (k : list path) :
  matches m t = true -> hits m l = k -> hits m ((q, t) :: l) = q :: k.
Proof. intros H <-. now rewrite hits_cons, H. Qed.

Create HintDb queries discriminated.
#[export] Hint Resolve hits_keep hits_skip hits_take : queries.

Lemma byText_at (m : matcher) (root : node) (q : path) :
  hits m (texts root) = [q] -> exists e, byText m root = One (q, e).
Proof.
  rewrite <- queryAllByText_texts. unfold byText.
  destruct (queryAllByText m root) as [|[q' e] [|]]; try discriminate.
  intros [= ->]. now exists e.
Qed.

Lemma byText_none (m : matcher) (root : node) : hits m (texts root) = [] -> byText m root = Missing.
Proof.
  rewrite <- queryAllByText_texts. unfold byText. now destruct (queryAllByText m root).
Qed.

Lemma byText_several (m : matcher) (root : node) (q q' : path) (l : list path) :
  hits m (texts root) = q :: q' :: l -> byText m root = Several.
Proof.
  rewrite <- queryAllByText_texts. unfold byText.
  now destruct (queryAllByText m root) as [|x [|y [|z k]]].
Qed.

(** * Properties *)




(** * Witnesses *)

