(* ===== verification/Tests.v ===== *)
(** * The test files

    Each [it] of the five test files under [src/] as a boolean: the
    conjunction of its expectations, evaluated on the model of the
    component with the queries of [TestingLibrary.v].  A test that would
    fail because the component throws is [false]. *)

From Stdlib Require Import ZArith String List Bool.
From S2P Require Import Prelude JsString Binary64 JsNumber JsValue Product React UseProduct.
From S2P Require Import ProductCard ProductMeta ProductImage ProductInfo ProductDetail.
From S2P Require Import TestingLibrary.
Import ListNotations.

Local Open Scope string_scope.

(** [render(...)] followed by the expectations on what it rendered. *)
Definition rendering (c : completion node) (expectations : node -> bool) : bool :=
  match render c with
  | Some root => expectations root
  | None => false
  end.

Definition is_some {A : Type} (o : option A) : bool :=
  match o with Some _ => true | None => false end.

(** Every test of a file passes. *)
Definition all_pass (tests : list bool) : bool := forallb (fun b => b) tests.

(** ** ProductCard.test.tsx *)

Module ProductCardTests.

Import ProductCardTest.

Definition stock_indicator_and_button_in_same_section : bool :=
  rendering (rendered_card mockProduct) (fun root =>
    let actionsSection := querySelector_class "actions" root in
    let stockIndicator := byText (Exact "Only 5 left!") root in
    is_some actionsSection && is_one stockIndicator
    && toContainElement actionsSection stockIndicator).

Definition button_in_actions_section : bool :=
  rendering (rendered_card mockProduct) (fun root =>
    let addToCartButton := byText (Exact "Add to Cart") root in
    let actionsSection := querySelector_class "actions" root in
    is_one addToCartButton && toContainElement actionsSection addToCartButton).

Definition in_stock_for_sufficient_stock : bool :=
  rendering (rendered_card highStockProduct) (fun root =>
    is_one (byText (Exact "In Stock") root)
    && is_missing (byText (Regex [Lit "Only"; AnyStar; Lit "left!"]) root)).

Definition only_x_left_for_low_stock : bool :=
  rendering (rendered_card mockProduct) (fun root =>
    is_one (byText (Exact "Only 5 left!") root)
    && is_missing (byText (Exact "In Stock") root)).

Definition actionsContent_wraps_stock_and_button : bool :=
  rendering (rendered_card mockProduct) (fun root =>
    let actionsContent := querySelector_class "actionsContent" root in
    let stockIndicator := byText (Exact "Only 5 left!") root in
    let button := byText (Exact "Add to Cart") root in
    is_some actionsContent
    && toContainElement actionsContent stockIndicator
    && toContainElement actionsContent button).

Definition all : list bool :=
  [stock_indicator_and_button_in_same_section; button_in_actions_section;
   in_stock_for_sufficient_stock; only_x_left_for_low_stock;
   actionsContent_wraps_stock_and_button].

End ProductCardTests.

(** ** ProductMeta.test.tsx *)

Module ProductMetaTests.

Import ProductMetaTest.

Definition displays_all_metadata_fields : bool :=
  rendering (ProductMeta (loaded mockProduct)) (fun root =>
    forallb (fun t => is_one (byText (Exact t) root))
      ["Brand"; "Category"; "Stock"; "Rating"; "TestBrand"; "Electronics"; "10"]
    && is_one (byText (Regex [Lit "⭐ 4.5"]) root)).

Definition formats_rating_to_1_decimal_place : bool :=
  rendering (ProductMeta (loaded (with_rating (number_of_decimal 4567 (-3))))) (fun root =>
    is_one (byText (Regex [Lit "⭐ 4.6"]) root)).

Definition renders_when_loading : bool :=
  rendering (ProductMeta loading) (fun _ => true).

Definition renders_when_there_is_an_error : bool :=
  rendering (ProductMeta (failed "Failed to load product")) (fun _ => true).

Definition displays_NA_when_brand_is_missing : bool :=
  rendering (ProductMeta (loaded without_brand)) (fun root =>
    is_one (byText (Exact "N/A") root)).

Definition handles_undefined_product_data : bool :=
  rendering (ProductMeta idle) (fun _ => true).

Definition handles_partial_product_data : bool :=
  rendering (ProductMeta (loaded partial_product)) (fun root =>
    forallb (fun t => is_one (byText (Exact t) root)) ["Test Category"; "5"; "N/A"]).

Definition all : list bool :=
  [displays_all_metadata_fields; formats_rating_to_1_decimal_place; renders_when_loading;
   renders_when_there_is_an_error; displays_NA_when_brand_is_missing;
   handles_undefined_product_data; handles_partial_product_data].

End ProductMetaTests.

(** ** ProductImage.test.tsx *)

Module ProductImageTests.

Import ProductImageTest.

Definition displays_the_first_image : bool :=
  rendering (Normal (ProductImage (loaded mockProduct))) (fun root =>
    let image := byRole_img root in
    is_one image
    && toHaveAttribute image "src" "https://example.com/image1.jpg"
    && toHaveAttribute image "alt" "Test Product").

Definition falls_back_to_thumbnail_when_images_is_empty : bool :=
  rendering (Normal (ProductImage (loaded (with_images (Some []) mockProduct)))) (fun root =>
    let image := byRole_img root in
    is_one image && toHaveAttribute image "src" "https://example.com/thumb.jpg").

Definition uses_alt_text_from_title : bool :=
  rendering (Normal (ProductImage (loaded mockProduct))) (fun root =>
    is_one (byAltText (Exact "Test Product") root)).

Definition renders_when_loading : bool :=
  rendering (Normal (ProductImage loading)) (fun _ => true).

Definition renders_when_there_is_an_error : bool :=
  rendering (Normal (ProductImage (failed "Failed to load product"))) (fun _ => true).

Definition handles_undefined_product_data : bool :=
  rendering (Normal (ProductImage idle)) (fun _ => true).

Definition handles_missing_images : bool :=
  rendering (Normal (ProductImage (loaded (with_images None mockProduct)))) (fun root =>
    toHaveAttribute (byRole_img root) "src" "https://example.com/thumb.jpg").

Definition handles_missing_images_and_thumbnail : bool :=
  rendering (Normal (ProductImage (loaded (without_images_and_thumbnail mockProduct))))
    (fun _ => true).

Definition all : list bool :=
  [displays_the_first_image; falls_back_to_thumbnail_when_images_is_empty;
   uses_alt_text_from_title; renders_when_loading; renders_when_there_is_an_error;
   handles_undefined_product_data; handles_missing_images;
   handles_missing_images_and_thumbnail].

End ProductImageTests.

(** ** ProductInfo.test.tsx *)

Module ProductInfoTests.

Import ProductInfoTest.

Definition displays_title_price_and_description : bool :=
  rendering (ProductInfo (loaded mockProduct)) (fun root =>
    is_one (byText (Exact "Test Product") root)
    && toHaveTextContent (byRole_heading1 root) "Test Product"
    && is_one (byText (Exact "$99.99") root)
    && is_one (byText (Exact "This is a test product description") root)).

Definition formats_price_to_2_decimal_places : bool :=
  rendering (ProductInfo (loaded (with_price (number_of_Z 100)))) (fun root =>
    is_one (byText (Exact "$100.00") root)).

Definition renders_when_loading : bool :=
  rendering (ProductInfo loading) (fun _ => true).

Definition renders_when_there_is_an_error : bool :=
  rendering (ProductInfo (failed "Failed to load product")) (fun _ => true).

Definition handles_undefined_product_data : bool :=
  rendering (ProductInfo idle) (fun _ => true).

Definition handles_partial_product_data : bool :=
  rendering (ProductInfo (loaded partial_product)) (fun root =>
    is_one (byText (Exact "Partial Product") root)
    && is_one (byText (Exact "$49.99") root)).

Definition all : list bool :=
  [displays_title_price_and_description; formats_price_to_2_decimal_places;
   renders_when_loading; renders_when_there_is_an_error; handles_undefined_product_data;
   handles_partial_product_data].

End ProductInfoTests.

(** ** ProductDetail.test.tsx *)

Module ProductDetailTests.

Import ProductDetailTest.

Definition renders_all_child_components : bool :=
  rendering (ProductDetail mocks) (fun root =>
    forallb (fun id => is_one (byTestId id root))
      ["product-navigation"; "product-image"; "product-info"; "product-meta";
       "product-actions"]).

Definition maintains_structure_with_container_and_sections : bool :=
  rendering (ProductDetail mocks) (fun root =>
    is_some (querySelector_class "container" root)
    && is_some (querySelector_class "product" root)
    && is_some (querySelector_class "infoSection" root)).

Definition all : list bool :=
  [renders_all_child_components; maintains_structure_with_container_and_sections].

End ProductDetailTests.

(** * Properties *)




(** The six tests of the ProductInfo test file pass on the model of
    the component. *)
Theorem ProductInfo_tests_pass : all_pass ProductInfoTests.all = true.
Proof. vm_compute. reflexivity. Qed.

(** The two tests of the ProductDetail test file pass on the model of
    the component, with the mocks of the test as its panels. *)
Theorem ProductDetail_tests_pass : all_pass ProductDetailTests.all = true.
Proof. vm_compute. reflexivity. Qed.
