(* ===== verification/CardLayout.v ===== *)
(** * The layout of the card, for every product

    The test file of ProductCard checks on one product that the stock
    indicator and the "Add to Cart" button are in the same section and that
    the indicator has the right text.  This file shows the same of every
    product for which the card renders: the queries of the tests, run on
    the card of any product whose title is none of the texts they look
    for, find the indicator and the button once each, inside the element
    the section queries find. *)

From Stdlib Require Import ZArith String Ascii List Bool Lia.
From S2P Require Import Prelude JsString Binary64 JsNumber JsValue Product React CartContext.
From S2P Require Import ProductCard TestingLibrary.
Import ListNotations.

Local Open Scope string_scope.

Import ProductCardTest.

(** The text of the title element of the card. *)
Definition title_text (p : Product) : string := textContent (child_of_string (title p)).

(** [/Only.*left!/]. *)
Definition only_left : pattern := [Lit "Only"; AnyStar; Lit "left!"].

(** The matchers the tests of the card use on a card of [p]. *)
Definition card_matchers (p : Product) : list matcher :=
  [Exact (stockLabel p); Exact "Add to Cart"; Exact "In Stock"; Regex only_left].

(** The title is none of the texts the tests look for. *)
Definition title_clear (p : Product) : bool :=
  forallb (fun m => negb (matches m (title_text p))) (card_matchers p).

(** A text with none of the capitals that the matchers of the tests need. *)
Definition plain (t : string) : bool := lacks "O" t && lacks "S" t && lacks "A" t.

(** * Lemmas *)

(** The card as a list of texts: what the tests of the card can see of a
    product with that title, stars, rating, price and stock label. *)
Lemma rendered_card_texts (p : Product) (dom : node) :
  rendered_card p = Normal dom ->
  exists s r pr,
    stars p = Normal s /\ ratingCount p = Normal r /\ priceText p = Normal pr
    /\ texts dom =
       [([], ""); ([0], ""); ([0; 0], ""); ([0; 0; 0], "");
        ([1], ""); ([1; 0], ""); ([1; 0; 0], title_text p);
        ([1; 1], ""); ([1; 1; 0], s); ([1; 1; 1], "(" ++ r ++ ")");
        ([1; 2], ""); ([1; 2; 0], "$" ++ pr);
        ([2], ""); ([2; 0], ""); ([2; 0; 0], stockLabel p); ([2; 0; 1], "Add to Cart")]%nat.
Proof.
  unfold rendered_card, ProductCard_element, ProductCard, title_text. cbn [product].
  destruct (stars p) as [s|]; [|discriminate].
  destruct (ratingCount p) as [r|]; [|discriminate].
  destruct (priceText p) as [pr|]; [|discriminate].
  cbn [bind]. intros <-%Normal_inj. exists s, r, pr. repeat split.
  destruct (title p); reflexivity.
Qed.

(** ** The stock label *)

(** The stock label is in the normalizer's form: the query for it looks
    for the text as it is. *)
Lemma stockLabel_normal (p : Product) : normal_text (stockLabel p) = true.
Proof.
  destruct (stockLabel_cases p) as [[_ ->]|[_ (x & _ & ->)]]; [reflexivity|].
  change (tidy (Number_toString x ++ " left!") false = true).
  rewrite tidy_word.
  - pose proof (Number_toString_nonempty x). now destruct (Number_toString x).
  - eapply all_chars_impl; [apply number_char_no_space | apply Number_toString_chars].
Qed.

Lemma stockLabel_lacks_A (p : Product) : lacks "A" (stockLabel p) = true.
Proof.
  destruct (stockLabel_cases p) as [[_ ->]|[_ (x & _ & ->)]]; [reflexivity|].
  rewrite !lacks_app, (number_text_lacks "A" _ eq_refl (Number_toString_chars x)). reflexivity.
Qed.

(** ** What the matchers of the tests refuse *)

(** Every matcher of the tests needs one of the three capitals. *)
Lemma card_matchers_need (p : Product) (m : matcher) :
  In m (card_matchers p) -> needs "O" m = true \/ needs "S" m = true \/ needs "A" m = true.
Proof.
  intros [<-|[<-|[<-|[<-|[]]]]]; auto.
  destruct (stockLabel_cases p) as [[_ E]|[_ (x & _ & E)]]; cbn [needs]; rewrite E; auto.
Qed.

Lemma plain_refused (p : Product) (m : matcher) (t : string) :
  In m (card_matchers p) -> plain t = true -> matches m t = false.
Proof.
  intros Hm [[HO HS]%andb_prop HA]%andb_prop.
  destruct (card_matchers_need p m Hm) as [H|[H|H]];
    eapply matches_needs; try eassumption; reflexivity.
Qed.

Lemma plain_number_text (a t b : string) :
  plain a = true -> plain b = true -> all_chars number_char t = true -> plain (a ++ t ++ b) = true.
Proof.
  unfold plain. intros [[A1 A2]%andb_prop A3]%andb_prop [[B1 B2]%andb_prop B3]%andb_prop H.
  now rewrite !lacks_app, (number_text_lacks "O" t eq_refl H), (number_text_lacks "S" t eq_refl H),
    (number_text_lacks "A" t eq_refl H), A1, A2, A3, B1, B2, B3.
Qed.

Lemma plain_stars (k : nat) : plain (repeat_string "⭐" k) = true.
Proof. unfold plain, lacks. now rewrite !all_chars_repeat. Qed.

(** What a text query of the tests finds in the card follows from what its
    matcher says of the title, of the stock label and of the text of the
    button. *)
Lemma card_query (p : Product) (dom : node) (m : matcher) :
  rendered_card p = Normal dom -> In m (card_matchers p) ->
  hits m (texts dom)
  = hits m [([1; 0; 0], title_text p); ([2; 0; 0], stockLabel p); ([2; 0; 1], "Add to Cart")]%nat.
Proof.
  intros (s & r & pr & Es & Er & Ep & ->)%rendered_card_texts Hm.
  apply stars_glyphs in Es as [k ->].
  pose proof (plain_refused p m _ Hm (plain_stars k)) as H1.
  pose proof (plain_refused p m _ Hm
                (plain_number_text "(" r ")" eq_refl eq_refl (ratingCount_chars _ _ Er))) as H2.
  pose proof (plain_refused p m _ Hm
                (plain_number_text "$" pr "" eq_refl eq_refl (priceText_chars _ _ Ep))) as H3.
  rewrite append_nil_r in H3.
  pose proof (plain_refused p m "" Hm eq_refl) as H0.
  auto 20 with queries.
Qed.

(** A clear title is refused by every matcher of the tests. *)
Lemma title_refused (p : Product) (m : matcher) :
  title_clear p = true -> In m (card_matchers p) -> matches m (title_text p) = false.
Proof.
  unfold title_clear. rewrite forallb_forall. intros H Hm. now apply negb_true_iff, H.
Qed.

(** ** The sections *)

(** The two section queries of the tests find the same element, the
    wrapper of the stock indicator and the button. *)
Lemma rendered_card_sections (p : Product) (dom : node) :
  rendered_card p = Normal dom ->
  exists a, querySelector_class "actions" dom = Some ([2; 0]%nat, a)
            /\ querySelector_class "actionsContent" dom = Some ([2; 0]%nat, a).
Proof.
  unfold rendered_card, ProductCard_element, ProductCard. cbn [product].
  destruct (stars p), (ratingCount p), (priceText p); try discriminate.
  cbn [bind]. intros <-%Normal_inj. destruct (title p); eexists; split; reflexivity.
Qed.

(** What the matchers of the tests say of the stock label and of the text
    of the button. *)
Lemma label_matcher (p : Product) :
  matches (Exact (stockLabel p)) (stockLabel p) = true
  /\ matches (Exact (stockLabel p)) "Add to Cart" = false
  /\ matches (Exact "Add to Cart") (stockLabel p) = false.
Proof.
  split; [apply matches_Exact_refl, stockLabel_normal|]. split.
  - destruct (stockLabel_cases p) as [[_ ->]|[_ (x & _ & ->)]]; [reflexivity|].
    now apply (matches_Exact_lacks "O").
  - apply (matches_Exact_lacks "A"); [reflexivity | apply stockLabel_lacks_A | reflexivity].
Qed.

Lemma other_label_matcher (p : Product) :
  let m := if isLowStock p then Exact "In Stock" else Regex only_left in
  In m (card_matchers p) /\ matches m (stockLabel p) = false /\ matches m "Add to Cart" = false.
Proof.
  destruct (stockLabel_cases p) as [[-> ->]|[-> (x & _ & ->)]]; cbv zeta.
  - repeat split; cbn; auto.
  - split; [cbn; auto|]. split; [|reflexivity].
    apply (matches_Exact_lacks "S"); [reflexivity| |reflexivity].
    now rewrite !lacks_app, (number_text_lacks "S" _ eq_refl (Number_toString_chars x)).
Qed.

(** * Properties *)

(** C15: The layout that the tests of the card check on one product holds
    for every product: whenever the card renders and its title is none of
    the texts the tests look for, the stock indicator and the button are
    found by their texts, each once, inside the element that the query for
    the actions section finds and inside the one that the query for its
    content finds, which contain them in the tree, and the other stock
    label is not in the card. *)
Theorem stock_indicator_alignment (p : Product) (dom : node) :
  rendered_card p = Normal dom -> title_clear p = true ->
  exists actions content indicator button,
    querySelector_class "actions" dom = Some actions
    /\ querySelector_class "actionsContent" dom = Some content
    /\ byText (Exact (stockLabel p)) dom = One indicator
    /\ byText (Exact "Add to Cart") dom = One button
    /\ forallb (fun section => toContainElement (Some section) (One indicator)
                               && toContainElement (Some section) (One button))
         [actions; content] = true
    /\ Forall (fun section => contains (snd section) (snd indicator)
                              /\ contains (snd section) (snd button)) [actions; content]
    /\ byText (if isLowStock p then Exact "In Stock" else Regex only_left) dom = Missing.
Proof.
  intros H T. destruct (rendered_card_sections p dom H) as (a & Qa & Qc).
  destruct (label_matcher p) as (L1 & L2 & L3).
  destruct (other_label_matcher p) as (Om & O1 & O2).
  pose proof (card_query p dom _ H (or_introl eq_refl)) as Q1.
  pose proof (card_query p dom _ H (or_intror (or_introl eq_refl))) as Q2.
  pose proof (card_query p dom _ H Om) as Q3.
  rewrite !hits_cons in Q1, Q2, Q3.
  rewrite (title_refused p _ T (or_introl eq_refl)), L1, L2 in Q1.
  rewrite (title_refused p _ T (or_intror (or_introl eq_refl))), L3 in Q2.
  rewrite (title_refused p _ T Om), O1, O2 in Q3.
  apply byText_at in Q1 as [e1 Q1]. apply byText_at in Q2 as [e2 Q2].
  apply byText_none in Q3.
  pose proof (proj1 (querySelector_class_located _ _ _ Qa)) as Ia.
  pose proof (proj1 (byText_located _ _ _ Q1)) as I1.
  pose proof (proj1 (byText_located _ _ _ Q2)) as I2.
  exists ([2; 0]%nat, a), ([2; 0]%nat, a), ([2; 0; 0]%nat, e1), ([2; 0; 1]%nat, e2).
  repeat split; auto; repeat constructor; eapply toContainElement_contains; eauto.
Qed.

(** The hypothesis on the title is needed: in the card of a product whose
    title is the text of the button, the query for the button finds two
    elements, and [getByText] throws. *)
Lemma title_collision (p : Product) (dom : node) :
  rendered_card p = Normal dom -> title p = Some "Add to Cart" ->
  byText (Exact "Add to Cart") dom = Several.
Proof.
  intros H T. pose proof (card_query p dom _ H (or_intror (or_introl eq_refl))) as Q.
  rewrite !hits_cons in Q. unfold title_text in Q.
  rewrite T, (proj2 (proj2 (label_matcher p))) in Q. now apply byText_several in Q.
Qed.

(** * Witnesses *)

Lemma stock_indicator_alignment_witness :
  exists actions content indicator button,
    querySelector_class "actions"
      (match rendered_card mockProduct with Normal d => d | Throw _ => Nothing end)
    = Some actions
    /\ querySelector_class "actionsContent"
         (match rendered_card mockProduct with Normal d => d | Throw _ => Nothing end)
       = Some content
    /\ byText (Exact (stockLabel mockProduct))
         (match rendered_card mockProduct with Normal d => d | Throw _ => Nothing end)
       = One indicator
    /\ byText (Exact "Add to Cart")
         (match rendered_card mockProduct with Normal d => d | Throw _ => Nothing end)
       = One button
    /\ forallb (fun section => toContainElement (Some section) (One indicator)
                               && toContainElement (Some section) (One button))
         [actions; content] = true
    /\ Forall (fun section => contains (snd section) (snd indicator)
                              /\ contains (snd section) (snd button)) [actions; content]
    /\ byText (if isLowStock mockProduct then Exact "In Stock" else Regex only_left)
         (match rendered_card mockProduct with Normal d => d | Throw _ => Nothing end)
       = Missing.
Proof.
  apply (stock_indicator_alignment mockProduct); vm_compute; reflexivity.
Defined.
