(* ===== verification/PanelQueries.v ===== *)
(** * The queries of the panel tests, for every result of the hook

    The test files of ProductImage and ProductMeta run their queries on a
    few fixtures.  This file shows what the same queries find for every
    result of the hook: [getByRole('img')] finds the image with its [src]
    and [alt] unless the title is the empty string; [getByText] finds each
    label of the meta panel once, in the first cell of its row, and the
    rating expression finds the rating once, in the second cell of the
    last row, as long as neither the brand nor the category reads as what
    is looked for. *)

From Stdlib Require Import ZArith String Ascii List Bool Lia.
From S2P Require Import Prelude JsString Binary64 JsNumber JsValue Product React UseProduct.
From S2P Require Import ProductMeta ProductImage TestingLibrary.
Import ListNotations.

Local Open Scope string_scope.

(** What the first test of ProductImage checks, for a result of the hook
    and the [src] and [alt] the test expects. *)
Definition image_checks (hook : UseProductResult) (src alt : string) : bool :=
  let image := byRole_img (ProductImage hook) in
  is_one image && toHaveAttribute image "src" src && toHaveAttribute image "alt" alt.

(** The labels of the panel, as the tests look for them. *)
Definition meta_labels : list string := ["Brand"; "Category"; "Stock"; "Rating"].

(** [/⭐ 4\.5/], for the rating text [s] in place of [4.5]. *)
Definition rating_pattern (s : string) : pattern := [Lit ("⭐ " ++ s)].

(** The texts of the brand, of the category and of the rating. *)
Definition brand_text (hook : UseProductResult) : string :=
  textContent (child_of_string (brandLabel (data hook))).

Definition category_text (hook : UseProductResult) : string :=
  textContent (child_of_string (optional (data hook) category)).

Definition rating_text (r : option string) : string :=
  "⭐ " ++ textContent (child_of_string r).

(** The matchers refuse the brand and the category. *)
Definition values_clear (hook : UseProductResult) (ms : list matcher) : bool :=
  forallb (fun m => negb (matches m (brand_text hook)) && negb (matches m (category_text hook)))
    ms.

(** The texts of the panel but for the stock. *)
Definition meta_cells (hook : UseProductResult) (r : option string) : list (path * string) :=
  [([0; 0], "Brand"); ([0; 1], brand_text hook);
   ([1; 0], "Category"); ([1; 1], category_text hook);
   ([2; 0], "Stock"); ([3; 0], "Rating"); ([3; 1], rating_text r)]%nat.

(** * Lemmas *)

(** ** ProductImage *)

Lemma toHaveAttribute_iff (q : path) (e : node) (name value : string) :
  toHaveAttribute (One (q, e)) name value = true <-> attribute name e = Some value.
Proof.
  cbn [toHaveAttribute]. destruct (attribute name e) as [v|]; [|split; discriminate].
  rewrite String.eqb_eq. split; congruence.
Qed.

(** [getByRole('img')] on the panel: the image, unless its [alt] is the
    empty string, which takes the role away. *)
Lemma ProductImage_by_role (hook : UseProductResult) :
  byRole_img (ProductImage hook)
  = match optional (data hook) title with
    | Some EmptyString => Missing
    | _ => One ([0%nat], Element "img" [("src", PString (imageSrc (data hook)));
                                        ("alt", PString (optional (data hook) title));
                                        ("className", PString (Some "image"))] [])
    end.
Proof.
  unfold byRole_img, ProductImage.
  destruct (optional (data hook) title) as [[|c t]|]; reflexivity.
Qed.

(** ** ProductMeta *)

(** The panel as a list of texts. *)
Lemma ProductMeta_texts (hook : UseProductResult) (tree : node) :
  ProductMeta hook = Normal tree ->
  exists r,
    ratingText (data hook) = Normal r
    /\ texts tree =
       [([], ""); ([0], ""); ([0; 0], "Brand"); ([0; 1], brand_text hook);
        ([1], ""); ([1; 0], "Category"); ([1; 1], category_text hook);
        ([2], ""); ([2; 0], "Stock");
        ([2; 1], textContent (child_of_number (optional (data hook) stock)));
        ([3], ""); ([3; 0], "Rating"); ([3; 1], rating_text r)]%nat.
Proof.
  unfold ProductMeta, brand_text, category_text, rating_text.
  destruct (ratingText (data hook)) as [r|]; [|discriminate].
  cbn [bind]. intros <-%Normal_inj. exists r. split; [reflexivity|].
  destruct (brandLabel (data hook)), (optional (data hook) category),
    (optional (data hook) stock), r; reflexivity.
Qed.

(** The text of the stock has the characters of a number. *)
Lemma stock_text_lacks (c : ascii) (v : option number) :
  number_char c = false -> lacks c (textContent (child_of_number v)) = true.
Proof.
  intros H. destruct v as [x|]; [|reflexivity].
  exact (number_text_lacks c _ H (Number_toString_chars x)).
Qed.

(** The rating text is that of [toFixed], or nothing. *)
Lemma ratingText_chars (product : option Product) (r : option string) :
  ratingText product = Normal r ->
  match r with
  | Some s => all_chars number_char s = true /\ s <> ""
  | None => True
  end.
Proof.
  unfold ratingText. destruct (optional product rating) as [x|]; cbn [optional_call].
  - destruct (Number_toFixed x 1) as [s|] eqn:F; [|discriminate].
    intros <-%Normal_inj. split; [eapply Number_toFixed_chars | eapply Number_toFixed_nonempty];
      exact F.
  - now intros <-%Normal_inj.
Qed.

Lemma rating_text_lacks (c : ascii) (product : option Product) (r : option string) :
  number_char c = false -> lacks c "⭐ " = true -> ratingText product = Normal r ->
  lacks c (rating_text r) = true.
Proof.
  intros H G E. unfold rating_text. rewrite lacks_app, G.
  apply ratingText_chars in E. destruct r as [s|]; [|reflexivity].
  exact (number_text_lacks c s H (proj1 E)).
Qed.

(** The rating row is in the normalizer's form. *)
Lemma rating_text_normal (s : string) :
  all_chars number_char s = true -> s <> "" -> normalize (rating_text (Some s)) = rating_text (Some s).
Proof.
  intros H N. apply normalize_fixed. cbn.
  apply (all_chars_impl _ no_space _ number_char_no_space) in H.
  rewrite <- (append_nil_r s), (tidy_word s "" false H). now destruct s.
Qed.

(** The pattern of the rating accepts the rating row. *)
Lemma rating_pattern_accepts (s : string) :
  all_chars number_char s = true -> s <> "" ->
  matches (Regex (rating_pattern s)) (rating_text (Some s)) = true.
Proof.
  intros H N. cbn [matches]. rewrite (rating_text_normal s H N).
  unfold rating_pattern. rewrite search_literal. apply includes_spec.
  exists "", "". cbn [append rating_text child_of_string textContent].
  now rewrite append_nil_r.
Qed.

(** A matcher that needs a character which the texts of numbers lack
    finds nothing in the cells that only hold other cells, nor in the
    stock. *)
Lemma meta_query (hook : UseProductResult) (tree : node) (m : matcher) (c : ascii) :
  ProductMeta hook = Normal tree ->
  negb (Ascii.eqb " " c) = true -> needs c m = true -> number_char c = false ->
  exists r, ratingText (data hook) = Normal r
            /\ hits m (texts tree) = hits m (meta_cells hook r).
Proof.
  intros (r & Er & ->)%ProductMeta_texts Hc Hm Hn. exists r. split; [exact Er|].
  pose proof (matches_needs c m _ Hc Hm (stock_text_lacks c (optional (data hook) stock) Hn)) as H1.
  pose proof (matches_needs c m "" Hc Hm eq_refl) as H0.
  unfold meta_cells. auto 20 with queries.
Qed.

(** What clear values mean for one matcher. *)
Lemma values_refused (hook : UseProductResult) (ms : list matcher) (m : matcher) :
  values_clear hook ms = true -> In m ms ->
  matches m (brand_text hook) = false /\ matches m (category_text hook) = false.
Proof.
  unfold values_clear. rewrite forallb_forall. intros H I.
  apply H, andb_prop in I as [Hb%negb_true_iff Hk%negb_true_iff]. now split.
Qed.

(** A label matcher finds its label only. *)
Lemma label_query (hook : UseProductResult) (tree : node) (l : string) (c : ascii) :
  ProductMeta hook = Normal tree -> values_clear hook (map Exact meta_labels) = true ->
  In l meta_labels ->
  negb (Ascii.eqb " " c) = true -> needs c (Exact l) = true ->
  number_char c = false -> lacks c "⭐ " = true ->
  hits (Exact l) (texts tree)
  = hits (Exact l) [([0; 0], "Brand"); ([1; 0], "Category"); ([2; 0], "Stock"); ([3; 0], "Rating")]%nat.
Proof.
  intros H V I Hc Hm Hn Hg.
  destruct (meta_query hook tree _ c H Hc Hm Hn) as (r & Er & ->).
  destruct (values_refused hook _ (Exact l) V (in_map Exact _ _ I)) as [Hb Hk].
  pose proof (matches_needs c _ _ Hc Hm (rating_text_lacks c _ r Hn Hg Er)) as H2.
  unfold meta_cells. auto 20 with queries.
Qed.

(** A brand that reads as a label is found with the label: the query for
    the label then fails on two elements. *)
Lemma brand_collision (hook : UseProductResult) (tree : node) :
  ProductMeta hook = Normal tree -> brand_text hook = "Stock" ->
  byText (Exact "Stock") tree = Several.
Proof.
  intros H B. destruct (meta_query hook tree (Exact "Stock") "S" H) as (r & Er & E);
    try reflexivity.
  pose proof (matches_needs "S" (Exact "Stock") _ eq_refl eq_refl
                (rating_text_lacks "S" _ r eq_refl eq_refl Er)) as H2.
  unfold meta_cells in E. rewrite !hits_cons, B, H2 in E.
  destruct (matches (Exact "Stock") (category_text hook));
    exact (byText_several _ _ _ _ _ E).
Qed.

(** The fallback of the brand is found where the brand would be: for a
    result without a brand, or with the empty string as brand, the query
    for "N/A" finds the second cell of the first row, unless the category
    reads "N/A" too. *)
Lemma brand_fallback_found (hook : UseProductResult) (tree : node) :
  ProductMeta hook = Normal tree -> truthy (optional (data hook) brand) = false ->
  matches (Exact "N/A") (category_text hook) = false ->
  exists e, byText (Exact "N/A") tree = One ([0; 1]%nat, e).
Proof.
  intros H B Hk. apply byText_at.
  destruct (meta_query hook tree (Exact "N/A") "/" H) as (r & Er & ->); try reflexivity.
  pose proof (matches_needs "/" (Exact "N/A") _ eq_refl eq_refl
                (rating_text_lacks "/" _ r eq_refl eq_refl Er)) as H2.
  assert (Hb : matches (Exact "N/A") (brand_text hook) = true)
    by (unfold brand_text, brandLabel, js_or; now rewrite B).
  unfold meta_cells. auto 20 with queries.
Qed.

(** * Properties *)


(** C17: [getByText] finds each label of the panel once, in the first cell
    of its row, for every result of the hook for which neither the brand
    nor the category reads as a label, whatever else the product has or
    lacks. *)
Theorem meta_labels_found (hook : UseProductResult) (tree : node) (i : nat) (l : string) :
  ProductMeta hook = Normal tree -> values_clear hook (map Exact meta_labels) = true ->
  nth_error meta_labels i = Some l ->
  exists e, byText (Exact l) tree = One ([i; 0%nat], e).
Proof.
  intros H V N. assert (I : In l meta_labels) by (eapply nth_error_In; eassumption).
  apply byText_at.
  destruct i as [|[|[|[|i]]]]; cbn in N; try (destruct i; discriminate); injection N as <-.
  - now rewrite (label_query hook tree _ "B" H V I).
  - now rewrite (label_query hook tree _ "C" H V I).
  - now rewrite (label_query hook tree _ "S" H V I).
  - now rewrite (label_query hook tree _ "R" H V I).
Qed.

(** C18: The expression the tests build from the rating text finds the
    rating once, in the second cell of the last row, for every product
    with a rating whose brand and category do not hold that text. *)
Theorem rating_row_found (hook : UseProductResult) (tree : node) (s : string) :
  ProductMeta hook = Normal tree -> ratingText (data hook) = Normal (Some s) ->
  values_clear hook [Regex (rating_pattern s)] = true ->
  exists e, byText (Regex (rating_pattern s)) tree = One ([3; 1]%nat, e).
Proof.
  intros H R V. apply byText_at.
  destruct (meta_query hook tree (Regex (rating_pattern s)) "226" H) as (r & Er & ->);
    try reflexivity.
  assert (r = Some s) as -> by congruence.
  destruct (values_refused hook _ _ V (or_introl eq_refl)) as [Hb Hk].
  destruct (ratingText_chars _ _ R) as [Hs Hn].
  pose proof (rating_pattern_accepts s Hs Hn) as Hr.
  unfold meta_cells. auto 20 with queries.
Qed.

(** * Witnesses *)

Lemma meta_labels_found_witness :
  exists e,
    byText (Exact "Stock")
      (match ProductMeta (loaded ProductMetaTest.mockProduct) with
       | Normal t => t
       | Throw _ => Nothing
       end)
    = One ([2; 0]%nat, e).
Proof.
  apply (meta_labels_found (loaded ProductMetaTest.mockProduct) _ 2 "Stock"); reflexivity.
Defined.

Lemma rating_row_found_witness :
  exists e,
    byText (Regex (rating_pattern "4.6"))
      (match ProductMeta (loaded (ProductMetaTest.with_rating (number_of_decimal 4567 (-3)))) with
       | Normal t => t
       | Throw _ => Nothing
       end)
    = One ([3; 1]%nat, e).
Proof.
  apply (rating_row_found (loaded (ProductMetaTest.with_rating (number_of_decimal 4567 (-3)))));
    vm_compute; reflexivity.
Defined.
